(** * copy_and_verify.py: a batch copier over a file-system model

    The script copies three image files from a source directory into a
    destination directory under new names, creating the destination
    directory when [os.path.exists] says it is absent, records what it did
    in a list of log lines, catches every [Exception] raised on the way, and
    finally writes the lines, joined by newlines, to [copy_log.txt].

    The script itself is embedded statement by statement in a state and
    exception monad ([M]).  The library calls it makes ([os.path.join],
    [os.path.exists], [os.makedirs], [shutil.copy], [os.listdir], [open],
    [write], [str]) are embedded from their CPython 3.11 sources, down to
    the system calls, which are given their POSIX meaning over a tree of
    directories and regular files.

    What the tree does not hold: symbolic and hard links, special files,
    permission bits, and the Unicode tables that [repr] consults for
    characters outside ASCII.  A system call that changes the tree or reads
    a file ([mkdir], [open], [write], [chmod], [listdir]) may fail for a
    reason the tree does not show (permission denied, disk full, ...): it
    asks an oracle, a list that may make it raise any exception and tells a
    failing write how many bytes it got through first.  In particular
    [shutil.copy] hands the permission bits of the source to the
    destination, and what a read-only destination does to a later [open] is
    the oracle's to say.  The tests [os.path.exists] and [os.path.isdir]
    answer from the tree alone: a [stat] that fails for a reason outside the
    tree, where Python answers [False] for something that is there, is not
    modelled; the statements about the script take the answer of the test as
    it comes, or are made for an oracle with nothing to raise. *)

From Stdlib Require Import String Ascii List.
From stdpp Require Import base option list strings gmap.

Set Warnings "-register-all".

(** ** Python strings *)

Module Py.

Definition sep : ascii := "/"%char.
Definition squote : ascii := "'"%char.
Definition dquote : ascii := ascii_of_nat 34.
Definition backslash : ascii := ascii_of_nat 92.
Definition newline : string := String (ascii_of_nat 10) EmptyString.

(** [s.startswith(c)] and [s.endswith(c)] for a one-character [c]. *)
Definition startswith (c : ascii) (s : string) : bool :=
  match s with
  | String a _ => bool_decide (a = c)
  | EmptyString => false
  end.

Fixpoint endswith (c : ascii) (s : string) : bool :=
  match s with
  | EmptyString => false
  | String a EmptyString => bool_decide (a = c)
  | String _ s' => endswith c s'
  end.

Fixpoint contains (c : ascii) (s : string) : bool :=
  match s with
  | EmptyString => false
  | String a s' => bool_decide (a = c) || contains c s'
  end.

(** [(p[:i], p[i:])] for [i = p.rfind('/') + 1]. *)
Fixpoint rpartition (p : string) : string * string :=
  match p with
  | EmptyString => (EmptyString, EmptyString)
  | String a p' =>
      let '(h, t) := rpartition p' in
      if bool_decide (h = EmptyString) then
        if bool_decide (a = sep) then (String a EmptyString, t)
        else (EmptyString, String a t)
      else (String a h, t)
  end.

(** [s.rstrip('/')]. *)
Fixpoint rstrip (s : string) : string :=
  match s with
  | EmptyString => EmptyString
  | String a s' =>
      let r := rstrip s' in
      if bool_decide (r = EmptyString) && bool_decide (a = sep)
      then EmptyString else String a r
  end.

(** [posixpath.split]: trailing slashes are stripped from the head unless
    the head consists of slashes only. *)
Definition os_path_split (p : string) : string * string :=
  let '(head, tail) := rpartition p in
  (if bool_decide (rstrip head = EmptyString) then head else rstrip head, tail).

(** [posixpath.basename]. *)
Definition os_path_basename (p : string) : string := snd (rpartition p).

(** [posixpath.join(a, b)]. *)
Definition os_path_join (a b : string) : string :=
  if startswith sep b then b
  else if bool_decide (a = EmptyString) || endswith sep a then a +:+ b
  else a +:+ "/" +:+ b.

(** [s.split('/')]. *)
Fixpoint split_sep (s : string) : list string :=
  match s with
  | EmptyString => [EmptyString]
  | String a s' =>
      if bool_decide (a = sep) then EmptyString :: split_sep s'
      else match split_sep s' with
           | x :: r => String a x :: r
           | [] => [String a EmptyString]
           end
  end.

(** [repr] of a [str]: single quotes unless the string has a single quote
    and no double quote; backslash, the chosen quote and the control
    characters are escaped.  Bytes from 128 on stand for the UTF-8
    encoding of printable characters and are kept. *)
Definition hexdigit (n : nat) : ascii :=
  nth n (list_ascii_of_string "0123456789abcdef") "0"%char.

Definition repr_char (q c : ascii) : string :=
  let n := nat_of_ascii c in
  if bool_decide (c = backslash) then String backslash (String backslash EmptyString)
  else if bool_decide (c = q) then String backslash (String q EmptyString)
  else if bool_decide (n = 10) then String backslash "n"
  else if bool_decide (n = 13) then String backslash "r"
  else if bool_decide (n = 9) then String backslash "t"
  else if bool_decide (n < 32) || bool_decide (n = 127) then
    String backslash (String "x" (String (hexdigit (n / 16)) (String (hexdigit (n mod 16)) EmptyString)))
  else String c EmptyString.

Fixpoint repr_body (q : ascii) (s : string) : string :=
  match s with
  | EmptyString => EmptyString
  | String c s' => repr_char q c +:+ repr_body q s'
  end.

Definition repr (s : string) : string :=
  let q := if contains squote s && negb (contains dquote s) then dquote else squote in
  String q (repr_body q s) +:+ String q EmptyString.

(** [str] of a list of [str]. *)
Definition str_list (l : list string) : string :=
  "[" +:+ String.concat ", " (map repr l) +:+ "]".

(** ['\n'.join(l)]. *)
Definition join_lines (l : list string) : string := String.concat newline l.

(** The bytes a text file receives for a [str]: the model's strings
    already hold the encoded bytes. *)
Definition encode (s : string) : list Byte.byte := list_byte_of_string s.

End Py.

(** ** The file system: a tree of directories and regular files *)

Inductive node :=
  | File (data : list Byte.byte)
  | Dir (entries : gmap string node).

(** The node at the end of a list of names, from the root directory [t]. *)
Fixpoint lookup_path (t : gmap string node) (p : list string) : option node :=
  match p with
  | [] => Some (Dir t)
  | s :: p' =>
      match t !! s with
      | Some (Dir t') => lookup_path t' p'
      | Some (File d) => match p' with [] => Some (File d) | _ => None end
      | None => None
      end
  end.

(** Put node [v] at [p], whose parent directory has to exist. *)
Fixpoint set_path (t : gmap string node) (p : list string) (v : node) : gmap string node :=
  match p with
  | [] => t
  | [s] => <[s := v]> t
  | s :: p' =>
      match t !! s with
      | Some (Dir t') => <[s := Dir (set_path t' p' v)]> t
      | _ => t
      end
  end.

(** What a path shows without the contents of directories. *)
Inductive kind :=
  | Missing
  | IsFile (data : list Byte.byte)
  | IsDir.

Definition kind_of (n : node) : kind :=
  match n with File d => IsFile d | Dir _ => IsDir end.

Definition kind_at (t : gmap string node) (p : list string) : kind :=
  match lookup_path t p with Some n => kind_of n | None => Missing end.

Definition is_dir (t : gmap string node) (p : list string) : bool :=
  match lookup_path t p with Some (Dir _) => true | _ => false end.

Definition read_file (t : gmap string node) (p : list string) : option (list Byte.byte) :=
  match lookup_path t p with Some (File d) => Some d | _ => None end.

(** ** Exceptions *)

Inductive errno := ENOENT | EACCES | EEXIST | ENOTDIR | EISDIR | ENOSPC | EIO.

Definition errno_text (e : errno) : string :=
  match e with
  | ENOENT => "[Errno 2] No such file or directory"
  | EACCES => "[Errno 13] Permission denied"
  | EEXIST => "[Errno 17] File exists"
  | ENOTDIR => "[Errno 20] Not a directory"
  | EISDIR => "[Errno 21] Is a directory"
  | ENOSPC => "[Errno 28] No space left on device"
  | EIO => "[Errno 5] Input/output error"
  end.

(** Instances of [Exception]: an [OSError] with its errno and file name, or
    with two file names as the copying system calls give it
    ([FileExistsError] is the one with [EEXIST], [IsADirectoryError] the one
    with [EISDIR]), [shutil.SameFileError], and any other one, known by its
    message. *)
Inductive exn :=
  | OSError (e : errno) (filename : string)
  | OSError2 (e : errno) (filename filename2 : string)
  | SameFileError (src dst : string)
  | Exception (msg : string).

(** [str(e)]. *)
Definition str_exn (e : exn) : string :=
  match e with
  | OSError e f => errno_text e +:+ ": " +:+ Py.repr f
  | OSError2 e f g => errno_text e +:+ ": " +:+ Py.repr f +:+ " -> " +:+ Py.repr g
  | SameFileError a b => Py.repr a +:+ " and " +:+ Py.repr b +:+ " are the same file"
  | Exception m => m
  end.

Definition is_FileExistsError (e : exn) : bool :=
  match e with OSError EEXIST _ | OSError2 EEXIST _ _ => true | _ => false end.

Definition is_IsADirectoryError (e : exn) : bool :=
  match e with OSError EISDIR _ | OSError2 EISDIR _ _ => true | _ => false end.

(** ** The world and the program state *)

(** [faults] is the oracle: each system call that can fail for a reason the
    tree does not show takes the head of the list and raises [e] when it is
    [Some (e, n)]; a write has then got [n] bytes through. *)
Record World := mkWorld {
  fs : gmap string node;
  cwd : list string;
  faults : list (option (exn * nat))
}.

(** The script's one mutable variable is [log]. *)
Record State := mkState {
  world : World;
  log : list string
}.

Inductive outcome (A : Type) :=
  | Ret (a : A)
  | Raise (e : exn).
Arguments Ret {A} a.
Arguments Raise {A} e.

Definition M (A : Type) : Type := State → State * outcome A.

Definition ret {A} (a : A) : M A := λ st, (st, Ret a).

Definition bind {A B} (m : M A) (k : A → M B) : M B :=
  λ st, match m st with
        | (st', Ret a) => k a st'
        | (st', Raise e) => (st', Raise e)
        end.

Definition raise {A} (e : exn) : M A := λ st, (st, Raise e).

(** [try: m except Exception as e: h e]. *)
Definition try_except {A} (m : M A) (h : exn → M A) : M A :=
  λ st, match m st with
        | (st', Ret a) => (st', Ret a)
        | (st', Raise e) => h e st'
        end.

Notation "x ← m ; k" := (bind m (λ x, k))
  (at level 20, m at level 100, k at level 200, only parsing).
Notation "m ;; k" := (bind m (λ _, k))
  (at level 100, k at level 200, right associativity).

Definition get_world : M World := λ st, (st, Ret (world st)).
Definition put_fs (t : gmap string node) : M unit :=
  λ st, (mkState (mkWorld t (cwd (world st)) (faults (world st))) (log st), Ret tt).
Definition get_log : M (list string) := λ st, (st, Ret (log st)).

(** [log.append(line)]. *)
Definition log_append (line : string) : M unit :=
  λ st, (mkState (world st) (log st ++ [line]), Ret tt).

(** A system call asks the oracle. *)
Definition inject : M unit :=
  λ st, match faults (world st) with
        | [] => (st, Ret tt)
        | o :: rest =>
            (mkState (mkWorld (fs (world st)) (cwd (world st)) rest) (log st),
             match o with Some (e, _) => Raise e | None => Ret tt end)
        end.

(** ** Path resolution (POSIX, without links) *)

Definition components (p : string) : list string :=
  filter (λ s, s ≠ EmptyString) (Py.split_sep p).

(** One component further from [cur]. *)
Definition step (cur : list string) (s : string) : list string :=
  if bool_decide (s = ".") then cur
  else if bool_decide (s = "..") then removelast cur
  else cur ++ [s].

(** Every component is looked up in a directory; what the last one leads to
    is left to the caller. *)
Fixpoint walk (t : gmap string node) (cur : list string) (segs : list string)
  : errno + list string :=
  match segs with
  | [] => inr cur
  | s :: rest =>
      match lookup_path t cur with
      | Some (Dir _) => walk t (step cur s) rest
      | Some (File _) => inl ENOTDIR
      | None => inl ENOENT
      end
  end.

Definition namei (w : World) (p : string) : errno + list string :=
  if bool_decide (p = EmptyString) then inl ENOENT
  else walk (fs w) (if Py.startswith Py.sep p then [] else cwd w) (components p).

(** [os.stat(p)], as far as the node it finds. *)
Definition os_stat (w : World) (p : string) : errno + node :=
  match namei w p with
  | inl e => inl e
  | inr c =>
      match lookup_path (fs w) c with
      | None => inl ENOENT
      | Some (File d) => if Py.endswith Py.sep p then inl ENOTDIR else inr (File d)
      | Some (Dir t) => inr (Dir t)
      end
  end.

(** [os.path.exists] and [os.path.isdir] turn a failing [os.stat] into
    [False]. *)
Definition os_path_exists (w : World) (p : string) : bool :=
  match os_stat w p with inr _ => true | inl _ => false end.

Definition os_path_isdir (w : World) (p : string) : bool :=
  match os_stat w p with inr (Dir _) => true | _ => false end.

(** [os.path.samefile] inside [shutil._samefile]: both paths lead to the
    same node; [False] when either [os.stat] fails. *)
Definition samefile (w : World) (a b : string) : bool :=
  match os_stat w a, os_stat w b, namei w a, namei w b with
  | inr _, inr _, inr ca, inr cb => bool_decide (ca = cb)
  | _, _, _, _ => false
  end.

(** ** System calls *)

Definition sys_mkdir (p : string) : M unit :=
  inject ;;
  w ← get_world;
  match namei w p with
  | inl e => raise (OSError e p)
  | inr c =>
      match lookup_path (fs w) c with
      | Some _ => raise (OSError EEXIST p)
      | None => put_fs (set_path (fs w) c (Dir ∅))
      end
  end.

(** [open(p, 'rb')] and reading the file to its end. *)
Definition sys_open_read (p : string) : M (list Byte.byte) :=
  inject ;;
  w ← get_world;
  match namei w p with
  | inl e => raise (OSError e p)
  | inr c =>
      match lookup_path (fs w) c with
      | None => raise (OSError ENOENT p)
      | Some (File d) =>
          if Py.endswith Py.sep p then raise (OSError ENOTDIR p) else ret d
      | Some (Dir _) => raise (OSError EISDIR p)
      end
  end.

(** [open(p, 'w')] and [open(p, 'wb')]: the file is created or emptied; the
    file object is known by where the file is. *)
Definition sys_open_write (p : string) : M (list string) :=
  inject ;;
  w ← get_world;
  match namei w p with
  | inl e => raise (OSError e p)
  | inr c =>
      if Py.endswith Py.sep p then raise (OSError EISDIR p)
      else match lookup_path (fs w) c with
           | Some (Dir _) => raise (OSError EISDIR p)
           | _ => put_fs (set_path (fs w) c (File [])) ;; ret c
           end
  end.

(** Writing [data] through a file object and closing it; when the oracle
    makes it fail after [n] bytes the file keeps those.  A file that is no
    longer in the tree takes the data with it. *)
Definition sys_write (f : list string) (data : list Byte.byte) : M unit :=
  w ← get_world;
  let put (d : list Byte.byte) : M unit :=
    match lookup_path (fs w) f with
    | Some (File _) => put_fs (set_path (fs w) f (File d))
    | _ => ret tt
    end in
  match faults w with
  | Some (_, n) :: _ => put (take n data) ;; inject
  | _ => put data ;; inject
  end.

(** [os.chmod]: the tree holds no permission bits, so the call changes
    nothing there; it can fail, and what the new bits do to later calls is
    left to the oracle. *)
Definition sys_chmod (p : string) : M unit := inject.

(** [os.listdir(p)], in the order the map yields the names. *)
Definition os_listdir (p : string) : M (list string) :=
  inject ;;
  w ← get_world;
  match namei w p with
  | inl e => raise (OSError e p)
  | inr c =>
      match lookup_path (fs w) c with
      | None => raise (OSError ENOENT p)
      | Some (File _) => raise (OSError ENOTDIR p)
      | Some (Dir t) => ret (map fst (map_to_list t))
      end
  end.

(** ** Library functions *)

(** [os.makedirs(name)] with [exist_ok=False].  [depth] bounds the
    recursion on the head of the path, which gets shorter each time. *)
Fixpoint makedirs_rec (depth : nat) (name : string) : M unit :=
  let '(head, tail) := Py.os_path_split name in
  let '(head, tail) :=
    if bool_decide (tail = EmptyString) then Py.os_path_split head else (head, tail) in
  w ← get_world;
  if negb (bool_decide (head = EmptyString)) && negb (bool_decide (tail = EmptyString))
     && negb (os_path_exists w head)
  then
    match depth with
    | 0 => raise (Exception "maximum recursion depth exceeded")
    | S depth' =>
        try_except (makedirs_rec depth' head)
                   (λ e, if is_FileExistsError e then ret tt else raise e) ;;
        if bool_decide (tail = ".") then ret tt else sys_mkdir name
    end
  else sys_mkdir name.

Definition os_makedirs (name : string) : M unit :=
  makedirs_rec (String.length name) name.

(** [shutil.copyfile(src, dst)]. *)
Definition copyfile (src dst : string) : M unit :=
  w ← get_world;
  if samefile w src dst then raise (SameFileError src dst)
  else
    data ← sys_open_read src;
    try_except (fdst ← sys_open_write dst; sys_write fdst data)
               (λ e, if is_IsADirectoryError e then
                       w' ← get_world;
                       if negb (os_path_exists w' dst)
                       then raise (Exception ("Directory does not exist: " +:+ dst))
                       else raise e
                     else raise e).

(** [shutil.copymode(src, dst)]. *)
Definition copymode (src dst : string) : M unit := sys_chmod dst.

(** [shutil.copy(src, dst)]. *)
Definition shutil_copy (src dst : string) : M unit :=
  w ← get_world;
  let dst := if os_path_isdir w dst
             then Py.os_path_join dst (Py.os_path_basename src) else dst in
  copyfile src dst ;;
  copymode src dst.

(** ** The script *)

Definition src_dir : string :=
  "/Users/agustinmontoya/.gemini/antigravity/brain/78cdc80a-5658-49ad-b030-70cc2cb4da13/".
Definition dst_dir : string :=
  "/Users/agustinmontoya/Projectos/MVPs/juego-cartas-educativo/mindspark-duel/public/assets/decks/".

Definition files : list (string * string) :=
  [ ("technomancer_epic_box_1764234646053.png", "technomancer-box.png");
    ("nature_epic_box_1764234660611.png", "grove-guardians-box.png");
    ("arcane_epic_box_1764234805234.png", "arcane-scholars-box.png") ].

Definition src_path (e : string * string) : string := Py.os_path_join src_dir (fst e).
Definition dst_path (e : string * string) : string := Py.os_path_join dst_dir (snd e).

Definition copied_line (e : string * string) : string :=
  "Copied " +:+ src_path e +:+ " to " +:+ dst_path e.
Definition not_found_line (e : string * string) : string :=
  "Source file not found: " +:+ src_path e.
Definition created_line : string := "Created directory " +:+ dst_dir.
Definition error_line (e : exn) : string := "Error: " +:+ str_exn e.

(** The body of the [for] loop, for one pair of the manifest. *)
Definition copy_entry (e : string * string) : M unit :=
  let src := src_path e in
  let dst := dst_path e in
  w ← get_world;
  if os_path_exists w src then
    shutil_copy src dst ;;
    log_append (copied_line e)
  else
    log_append (not_found_line e).

(** [for src_name, dst_name in l: ...]. *)
Fixpoint for_files (l : list (string * string)) : M unit :=
  match l with
  | [] => ret tt
  | e :: l' => copy_entry e ;; for_files l'
  end.

(** The first statement of the [try] block. *)
Definition ensure_dst_dir : M unit :=
  w ← get_world;
  if negb (os_path_exists w dst_dir) then
    os_makedirs dst_dir ;;
    log_append created_line
  else ret tt.

(** The last two statements of the [try] block; the header is appended
    before [os.listdir] is called. *)
Definition list_destination : M unit :=
  log_append "Destination contents:" ;;
  names ← os_listdir dst_dir;
  log_append (Py.str_list names).

(** The [try] block. *)
Definition try_block : M unit :=
  ensure_dst_dir ;;
  for_files files ;;
  list_destination.

(** [with open('copy_log.txt', 'w') as f: f.write('\n'.join(log))]. *)
Definition log_file : string := "copy_log.txt".

Definition write_log : M unit :=
  lg ← get_log;
  f ← sys_open_write log_file;
  sys_write f (Py.encode (Py.join_lines lg)).

(** The whole script. *)
Definition script : M unit :=
  try_except try_block (λ e, log_append (error_line e)) ;;
  write_log.

(** A run starts with an empty log; an exception that leaves [script] ends
    the process with a traceback and status 1. *)
Definition run (w : World) : State * outcome unit := script (mkState w []).

Definition exit_status (o : outcome unit) : nat :=
  match o with Ret _ => 0 | Raise _ => 1 end.

(** ** Paths made of ordinary names *)

(** A component other than [.] and [..]. *)
Definition plain (s : string) : bool :=
  negb (bool_decide (s = ".")) && negb (bool_decide (s = "..")).

(** A path with at least one component, all of them ordinary. *)
Definition plain_path (p : string) : bool :=
  negb (bool_decide (components p = [])) && forallb plain (components p).

(** Where such a path leads: its components, from the root or from the
    current directory. *)
Definition canon (w : World) (p : string) : list string :=
  (if Py.startswith Py.sep p then [] else cwd w) ++ components p.

(** An absolute path to something that need not be a directory. *)
Definition abs_file_path (p : string) : bool :=
  Py.startswith Py.sep p && negb (Py.endswith Py.sep p) && plain_path p.

(** Where [shutil.copy] puts the file when the destination path is a
    directory. *)
Definition dst_inside (e : string * string) : string :=
  Py.os_path_join (dst_path e) (Py.os_path_basename (src_path e)).

(** The file [shutil.copy] writes for a pair of the manifest. *)
Definition target (w : World) (e : string * string) : list string :=
  if os_path_isdir w (dst_path e) then components (dst_inside e)
  else components (dst_path e).

(** Every file the loop can write. *)
Definition writes (l : list (string * string)) : list (list string) :=
  flat_map (λ e, [components (dst_path e); components (dst_inside e)]) l.

(** What the proofs use of a manifest: its paths are absolute and made of
    ordinary names, no file is written for two pairs, no source is written,
    and the log file is none of them. *)
Definition manifest_ok (l : list (string * string)) : bool :=
  forallb (λ e, abs_file_path (src_path e) && abs_file_path (dst_path e)
                && abs_file_path (dst_inside e)) l
  && bool_decide (NoDup (writes l))
  && forallb (λ e, bool_decide (components (src_path e) ∉ writes l)) l
  && forallb (λ c, bool_decide (last c ≠ Some log_file))
             (writes l ++ map (λ e, components (src_path e)) l).

(** ** Reading the log *)

(** The line a pair of the manifest leaves in the log. *)
Definition entry_line (e : string * string) (line : string) : Prop :=
  line = copied_line e ∨ line = not_found_line e.

Fixpoint has_prefix (pre line : string) : bool :=
  match pre, line with
  | EmptyString, _ => true
  | String a pre', String b line' => bool_decide (a = b) && has_prefix pre' line'
  | String _ _, EmptyString => false
  end.

Definition is_entry_line (line : string) : bool :=
  has_prefix "Copied " line || has_prefix "Source file not found: " line.

(** What the [try] statement does when [try_block] has raised. *)
Definition handler (e : exn) : M unit := log_append (error_line e).

(** The script from the loop on, for the pairs still to be copied. *)
Definition script_from (l : list (string * string)) : M unit :=
  try_except (for_files l ;; list_destination) handler ;;
  write_log.

(** ** Sample worlds *)

(** [mkdir -p]: the directories along [p] below [pre] that are not there. *)
Fixpoint mkdir_from (t : gmap string node) (pre p : list string) : gmap string node :=
  match p with
  | [] => t
  | s :: p' =>
      let c := pre ++ [s] in
      mkdir_from (match lookup_path t c with
                  | None => set_path t c (Dir ∅)
                  | Some _ => t
                  end) c p'
  end.

(** A current directory [/tmp] and a source directory that holds the first
    two files of the manifest. *)
Definition fs_sources : gmap string node :=
  let t := mkdir_from (mkdir_from ∅ [] ["tmp"]) [] (components src_dir) in
  let t := set_path t (components src_dir ++ ["technomancer_epic_box_1764234646053.png"])
                    (File (Py.encode "PNG 1")) in
  set_path t (components src_dir ++ ["nature_epic_box_1764234660611.png"])
           (File (Py.encode "PNG 2")).

(** No destination directory yet. *)
Definition world_fresh : World := mkWorld fs_sources ["tmp"] [].

(** The destination directory is there and empty. *)
Definition fs_ready : gmap string node :=
  mkdir_from fs_sources [] (components dst_dir).
Definition world_ready : World := mkWorld fs_ready ["tmp"] [].

(** A regular file sits where the destination directory should be. *)
Definition world_dst_is_file : World :=
  mkWorld (set_path (mkdir_from fs_sources [] (removelast (components dst_dir)))
                    (components dst_dir) (File []))
          ["tmp"] [].

(** A directory sits where the first file should be copied to. *)
Definition world_dst_taken : World :=
  mkWorld (mkdir_from fs_sources [] (components dst_dir ++ ["technomancer-box.png"]))
          ["tmp"] [].

(** A directory named [copy_log.txt] sits in the current directory. *)
Definition world_log_is_dir : World :=
  mkWorld (mkdir_from fs_ready [] ["tmp"; "copy_log.txt"]) ["tmp"] [].

(** Opening the first destination file is refused. *)
Definition world_denied : World :=
  mkWorld fs_ready ["tmp"]
          [None; Some (OSError EACCES (dst_path ("technomancer_epic_box_1764234646053.png",
                                                 "technomancer-box.png")), 0)].

(** Both files of the first pair can be opened and the write fails after
    three bytes: the disk is full. *)
Definition world_disk_full : World :=
  mkWorld fs_ready ["tmp"]
          [None; None;
           Some (OSError2 ENOSPC
                   (src_path ("technomancer_epic_box_1764234646053.png",
                              "technomancer-box.png"))
                   (dst_path ("technomancer_epic_box_1764234646053.png",
                              "technomancer-box.png")), 3)].

(** The state in which the [try] block ends in a world, the state after
    its first statement, and the state after the first [n] pairs. *)
Definition try_end (w : World) : State := fst (try_block (mkState w [])).
Definition after_ensure (w : World) : State := fst (ensure_dst_dir (mkState w [])).
Definition after_entries (n : nat) (w : World) : State :=
  fst (for_files (take n files) (after_ensure w)).

(** The world a run leaves behind: the one a second run starts in. *)
Definition after_run (w : World) : World := world (fst (run w)).

(** The pairs of the manifest, by name. *)
Definition technomancer : string * string :=
  ("technomancer_epic_box_1764234646053.png", "technomancer-box.png").
Definition nature : string * string :=
  ("nature_epic_box_1764234660611.png", "grove-guardians-box.png").
Definition arcane : string * string :=
  ("arcane_epic_box_1764234805234.png", "arcane-scholars-box.png").

(** A directory sits where the first source should be; the other
    sources are missing. *)
Definition world_src_is_dir : World :=
  mkWorld (mkdir_from
             (mkdir_from (mkdir_from ∅ [] ["tmp"]) []
                (components src_dir ++ ["technomancer_epic_box_1764234646053.png"]))
             [] (components dst_dir))
          ["tmp"] [].

(** Opening the first destination file is refused, and a directory named
    [copy_log.txt] sits in the current directory. *)
Definition world_denied_log_is_dir : World :=
  mkWorld (mkdir_from fs_ready [] ["tmp"; "copy_log.txt"]) ["tmp"]
          [None; Some (OSError EACCES (dst_path technomancer), 0)].


(** ** Names that print as they are *)

Fixpoint string_forallb (f : ascii → bool) (s : string) : bool :=
  match s with
  | EmptyString => true
  | String c s' => f c && string_forallb f s'
  end.


(** Printable ASCII characters other than the single quote and the
    backslash: [repr] puts such a string between single quotes and changes
    nothing in it. *)
Definition simple_name (s : string) : bool :=
  string_forallb (λ c, bool_decide (32 ≤ nat_of_ascii c) && bool_decide (nat_of_ascii c < 127)
                       && negb (bool_decide (c = Py.squote))
                       && negb (bool_decide (c = Py.backslash))) s.

(** The paths of the script are long strings: they are computed on demand,
    not at every simplification. *)
Arguments components : simpl never.
Arguments created_line : simpl never.
Arguments copied_line : simpl never.
Arguments not_found_line : simpl never.
Arguments error_line : simpl never.
Arguments src_path : simpl never.
Arguments dst_path : simpl never.
Arguments dst_inside : simpl never.

(** ** Notions the proofs are stated with *)

Definition leaf (v : node) : Prop :=
  match v with File _ => True | Dir t => t = ∅ end.

(** [respects L R m]: whatever [m] does and however it ends, the current
    directory stays, the log changes within [L], the tree within [R], and
    an oracle that has nothing left to raise stays so. *)
Definition respects {A} (L : relation (list string)) (R : relation (gmap string node))
    (m : M A) : Prop :=
  ∀ st st' o, m st = (st', o) →
    cwd (world st') = cwd (world st) ∧
    (faults (world st) = [] → faults (world st') = []) ∧
    L (log st) (log st') ∧
    R (fs (world st)) (fs (world st')).

(** Files are written at paths in [X] only, and no directory comes or
    goes. *)
Definition frame (X : list string → Prop) : relation (gmap string node) :=
  λ t t', (∀ q, is_dir t' q = is_dir t q) ∧
          (∀ q, ¬ X q → kind_at t' q = kind_at t q).

(** What a write puts in the file: all of the data, or as much of it as
    the oracle lets through before making the write fail. *)
Definition write_gets (w : World) (data : list Byte.byte) : list Byte.byte :=
  match faults w with
  | Some (_, n) :: _ => take n data
  | _ => data
  end.

(** The two places where a pair of the manifest can be written. *)
Definition targets (e : string * string) (q : list string) : Prop :=
  q = components (dst_path e) ∨ q = components (dst_inside e).

(** What is there stays as it is; directories may appear where nothing
    was. *)
Definition grows : relation (gmap string node) :=
  λ t t', ∀ q, kind_at t q ≠ Missing → kind_at t' q = kind_at t q.

(** The tail of the path that [os.makedirs] looks at. *)
Definition makedirs_tail (name : string) : string :=
  let '(head, tail) := Py.os_path_split name in
  snd (if bool_decide (tail = EmptyString) then Py.os_path_split head else (head, tail)).

(** The state after a file has been opened for writing, written and
    closed. *)
Definition written (st : State) (c : list string) (data : list Byte.byte) : State :=
  mkState (mkWorld (set_path (set_path (fs (world st)) c (File [])) c (File data))
                   (cwd (world st)) (faults (world st)))
          (log st).

(** The path [shutil.copy] hands to [copyfile]. *)
Definition target_path (w : World) (e : string * string) : string :=
  if os_path_isdir w (dst_path e) then dst_inside e else dst_path e.

(** The head of the path that [os.makedirs] looks at. *)
Definition makedirs_head (name : string) : string :=
  let '(head, tail) := Py.os_path_split name in
  fst (if bool_decide (tail = EmptyString) then Py.os_path_split head else (head, tail)).

(** What is there stays, and what appears does so at paths in [X]. *)
Definition makes (X : list string → Prop) : relation (gmap string node) :=
  λ t t', grows t t' ∧ ∀ q, ¬ X q → kind_at t' q = kind_at t q.

(** The state in which the log is written. *)
Definition logged (r : State * outcome unit) : State :=
  match r with
  | (st, Ret _) => st
  | (st, Raise e) => mkState (world st) (log st ++ [error_line e])
  end.


(** * Proofs *)

(** ** The tree *)

Section Tree.
Implicit Types (t : gmap string node) (p q a b : list string) (v : node).

Lemma lookup_path_app t a b :
  lookup_path t (a ++ b) =
    match lookup_path t a with
    | Some (Dir t') => lookup_path t' b
    | Some (File d) => match b with [] => Some (File d) | _ => None end
    | None => None
    end.
Proof.
  revert t. induction a as [|s a IH]; intros t; simpl; [done|].
  destruct (t !! s) as [[d|t']|]; [|apply IH|done].
  destruct a; simpl; [done|]. by destruct b.
Qed.

Lemma kind_at_nil t : kind_at t [] = IsDir.
Proof. done. Qed.

Lemma is_dir_kind t p : is_dir t p = true ↔ kind_at t p = IsDir.
Proof.
  unfold is_dir, kind_at. destruct (lookup_path t p) as [[]|]; simpl; naive_solver.
Qed.

Lemma is_dir_kind_false t p : is_dir t p = false ↔ kind_at t p ≠ IsDir.
Proof.
  unfold is_dir, kind_at. destruct (lookup_path t p) as [[]|]; simpl; naive_solver.
Qed.

Lemma read_file_kind t p d : read_file t p = Some d ↔ kind_at t p = IsFile d.
Proof.
  unfold read_file, kind_at. destruct (lookup_path t p) as [[]|]; simpl; naive_solver.
Qed.


Lemma is_dir_kind_eq t t' p q :
  kind_at t p = kind_at t' q → is_dir t p = is_dir t' q.
Proof.
  unfold is_dir, kind_at.
  destruct (lookup_path t p) as [[]|], (lookup_path t' q) as [[]|]; simpl; congruence.
Qed.

(** Whatever lies below a path lies below a directory. *)
Lemma kind_at_below t a b :
  b ≠ [] → kind_at t (a ++ b) ≠ Missing → kind_at t a = IsDir.
Proof.
  intros Hb. unfold kind_at. rewrite lookup_path_app.
  destruct (lookup_path t a) as [[d|t']|]; simpl; [|done..].
  by destruct b.
Qed.

Lemma kind_at_parent t p :
  p ≠ [] → kind_at t p ≠ Missing → kind_at t (removelast p) = IsDir.
Proof.
  intros Hp Hk. destruct (exists_last Hp) as (a & s & ->).
  rewrite removelast_last. by apply (kind_at_below t a [s]).
Qed.

(** Without a parent directory [set_path] changes nothing. *)
Lemma set_path_no_parent t p v :
  kind_at t (removelast p) ≠ IsDir → set_path t p v = t.
Proof.
  revert t. induction p as [|s p IH]; intros t Hk; [done|].
  destruct p as [|s' p]; [done|].
  change (set_path t (s :: s' :: p) v)
    with (match t !! s with
          | Some (Dir t') => <[s := Dir (set_path t' (s' :: p) v)]> t
          | _ => t
          end).
  destruct (t !! s) as [[d|t']|] eqn:Hs; [done| |done].
  rewrite IH.
  - by apply insert_id.
  - intros Hk'. apply Hk. revert Hk'.
    change (removelast (s :: s' :: p)) with (s :: removelast (s' :: p)).
    unfold kind_at. simpl lookup_path at 2. by rewrite Hs.
Qed.

Lemma kind_at_cons t s q :
  kind_at t (s :: q) =
    match t !! s with
    | Some (Dir t') => kind_at t' q
    | Some (File d) => match q with [] => IsFile d | _ => Missing end
    | None => Missing
    end.
Proof.
  unfold kind_at. simpl. destruct (t !! s) as [[d|t']|]; [|done..]. by destruct q.
Qed.

Lemma set_path_cons t s s' p v :
  set_path t (s :: s' :: p) v =
    match t !! s with
    | Some (Dir t') => <[s := Dir (set_path t' (s' :: p) v)]> t
    | _ => t
    end.
Proof. done. Qed.

(** Putting a file or an empty directory where there is no directory
    changes what is seen at that path and nowhere else. *)
Lemma kind_at_set_path t p v q :
  p ≠ [] → kind_at t (removelast p) = IsDir → kind_at t p ≠ IsDir → leaf v →
  kind_at (set_path t p v) q = if decide (q = p) then kind_of v else kind_at t q.
Proof.
  revert t q. induction p as [|s p IH]; intros t q Hp Hpar Hold Hv; [done|].
  destruct p as [|s' p].
  - (* the last name *)
    simpl set_path. rewrite kind_at_cons in Hold.
    destruct q as [|s0 q]; [by rewrite decide_False by done|].
    rewrite !kind_at_cons. destruct (decide (s0 = s)) as [->|Hne].
    + rewrite lookup_insert_eq.
      destruct q as [|s1 q].
      * rewrite decide_True by done. by destruct v.
      * rewrite decide_False by congruence.
        destruct (t !! s) as [[d|t']|]; [|done|];
          (destruct v as [d'|tv]; [done|]; simpl in Hv; subst tv;
           rewrite kind_at_cons; by rewrite lookup_empty).
    + rewrite lookup_insert_ne by done.
      rewrite decide_False by congruence. done.
  - rewrite set_path_cons.
    change (removelast (s :: s' :: p)) with (s :: removelast (s' :: p)) in Hpar.
    rewrite kind_at_cons in Hpar, Hold.
    destruct (t !! s) as [[d|t']|] eqn:Hs.
    { exfalso. by destruct p. }
    2:{ done. }
    destruct q as [|s0 q]; [by rewrite decide_False by done|].
    rewrite !kind_at_cons.
    destruct (decide (s0 = s)) as [->|Hne].
    + rewrite lookup_insert_eq, Hs.
      rewrite IH; [|done..].
      destruct (decide (q = s' :: p)) as [->|Hq].
      * by rewrite decide_True.
      * by rewrite decide_False by congruence.
    + rewrite lookup_insert_ne by done.
      by rewrite decide_False by congruence.
Qed.

(** Writing a file where there is no directory leaves every other path
    as it was, whether the parent is there or not. *)
Lemma kind_at_set_file_other t p d q :
  kind_at t p ≠ IsDir → q ≠ p → kind_at (set_path t p (File d)) q = kind_at t q.
Proof.
  intros Hold Hq.
  destruct (is_dir t (removelast p)) eqn:Hpar;
    [apply is_dir_kind in Hpar|apply is_dir_kind_false in Hpar].
  - destruct p as [|s p]; [done|].
    rewrite kind_at_set_path; [|done..]. by rewrite decide_False.
  - by rewrite set_path_no_parent.
Qed.

Lemma kind_at_set_file_same t p d :
  p ≠ [] → kind_at t (removelast p) = IsDir → kind_at t p ≠ IsDir →
  kind_at (set_path t p (File d)) p = IsFile d.
Proof.
  intros. rewrite kind_at_set_path; [|done..]. by rewrite decide_True.
Qed.

(** A file put in place never turns a directory into something else, nor
    something else into a directory. *)
Lemma is_dir_set_file t p d q :
  kind_at t p ≠ IsDir → is_dir (set_path t p (File d)) q = is_dir t q.
Proof.
  intros Hold. destruct (decide (q = p)) as [->|Hq].
  - destruct (is_dir t (removelast p)) eqn:Hpar;
    [apply is_dir_kind in Hpar|apply is_dir_kind_false in Hpar].
    + destruct p as [|s p]; [done|].
      apply is_dir_kind_false in Hold as Hd. rewrite Hd.
      apply is_dir_kind_false. by rewrite kind_at_set_file_same.
    + by rewrite set_path_no_parent.
  - apply is_dir_kind_eq. by apply kind_at_set_file_other.
Qed.

End Tree.

(** ** The monad *)

Section Monad.
Context {A B : Type}.
Implicit Types (m : M A) (k : A → M B).

Lemma bind_Ret m k st st' b :
  bind m k st = (st', Ret b) →
  ∃ a st1, m st = (st1, Ret a) ∧ k a st1 = (st', Ret b).
Proof.
  unfold bind. destruct (m st) as [st1 [a|e]]; [|done]. eauto.
Qed.

Lemma bind_Raise m k st st' e :
  bind m k st = (st', Raise e) →
  m st = (st', Raise e) ∨ ∃ a st1, m st = (st1, Ret a) ∧ k a st1 = (st', Raise e).
Proof.
  unfold bind. destruct (m st) as [st1 [a|e']]; [eauto|]. intros [= -> ->]. eauto.
Qed.

Lemma bind_eq_Ret m k st st1 a :
  m st = (st1, Ret a) → bind m k st = k a st1.
Proof. unfold bind. by intros ->. Qed.

Lemma bind_eq_Raise m k st st1 e :
  m st = (st1, Raise e) → bind m k st = (st1, Raise e).
Proof. unfold bind. by intros ->. Qed.
End Monad.

(** ** What every operation leaves alone *)

Global Instance frame_preorder X : PreOrder (frame X).
Proof.
  split.
  - by intros t.
  - intros t1 t2 t3 [Hd1 Hk1] [Hd2 Hk2]. split; intros q.
    + by rewrite Hd2, Hd1.
    + intros Hq. by rewrite Hk2, Hk1.
Qed.

Lemma frame_mono (X Y : list string → Prop) t t' :
  (∀ q, X q → Y q) → frame X t t' → frame Y t t'.
Proof. intros HXY [Hd Hk]. split; [done|]. intros q Hq. apply Hk. naive_solver. Qed.

Lemma respects_mono {A} (L L' : relation (list string)) R R' (m : M A) :
  (∀ x y, L x y → L' x y) → (∀ x y, R x y → R' x y) →
  respects L R m → respects L' R' m.
Proof.
  intros HL HR Hm st st' o H. apply Hm in H as (Hc & Hf & Hl & Hr). auto.
Qed.

Section Respects.
Context (L : relation (list string)) (R : relation (gmap string node)).
Context `{!PreOrder L, !PreOrder R}.

Lemma respects_ret {A} (a : A) : respects L R (ret a).
Proof. intros st st' o [= <- <-]. done. Qed.

Lemma respects_raise {A} e : respects L R (@raise A e).
Proof. intros st st' o [= <- <-]. done. Qed.

Lemma respects_bind {A B} (m : M A) (k : A → M B) :
  respects L R m → (∀ a, respects L R (k a)) → respects L R (bind m k).
Proof.
  intros Hm Hk st st' o. unfold bind.
  destruct (m st) as [st1 [a|e]] eqn:E; apply Hm in E as (Hc & Hf & HL & HR).
  - intros (Hc' & Hf' & HL' & HR')%Hk.
    split_and!; [congruence|auto|by etrans..].
  - by intros [= <- <-].
Qed.

Lemma respects_try_except {A} (m : M A) h :
  respects L R m → (∀ e, respects L R (h e)) → respects L R (try_except m h).
Proof.
  intros Hm Hh st st' o. unfold try_except.
  destruct (m st) as [st1 [a|e]] eqn:E; apply Hm in E as (Hc & Hf & HL & HR).
  - by intros [= <- <-].
  - intros (Hc' & Hf' & HL' & HR')%Hh.
    split_and!; [congruence|auto|by etrans..].
Qed.

Lemma respects_get_world : respects L R get_world.
Proof. intros st st' o [= <- <-]. done. Qed.

Lemma respects_get_log : respects L R get_log.
Proof. intros st st' o [= <- <-]. done. Qed.

Lemma respects_inject : respects L R inject.
Proof.
  intros st st' o. unfold inject.
  destruct (faults (world st)) eqn:E; intros [= <- <-]; simpl;
    split_and!; done.
Qed.

Lemma respects_if {A} (b : bool) (m1 m2 : M A) :
  respects L R m1 → respects L R m2 → respects L R (if b then m1 else m2).
Proof. by destruct b. Qed.

End Respects.

Lemma respects_log_append R `{!PreOrder R} line : respects prefix R (log_append line).
Proof.
  intros st st' o [= <- <-]. simpl. split_and!; [done..| |done].
  by apply prefix_app_r.
Qed.

(** ** System calls *)

Lemma inject_inv st st1 o :
  inject st = (st1, o) →
  fs (world st1) = fs (world st) ∧ cwd (world st1) = cwd (world st) ∧
  log st1 = log st ∧ (faults (world st) = [] → faults (world st1) = [] ∧ o = Ret tt).
Proof.
  unfold inject. destruct (faults (world st)) as [|x rest] eqn:E;
    intros [= <- <-]; simpl; split_and!; done.
Qed.

Lemma inject_nil st : faults (world st) = [] → inject st = (st, Ret tt).
Proof. unfold inject. by intros ->. Qed.

Lemma namei_ext w w' p :
  fs w = fs w' → cwd w = cwd w' → namei w p = namei w' p.
Proof. unfold namei. by intros -> ->. Qed.

Lemma os_stat_ext w w' p :
  fs w = fs w' → cwd w = cwd w' → os_stat w p = os_stat w' p.
Proof. intros Hf Hc. unfold os_stat. by rewrite (namei_ext w w'), Hf. Qed.

Ltac munfold H :=
  unfold bind, get_world, get_log, put_fs, raise, ret, log_append in H; simpl in H.

Ltac inject_cases st st1 Hf Hc Hl Hn :=
  let e := fresh "e" in
  let Hi := fresh "Hi" in
  destruct (inject st) as [st1 [[]|e]] eqn:Hi;
  apply inject_inv in Hi as (Hf & Hc & Hl & Hn).

Lemma frame_set_file (X : list string → Prop) t c d :
  X c → kind_at t c ≠ IsDir → frame X t (set_path t c (File d)).
Proof.
  intros Hc Hk. split; intros q.
  - by apply is_dir_set_file.
  - intros Hq. apply kind_at_set_file_other; [done|]. by intros ->.
Qed.

Lemma sys_write_eq f data st :
  sys_write f data st =
    (match lookup_path (fs (world st)) f with
     | Some (File _) =>
         put_fs (set_path (fs (world st)) f (File (write_gets (world st) data)))
     | _ => ret tt
     end ;; inject) st.
Proof.
  unfold sys_write, write_gets. unfold bind at 1. unfold get_world.
  by destruct (faults (world st)) as [|[[e n]|] rest].
Qed.

Lemma write_gets_faults w w' data :
  faults w = faults w' → write_gets w data = write_gets w' data.
Proof. unfold write_gets. by intros ->. Qed.

Lemma inject_Ret st st' data :
  inject st = (st', Ret tt) → write_gets (world st) data = data.
Proof.
  unfold inject, write_gets.
  by destruct (faults (world st)) as [|[[e n]|] rest].
Qed.

Lemma write_gets_nil w data : faults w = [] → write_gets w data = data.
Proof. unfold write_gets. by intros ->. Qed.

Section Syscalls.
Context (X : list string → Prop).

Lemma respects_sys_open_read p : respects eq (frame X) (sys_open_read p).
Proof.
  intros st st' o H. unfold sys_open_read in H. munfold H.
  inject_cases st st1 Hf Hc Hl Hn.
  - destruct (namei (world st1) p) as [e|c];
      [by simplify_eq; rewrite Hf; split_and!; try tauto|].
    destruct (lookup_path (fs (world st1)) c) as [[d|t]|];
      [destruct (Py.endswith Py.sep p)|..]; simplify_eq; rewrite Hf;
      split_and!; try done; tauto.
  - simplify_eq. rewrite Hf. split_and!; try done; tauto.
Qed.

Lemma respects_os_listdir p : respects eq (frame X) (os_listdir p).
Proof.
  intros st st' o H. unfold os_listdir in H. munfold H.
  inject_cases st st1 Hf Hc Hl Hn.
  - destruct (namei (world st1) p) as [e|c];
      [by simplify_eq; rewrite Hf; split_and!; try tauto|].
    destruct (lookup_path (fs (world st1)) c) as [[d|t]|];
      simplify_eq; rewrite Hf; split_and!; try done; tauto.
  - simplify_eq. rewrite Hf. split_and!; try done; tauto.
Qed.

Lemma respects_sys_chmod p : respects eq (frame X) (sys_chmod p).
Proof. apply respects_inject; apply _. Qed.

(** The file is put where the path leads from the state at hand. *)
Lemma sys_open_write_inv p st st' o :
  (∀ c, namei (world st) p = inr c → X c) →
  sys_open_write p st = (st', o) →
  (cwd (world st') = cwd (world st) ∧
   (faults (world st) = [] → faults (world st') = []) ∧
   log st' = log st ∧
   frame X (fs (world st)) (fs (world st'))) ∧
  (∀ f, o = Ret f → X f).
Proof.
  intros HX H. unfold sys_open_write in H. munfold H.
  inject_cases st st1 Hf Hc Hl Hn.
  - rewrite (namei_ext _ (world st)) in H by done.
    destruct (namei (world st) p) as [e|c] eqn:Hnm.
    { simplify_eq. rewrite Hf. split; [|done]. split_and!; try done; tauto. }
    specialize (HX c eq_refl).
    destruct (Py.endswith Py.sep p).
    { simplify_eq. rewrite Hf. split; [|done]. split_and!; try done; tauto. }
    destruct (lookup_path (fs (world st1)) c) as [[d|t]|] eqn:Hlk;
      simplify_eq; simpl; rewrite <- ?Hf;
      (split; [split_and!; try done; try tauto|by intros ? [= <-]]);
      apply frame_set_file; try done; unfold kind_at; by rewrite Hlk.
  - simplify_eq. rewrite Hf. split; [|done]. split_and!; try done; tauto.
Qed.

Lemma respects_sys_write f data : X f → respects eq (frame X) (sys_write f data).
Proof.
  intros HX st st' o H. unfold sys_write in H.
  unfold bind at 1 in H. unfold get_world in H.
  assert (∃ d,
    (match lookup_path (fs (world st)) f with
     | Some (File _) => put_fs (set_path (fs (world st)) f (File d))
     | _ => ret tt
     end ;; inject) st = (st', o)) as [d H'].
  { destruct (faults (world st)) as [|[[e n]|] rest]; eauto. }
  clear H. unfold bind in H'.
  destruct (lookup_path (fs (world st)) f) as [[d0|t]|] eqn:Hlk;
    unfold put_fs, ret in H';
    match type of H' with inject ?s = _ =>
      destruct (inject_inv s _ _ H') as (Hf & Hc & Hl & Hn) end;
    simpl in *; rewrite Hf, Hc, Hl; split_and!; try done; try tauto.
  apply frame_set_file; [done|]. unfold kind_at. by rewrite Hlk.
Qed.

(** Opening a file for writing and writing it. *)
Lemma open_write_write_inv p data st st' o :
  (∀ c, namei (world st) p = inr c → X c) →
  (f ← sys_open_write p; sys_write f data) st = (st', o) →
  cwd (world st') = cwd (world st) ∧
  (faults (world st) = [] → faults (world st') = []) ∧
  log st' = log st ∧
  frame X (fs (world st)) (fs (world st')).
Proof.
  intros HX H. unfold bind in H.
  destruct (sys_open_write p st) as [st1 [f|e]] eqn:Ho;
    apply sys_open_write_inv in Ho as [(Hc & Hf & Hl & HR) HXf]; try done.
  - apply respects_sys_write in H as (Hc' & Hf' & Hl' & HR'); [|by apply HXf].
    split_and!; [congruence|auto|congruence|by etrans].
  - by simplify_eq.
Qed.

Lemma respects_open_write_write p data :
  (∀ w c, namei w p = inr c → X c) →
  respects eq (frame X) (f ← sys_open_write p; sys_write f data).
Proof.
  intros HX st st' o H.
  apply open_write_write_inv in H as (Hc & Hf & Hl & HR); [|by eauto].
  by split_and!.
Qed.

End Syscalls.

(** ** Resolving paths made of ordinary names *)

Lemma step_plain cur s : plain s = true → step cur s = cur ++ [s].
Proof.
  unfold plain, step. intros [H1 H2]%andb_prop.
  apply negb_true_iff, bool_decide_eq_false in H1, H2.
  by rewrite !bool_decide_eq_false_2.
Qed.

Lemma walk_plain_ok t cur segs :
  forallb plain segs = true →
  kind_at t (cur ++ removelast segs) = IsDir →
  walk t cur segs = inr (cur ++ segs).
Proof.
  revert cur. induction segs as [|s segs IH]; intros cur Hp Hk; simpl.
  { by rewrite app_nil_r. }
  simpl in Hp. apply andb_prop in Hp as [Hs Hp].
  assert (kind_at t cur = IsDir) as Hcur.
  { destruct segs as [|s' segs]; [by rewrite app_nil_r in Hk|].
    apply (kind_at_below t cur (removelast (s :: s' :: segs))); [done|]. by rewrite Hk. }
  unfold kind_at in Hcur.
  destruct (lookup_path t cur) as [[d|t']|]; [done| |done].
  rewrite step_plain by done.
  destruct segs as [|s' segs]; [done|].
  rewrite IH; [by rewrite <- app_assoc|done|].
  rewrite <- app_assoc. exact Hk.
Qed.

Lemma walk_plain_inv t cur segs c :
  forallb plain segs = true → segs ≠ [] →
  walk t cur segs = inr c →
  c = cur ++ segs ∧ kind_at t (cur ++ removelast segs) = IsDir.
Proof.
  revert cur. induction segs as [|s segs IH]; intros cur Hp Hne Hw; [done|].
  simpl in Hp. apply andb_prop in Hp as [Hs Hp].
  simpl in Hw. unfold kind_at.
  destruct (lookup_path t cur) as [[d|t']|] eqn:Hcur; [done| |done].
  rewrite step_plain in Hw by done.
  destruct segs as [|s' segs].
  - simpl in Hw. simplify_eq. simpl. rewrite app_nil_r. by rewrite Hcur.
  - apply IH in Hw as [-> Hk]; [|done..].
    rewrite <- !app_assoc in *. done.
Qed.

(** Either the parent directory is there and the path resolves to its
    components, or nothing is to be seen at the path. *)
Lemma namei_plain w p :
  plain_path p = true →
  (namei w p = inr (canon w p) ∧ kind_at (fs w) (removelast (canon w p)) = IsDir)
  ∨ (∃ e, namei w p = inl e) ∧ kind_at (fs w) (removelast (canon w p)) ≠ IsDir.
Proof.
  unfold plain_path, canon, namei. intros [Hne Hp]%andb_prop.
  apply negb_true_iff, bool_decide_eq_false in Hne.
  rewrite bool_decide_eq_false_2.
  2:{ intros ->. by apply Hne. }
  set (base := if Py.startswith Py.sep p then [] else cwd w).
  rewrite removelast_app by done.
  destruct (walk (fs w) base (components p)) as [e|c] eqn:Hw.
  - right. split; [eauto|]. intros Hk. by rewrite walk_plain_ok in Hw.
  - left. apply walk_plain_inv in Hw as [-> Hk]; done.
Qed.

Lemma namei_plain_inr w p c :
  plain_path p = true → namei w p = inr c →
  c = canon w p ∧ kind_at (fs w) (removelast (canon w p)) = IsDir.
Proof.
  intros Hp Hn. destruct (namei_plain w p Hp) as [[Hn' Hk]|[[e Hn'] _]]; [|congruence].
  split; [congruence|done].
Qed.

Lemma canon_not_nil w p : plain_path p = true → canon w p ≠ [].
Proof.
  unfold plain_path, canon. intros [Hne _]%andb_prop.
  apply negb_true_iff, bool_decide_eq_false in Hne.
  intros [_ ?]%app_eq_nil. done.
Qed.

Lemma namei_plain_missing w p e :
  plain_path p = true → namei w p = inl e → kind_at (fs w) (canon w p) = Missing.
Proof.
  intros Hp Hn. destruct (namei_plain w p Hp) as [[Hn' Hk]|[_ Hk]]; [congruence|].
  destruct (kind_at (fs w) (canon w p)) eqn:Hc; [done|..];
    (exfalso; apply Hk, (kind_at_parent (fs w) (canon w p));
     [by apply canon_not_nil|by rewrite Hc]).
Qed.

(** [os.path.exists] and [os.path.isdir] on such a path. *)
Lemma os_path_exists_plain w p :
  plain_path p = true →
  os_path_exists w p =
    match kind_at (fs w) (canon w p) with
    | Missing => false
    | IsFile _ => negb (Py.endswith Py.sep p)
    | IsDir => true
    end.
Proof.
  intros Hp. unfold os_path_exists, os_stat.
  destruct (namei w p) as [e|c] eqn:Hn.
  - by rewrite (namei_plain_missing w p e).
  - apply namei_plain_inr in Hn as [-> _]; [|done]. unfold kind_at.
    destruct (lookup_path (fs w) (canon w p)) as [[d|t]|]; simpl; [|done..].
    by destruct (Py.endswith Py.sep p).
Qed.

Lemma os_path_isdir_plain w p :
  plain_path p = true → os_path_isdir w p = is_dir (fs w) (canon w p).
Proof.
  intros Hp. unfold os_path_isdir, os_stat, is_dir.
  destruct (namei w p) as [e|c] eqn:Hn.
  - apply namei_plain_missing in Hn; [|done]. unfold kind_at in Hn.
    by destruct (lookup_path (fs w) (canon w p)) as [[d|t]|].
  - apply namei_plain_inr in Hn as [-> _]; [|done].
    destruct (lookup_path (fs w) (canon w p)) as [[d|t]|]; simpl; [|done..].
    by destruct (Py.endswith Py.sep p).
Qed.

(** ** Library functions *)

Lemma canon_abs w p : Py.startswith Py.sep p = true → canon w p = components p.
Proof. unfold canon. by intros ->. Qed.

Lemma abs_file_path_inv p :
  abs_file_path p = true →
  Py.startswith Py.sep p = true ∧ Py.endswith Py.sep p = false ∧ plain_path p = true.
Proof.
  unfold abs_file_path. intros [[H1 H2]%andb_prop H3]%andb_prop.
  by apply negb_true_iff in H2.
Qed.

Lemma namei_abs_file w p c :
  abs_file_path p = true → namei w p = inr c → c = components p.
Proof.
  intros (Ha & _ & Hp)%abs_file_path_inv Hn.
  apply namei_plain_inr in Hn as [-> _]; [|done]. by apply canon_abs.
Qed.

Lemma respects_copyfile (X : list string → Prop) src dst :
  (∀ w c, namei w dst = inr c → X c) →
  respects eq (frame X) (copyfile src dst).
Proof.
  intros HX. unfold copyfile.
  apply respects_bind; try apply _; [apply respects_get_world; apply _|].
  intros w. apply respects_if; try apply _; [apply respects_raise; apply _|].
  apply respects_bind; try apply _; [apply respects_sys_open_read|].
  intros data. apply respects_try_except; try apply _.
  { by apply respects_open_write_write. }
  intros e. apply respects_if; try apply _; [|apply respects_raise; apply _].
  apply respects_bind; try apply _; [apply respects_get_world; apply _|].
  intros w'. apply respects_if; try apply _; apply respects_raise; apply _.
Qed.

Lemma respects_shutil_copy e :
  abs_file_path (dst_path e) = true → abs_file_path (dst_inside e) = true →
  respects eq (frame (targets e)) (shutil_copy (src_path e) (dst_path e)).
Proof.
  intros Hd Hi. unfold shutil_copy.
  apply respects_bind; try apply _; [apply respects_get_world; apply _|].
  intros w. apply respects_bind; try apply _; [|intros; apply respects_sys_chmod].
  destruct (os_path_isdir w (dst_path e)); apply respects_copyfile; intros w' c Hn.
  - right. by apply (namei_abs_file w').
  - left. by apply (namei_abs_file w').
Qed.

(** ** The loop *)

Lemma respects_eq_prefix {A} R (m : M A) : respects eq R m → respects prefix R m.
Proof. apply respects_mono; [|done]. by intros x y ->. Qed.

Lemma respects_copy_entry e :
  abs_file_path (dst_path e) = true → abs_file_path (dst_inside e) = true →
  respects prefix (frame (targets e)) (copy_entry e).
Proof.
  intros Hd Hi. unfold copy_entry.
  apply respects_bind; try apply _; [apply respects_get_world; apply _|].
  intros w. apply respects_if; try apply _; [|apply respects_log_append; apply _].
  apply respects_bind; try apply _.
  - by apply respects_eq_prefix, respects_shutil_copy.
  - intros _. apply respects_log_append; apply _.
Qed.

Lemma targets_writes e l q : e ∈ l → targets e q → q ∈ writes l.
Proof.
  intros He Hq. unfold writes. apply list_elem_of_In, in_flat_map.
  exists e. split; [by apply list_elem_of_In|].
  destruct Hq as [-> | ->]; simpl; auto.
Qed.

Lemma manifest_ok_paths l e :
  manifest_ok l = true → e ∈ l →
  abs_file_path (src_path e) = true ∧ abs_file_path (dst_path e) = true ∧
  abs_file_path (dst_inside e) = true.
Proof.
  unfold manifest_ok. intros [[[H _]%andb_prop _]%andb_prop _]%andb_prop He.
  rewrite forallb_forall in H. apply list_elem_of_In, H in He.
  by apply andb_prop in He as [[? ?]%andb_prop ?].
Qed.

Lemma respects_for_files l l' :
  manifest_ok l = true → l' ⊆ l →
  respects prefix (frame (λ q, q ∈ writes l')) (for_files l').
Proof.
  intros Hok. induction l' as [|e l' IH]; intros Hsub; cbn [for_files].
  { apply respects_ret; apply _. }
  destruct (manifest_ok_paths l e Hok) as (_ & Hd & Hi); [set_solver|].
  apply respects_bind; try apply _.
  - eapply respects_mono; [done| |by apply respects_copy_entry].
    intros t t'. apply frame_mono. intros q Hq.
    apply (targets_writes e); [set_solver|done].
  - intros _. eapply respects_mono; [done| |apply IH; set_solver].
    intros t t'. apply frame_mono. intros q Hq.
    unfold writes in *. simpl. set_solver.
Qed.

Lemma respects_list_destination :
  respects prefix (frame (λ _, False)) list_destination.
Proof.
  unfold list_destination.
  apply respects_bind; try apply _; [apply respects_log_append; apply _|].
  intros _. apply respects_bind; try apply _.
  - apply respects_eq_prefix, respects_os_listdir.
  - intros names. apply respects_log_append; apply _.
Qed.

(** ** Writing the log *)

Lemma write_log_inv st st' o :
  write_log st = (st', o) →
  cwd (world st') = cwd (world st) ∧
  (faults (world st) = [] → faults (world st') = []) ∧
  log st' = log st ∧
  frame (eq (canon (world st) log_file)) (fs (world st)) (fs (world st')).
Proof.
  unfold write_log. intros H. unfold bind at 1 in H. simpl in H.
  apply (open_write_write_inv (eq (canon (world st) log_file))) in H; [done|].
  intros c Hn. apply namei_plain_inr in Hn as [-> _]; done.
Qed.

(** ** What a successful system call has done *)

Lemma sys_open_read_Ret p st st' data :
  plain_path p = true →
  sys_open_read p st = (st', Ret data) →
  kind_at (fs (world st)) (canon (world st) p) = IsFile data ∧
  fs (world st') = fs (world st).
Proof.
  intros Hp H. unfold sys_open_read in H. munfold H.
  inject_cases st st1 Hf Hc Hl Hn; [|done].
  rewrite (namei_ext _ (world st)) in H by done.
  destruct (namei (world st) p) as [e|c] eqn:Hnm; [done|].
  apply namei_plain_inr in Hnm as [-> _]; [|done].
  unfold kind_at. rewrite <- Hf.
  destruct (lookup_path (fs (world st1)) (canon (world st) p)) as [[d|t]|]; [|done..].
  destruct (Py.endswith Py.sep p); by simplify_eq.
Qed.

Lemma open_write_write_Ret p data st st' :
  plain_path p = true →
  (f ← sys_open_write p; sys_write f data) st = (st', Ret tt) →
  kind_at (fs (world st')) (canon (world st) p) = IsFile data.
Proof.
  intros Hp H. apply bind_Ret in H as (f & st2 & Ho & Hw).
  unfold sys_open_write in Ho. munfold Ho.
  inject_cases st st1 Hf Hc Hl Hn; [|done].
  rewrite (namei_ext _ (world st)) in Ho by done.
  destruct (namei (world st) p) as [e|c] eqn:Hnm; [done|].
  apply namei_plain_inr in Hnm as [-> Hpar]; [|done].
  destruct (Py.endswith Py.sep p); [done|].
  set (c := canon (world st) p) in *.
  assert (c ≠ []) as Hne by by apply canon_not_nil.
  assert (kind_at (fs (world st1)) c ≠ IsDir
          ∧ st2 = mkState (mkWorld (set_path (fs (world st1)) c (File []))
                                   (cwd (world st1)) (faults (world st1))) (log st1)
          ∧ f = c) as (Hk & -> & ->).
  { unfold kind_at.
    destruct (lookup_path (fs (world st1)) c) as [[d|t]|]; by simplify_eq. }
  rewrite <- Hf in Hpar.
  pose proof (kind_at_set_file_same _ c [] Hne Hpar Hk) as Hempty.
  rewrite sys_write_eq in Hw. unfold bind in Hw. cbn [world fs] in Hw.
  unfold kind_at in Hempty.
  destruct (lookup_path (set_path (fs (world st1)) c (File [])) c) as [[d|t]|] eqn:Hlk;
    [|done..].
  unfold put_fs in Hw. cbn [world fs cwd faults log] in Hw.
  pose proof (inject_Ret _ _ data Hw) as Hg.
  apply inject_inv in Hw as (Hf3 & _). rewrite Hf3. cbn [world fs].
  unfold write_gets in *. cbn [world faults] in *. rewrite Hg.
  apply kind_at_set_file_same; [done| |].
  - apply is_dir_kind. rewrite is_dir_set_file by done. by apply is_dir_kind.
  - unfold kind_at. by rewrite Hlk.
Qed.

Lemma sys_mkdir_Ret p st st' :
  plain_path p = true →
  sys_mkdir p st = (st', Ret tt) →
  kind_at (fs (world st)) (canon (world st) p) = Missing ∧
  kind_at (fs (world st')) (canon (world st) p) = IsDir.
Proof.
  intros Hp H. unfold sys_mkdir in H. munfold H.
  inject_cases st st1 Hf Hc Hl Hn; [|done].
  rewrite (namei_ext _ (world st)) in H by done.
  destruct (namei (world st) p) as [e|c] eqn:Hnm; [done|].
  apply namei_plain_inr in Hnm as [-> Hpar]; [|done].
  set (c := canon (world st) p) in *.
  assert (c ≠ []) as Hne by by apply canon_not_nil.
  rewrite <- Hf in *.
  assert (kind_at (fs (world st1)) c = Missing) as Hk.
  { unfold kind_at. by destruct (lookup_path (fs (world st1)) c). }
  split; [done|].
  unfold kind_at in Hk.
  destruct (lookup_path (fs (world st1)) c) eqn:Hlk; [by destruct n|].
  simplify_eq. simpl.
  rewrite kind_at_set_path; [by rewrite decide_True|done|done| |done].
  unfold kind_at. by rewrite Hlk.
Qed.

Lemma os_listdir_Ret p st st' names :
  plain_path p = true →
  os_listdir p st = (st', Ret names) →
  fs (world st') = fs (world st) ∧ log st' = log st ∧
  NoDup names ∧
  ∀ n, n ∈ names ↔ kind_at (fs (world st)) (canon (world st) p ++ [n]) ≠ Missing.
Proof.
  intros Hp H. unfold os_listdir in H. munfold H.
  inject_cases st st1 Hf Hc Hl Hn; [|done].
  rewrite (namei_ext _ (world st)) in H by done.
  destruct (namei (world st) p) as [e|c] eqn:Hnm; [done|].
  apply namei_plain_inr in Hnm as [-> Hpar]; [|done].
  set (c := canon (world st) p) in *. rewrite <- Hf.
  destruct (lookup_path (fs (world st1)) c) as [[d|t]|] eqn:Hlk; [done| |done].
  simplify_eq. split_and!; [done..|apply NoDup_fst_map_to_list|].
  intros n. unfold kind_at. rewrite lookup_path_app, Hlk. simpl.
  rewrite list_elem_of_fmap. split.
  - intros [[n' v] [-> Hv%elem_of_map_to_list]]. simpl. rewrite Hv. by destruct v.
  - destruct (t !! n) as [v|] eqn:Hv; [|done]. intros _.
    exists (n, v). split; [done|]. by apply elem_of_map_to_list.
Qed.

(** ** One pair of the manifest *)

Lemma copy_entry_missing e st :
  os_path_exists (world st) (src_path e) = false →
  copy_entry e st = (mkState (world st) (log st ++ [not_found_line e]), Ret tt).
Proof. unfold copy_entry. unfold bind, get_world. by intros ->. Qed.

Lemma copy_entry_exists e st :
  os_path_exists (world st) (src_path e) = true →
  copy_entry e st =
    match shutil_copy (src_path e) (dst_path e) st with
    | (st1, Ret _) => (mkState (world st1) (log st1 ++ [copied_line e]), Ret tt)
    | (st1, Raise ex) => (st1, Raise ex)
    end.
Proof.
  unfold copy_entry. unfold bind at 1, get_world. intros ->.
  unfold bind. by destruct (shutil_copy _ _ st) as [st1 [[]|ex]].
Qed.

(** What one turn of the loop does to the log. *)
Lemma copy_entry_log e st st' o :
  abs_file_path (dst_path e) = true → abs_file_path (dst_inside e) = true →
  copy_entry e st = (st', o) →
  match o with
  | Ret _ => ∃ line, entry_line e line ∧ log st' = log st ++ [line]
  | Raise _ => log st' = log st
  end.
Proof.
  intros Hd Hi H.
  destruct (os_path_exists (world st) (src_path e)) eqn:Hex.
  - rewrite copy_entry_exists in H by done.
    destruct (shutil_copy (src_path e) (dst_path e) st) as [st1 [[]|ex]] eqn:Hcp;
      apply respects_shutil_copy in Hcp as (_ & _ & Hl & _); try done; simplify_eq.
    + exists (copied_line e). simpl. rewrite <- Hl. split; [by left|done].
    + done.
  - rewrite copy_entry_missing in H by done. simplify_eq.
    exists (not_found_line e). split; [by right|done].
Qed.

(** ** The loop *)

Lemma for_files_app l1 l2 st :
  for_files (l1 ++ l2) st = (for_files l1 ;; for_files l2) st.
Proof.
  revert st. induction l1 as [|e l1 IH]; intros st; [done|].
  simpl. unfold bind.
  destruct (copy_entry e st) as [st1 [[]|ex]]; [|done]. by rewrite IH.
Qed.

(** The pairs after one that raises are not looked at. *)
Lemma for_files_abort pre e post st st1 st2 ex :
  for_files pre st = (st1, Ret tt) →
  copy_entry e st1 = (st2, Raise ex) →
  for_files (pre ++ e :: post) st = (st2, Raise ex).
Proof.
  intros Hpre He. rewrite for_files_app. rewrite (bind_eq_Ret _ _ _ _ _ Hpre).
  simpl. by rewrite (bind_eq_Raise _ _ _ _ _ He).
Qed.

(** The log after the loop: one line for each pair gone through, in the
    order of the manifest. *)
Lemma for_files_log l st st' o :
  (∀ e, e ∈ l → abs_file_path (dst_path e) = true ∧ abs_file_path (dst_inside e) = true) →
  for_files l st = (st', o) →
  ∃ k lines,
    log st' = log st ++ lines ∧ Forall2 entry_line (take k l) lines ∧
    match o with Ret _ => k = length l | Raise _ => k < length l end.
Proof.
  revert st. induction l as [|e l IH]; intros st Hok H.
  { simpl in H. unfold ret in H. simplify_eq. exists 0, []. by rewrite app_nil_r. }
  simpl in H. unfold bind in H.
  destruct (Hok e) as [Hd Hi]; [set_solver|].
  destruct (copy_entry e st) as [st1 [[]|ex]] eqn:He;
    apply copy_entry_log in He; try done.
  - destruct He as (line & Hline & Hl).
    apply IH in H as (k & lines & Hl' & Hall & Hk); [|set_solver].
    exists (S k), (line :: lines). split_and!.
    + by rewrite Hl', Hl, <- app_assoc.
    + simpl. by constructor.
    + destruct o; simpl; lia.
  - simplify_eq. exists 0, []. rewrite app_nil_r. split_and!; [done|constructor|simpl; lia].
Qed.

(** ** Creating directories *)

Global Instance grows_preorder : PreOrder grows.
Proof.
  split.
  - by intros t q.
  - intros t1 t2 t3 H1 H2 q Hq. rewrite H2, H1; [done..|]. by rewrite H1.
Qed.

Lemma grows_mkdir t c : kind_at t c = Missing → grows t (set_path t c (Dir ∅)).
Proof.
  intros Hc q Hq.
  destruct (is_dir t (removelast c)) eqn:Hpar.
  - apply is_dir_kind in Hpar.
    rewrite kind_at_set_path; [|by intros ->|done|by rewrite Hc|done].
    rewrite decide_False; [done|]. intros ->. done.
  - apply is_dir_kind_false in Hpar. by rewrite set_path_no_parent.
Qed.

Lemma respects_sys_mkdir p : respects eq grows (sys_mkdir p).
Proof.
  intros st st' o H. unfold sys_mkdir in H. munfold H.
  inject_cases st st1 Hf Hc Hl Hn.
  - destruct (namei (world st1) p) as [e|c];
      [by simplify_eq; rewrite Hf; split_and!; try tauto|].
    destruct (lookup_path (fs (world st1)) c) as [n|] eqn:Hlk;
      simplify_eq; simpl; rewrite <- ?Hf; split_and!; try done; try tauto.
    apply grows_mkdir. unfold kind_at. by rewrite Hlk.
  - simplify_eq. rewrite Hf. split_and!; try done; tauto.
Qed.

Lemma makedirs_rec_unfold depth name :
  makedirs_rec depth name =
    let '(head, tail) := Py.os_path_split name in
    let '(head, tail) :=
      if bool_decide (tail = EmptyString) then Py.os_path_split head else (head, tail) in
    w ← get_world;
    if negb (bool_decide (head = EmptyString)) && negb (bool_decide (tail = EmptyString))
       && negb (os_path_exists w head)
    then
      match depth with
      | 0 => raise (Exception "maximum recursion depth exceeded")
      | S depth' =>
          try_except (makedirs_rec depth' head)
                     (λ e, if is_FileExistsError e then ret tt else raise e) ;;
          if bool_decide (tail = ".") then ret tt else sys_mkdir name
      end
    else sys_mkdir name.
Proof. by destruct depth. Qed.

Lemma respects_makedirs_rec depth name : respects eq grows (makedirs_rec depth name).
Proof.
  revert name. induction depth as [|depth IH]; intros name;
    rewrite makedirs_rec_unfold;
    destruct (Py.os_path_split name) as [head tail];
    destruct (if bool_decide (tail = EmptyString) then Py.os_path_split head
              else (head, tail)) as [head' tail'];
    (apply respects_bind; try apply _; [apply respects_get_world; apply _|]);
    intros w; (apply respects_if; try apply _; [|apply respects_sys_mkdir]).
  - apply respects_raise; apply _.
  - apply respects_bind; try apply _.
    + apply respects_try_except; try apply _; [apply IH|].
      intros e. apply respects_if; try apply _;
        [apply respects_ret|apply respects_raise]; apply _.
    + intros _. apply respects_if; try apply _;
        [apply respects_ret; apply _|apply respects_sys_mkdir].
  Qed.

Lemma respects_os_makedirs name : respects eq grows (os_makedirs name).
Proof. unfold os_makedirs. apply respects_makedirs_rec. Qed.

(** When [os.makedirs] returns, its last step has been [mkdir] of the whole
    path. *)
Lemma makedirs_rec_Ret depth name st st' :
  makedirs_tail name ≠ "." →
  makedirs_rec depth name st = (st', Ret tt) →
  ∃ st1, sys_mkdir name st1 = (st', Ret tt) ∧ cwd (world st1) = cwd (world st).
Proof.
  intros Htail H. rewrite makedirs_rec_unfold in H. unfold makedirs_tail in Htail.
  destruct (Py.os_path_split name) as [head tail].
  destruct (if bool_decide (tail = EmptyString) then Py.os_path_split head
            else (head, tail)) as [head' tail']. simpl in Htail.
  unfold bind at 1 in H. unfold get_world in H.
  destruct (negb (bool_decide (head' = EmptyString)) && negb (bool_decide (tail' = EmptyString))
     && negb (os_path_exists (world st) head')); [|by eauto].
  destruct depth as [|depth]; [done|].
  apply bind_Ret in H as ([] & st1 & Hrec & H).
  rewrite bool_decide_eq_false_2 in H by done.
  exists st1. split; [done|].
  assert (respects eq grows (try_except (makedirs_rec depth head')
     (λ e, if is_FileExistsError e then ret tt else raise e))) as Hr.
  { apply respects_try_except; try apply _; [apply respects_makedirs_rec|].
    intros e. apply respects_if; try apply _;
      [apply respects_ret|apply respects_raise]; apply _. }
  by apply Hr in Hrec as (? & _).
Qed.

(** ** The destination directory *)

Lemma dst_dir_plain : plain_path dst_dir = true.
Proof. by vm_compute. Qed.

Lemma canon_dst_dir w : canon w dst_dir = components dst_dir.
Proof. by apply canon_abs. Qed.

Lemma exists_dst_dir w : os_path_exists w dst_dir = is_dir (fs w) (components dst_dir).
Proof.
  rewrite os_path_exists_plain by apply dst_dir_plain. rewrite canon_dst_dir.
  unfold is_dir, kind_at.
  by destruct (lookup_path (fs w) (components dst_dir)) as [[d|t]|].
Qed.

Lemma os_makedirs_dst_dir_Ret st st' :
  os_makedirs dst_dir st = (st', Ret tt) →
  is_dir (fs (world st')) (components dst_dir) = true.
Proof.
  unfold os_makedirs. intros H.
  apply (makedirs_rec_Ret _ dst_dir) in H as (st1 & H & _); [|by vm_compute].
  apply sys_mkdir_Ret in H as [_ H]; [|apply dst_dir_plain].
  rewrite canon_dst_dir in H. apply is_dir_kind. exact H.
Qed.

(** The first statement of the [try] block. *)
Lemma ensure_dst_dir_exists st :
  os_path_exists (world st) dst_dir = true → ensure_dst_dir st = (st, Ret tt).
Proof. unfold ensure_dst_dir, bind, get_world. by intros ->. Qed.

Lemma ensure_dst_dir_absent st :
  os_path_exists (world st) dst_dir = false →
  ensure_dst_dir st = (os_makedirs dst_dir ;; log_append created_line) st.
Proof. unfold ensure_dst_dir. unfold bind at 1, get_world. by intros ->. Qed.

Lemma respects_ensure_dst_dir : respects prefix grows ensure_dst_dir.
Proof.
  unfold ensure_dst_dir.
  apply respects_bind; try apply _; [apply respects_get_world; apply _|].
  intros w. apply respects_if; try apply _; [|apply respects_ret; apply _].
  apply respects_bind; try apply _.
  - apply respects_eq_prefix, respects_os_makedirs.
  - intros _. apply respects_log_append; apply _.
Qed.

Lemma ensure_dst_dir_inv st st' o :
  ensure_dst_dir st = (st', o) →
  match o with
  | Ret _ =>
      is_dir (fs (world st')) (components dst_dir) = true ∧
      (if os_path_exists (world st) dst_dir then st' = st
       else log st' = log st ++ [created_line])
  | Raise _ => os_path_exists (world st) dst_dir = false ∧ log st' = log st
  end.
Proof.
  intros H. destruct (os_path_exists (world st) dst_dir) eqn:Hex.
  - rewrite ensure_dst_dir_exists in H by done. simplify_eq.
    by rewrite <- exists_dst_dir.
  - rewrite ensure_dst_dir_absent in H by done. destruct o as [[]|ex].
    + apply bind_Ret in H as ([] & st1 & Hmk & Hlog).
      pose proof Hmk as (_ & _ & Hl & _)%respects_os_makedirs.
      apply os_makedirs_dst_dir_Ret in Hmk.
      unfold log_append in Hlog. simplify_eq. simpl. by rewrite Hl.
    + apply bind_Raise in H as [Hmk|([] & st1 & Hmk & Hlog)]; [|discriminate Hlog].
      apply respects_os_makedirs in Hmk as (_ & _ & Hl & _). by rewrite Hl.
Qed.

(** ** System calls that go through *)

Lemma try_except_Ret {A} (m : M A) h st st' a :
  try_except m h st = (st', Ret a) →
  m st = (st', Ret a) ∨ ∃ e st1, m st = (st1, Raise e) ∧ h e st1 = (st', Ret a).
Proof.
  unfold try_except. destruct (m st) as [st1 [a'|e]]; [by left|].
  intros H. right. by exists e, st1.
Qed.

Lemma kind_at_lookup_file t c d :
  kind_at t c = IsFile d → lookup_path t c = Some (File d).
Proof.
  unfold kind_at. destruct (lookup_path t c) as [[d'|t']|]; simpl; congruence.
Qed.

Lemma namei_plain_ok w p :
  plain_path p = true → kind_at (fs w) (removelast (canon w p)) = IsDir →
  namei w p = inr (canon w p).
Proof.
  intros Hp Hk. destruct (namei_plain w p Hp) as [[Hn _]|[_ Hk']]; done.
Qed.

Lemma sys_open_read_ok p st data :
  faults (world st) = [] → plain_path p = true → Py.endswith Py.sep p = false →
  kind_at (fs (world st)) (canon (world st) p) = IsFile data →
  sys_open_read p st = (st, Ret data).
Proof.
  intros Hf Hp Hs Hk. unfold sys_open_read, bind. rewrite (inject_nil st Hf).
  unfold get_world, ret, raise.
  rewrite namei_plain_ok; [|done|].
  2:{ apply kind_at_parent; [by apply canon_not_nil|by rewrite Hk]. }
  by rewrite (kind_at_lookup_file _ _ _ Hk), Hs.
Qed.

Lemma kind_at_written st c data q :
  c ≠ [] → kind_at (fs (world st)) (removelast c) = IsDir →
  kind_at (fs (world st)) c ≠ IsDir →
  kind_at (fs (world (written st c data))) q
  = if decide (q = c) then IsFile data else kind_at (fs (world st)) q.
Proof.
  intros Hne Hpar Hk. unfold written. simpl.
  pose proof (kind_at_set_file_same _ c [] Hne Hpar Hk) as Hempty.
  rewrite kind_at_set_path; [|done| |by rewrite Hempty|done].
  - destruct (decide (q = c)); [done|]. by apply kind_at_set_file_other.
  - apply is_dir_kind. rewrite is_dir_set_file by done. by apply is_dir_kind.
Qed.

Lemma open_write_write_ok p data st :
  faults (world st) = [] → plain_path p = true → Py.endswith Py.sep p = false →
  kind_at (fs (world st)) (removelast (canon (world st) p)) = IsDir →
  kind_at (fs (world st)) (canon (world st) p) ≠ IsDir →
  (f ← sys_open_write p; sys_write f data) st
  = (written st (canon (world st) p) data, Ret tt).
Proof.
  intros Hf Hp Hs Hpar Hk.
  set (c := canon (world st) p) in *.
  assert (c ≠ []) as Hne by by apply canon_not_nil.
  assert (sys_open_write p st
          = (mkState (mkWorld (set_path (fs (world st)) c (File []))
                              (cwd (world st)) (faults (world st))) (log st), Ret c)) as Ho.
  { unfold sys_open_write, bind. rewrite (inject_nil st Hf).
    unfold get_world, ret, raise, put_fs.
    rewrite namei_plain_ok by done. fold c. rewrite Hs.
    unfold kind_at in Hk.
    by destruct (lookup_path (fs (world st)) c) as [[d|t]|]. }
  rewrite (bind_eq_Ret _ _ _ _ _ Ho).
  rewrite sys_write_eq. cbn [world fs].
  rewrite (kind_at_lookup_file _ _ _ (kind_at_set_file_same _ c [] Hne Hpar Hk)).
  unfold bind, put_fs. cbn [world fs cwd faults log].
  rewrite write_gets_nil by done. by rewrite inject_nil.
Qed.

Lemma os_listdir_ok p st :
  faults (world st) = [] → plain_path p = true →
  kind_at (fs (world st)) (canon (world st) p) = IsDir →
  ∃ names, os_listdir p st = (st, Ret names).
Proof.
  intros Hf Hp Hk. unfold os_listdir, bind. rewrite (inject_nil st Hf).
  unfold get_world, ret, raise.
  rewrite namei_plain_ok; [|done|].
  2:{ apply kind_at_parent; [by apply canon_not_nil|by rewrite Hk]. }
  unfold kind_at in Hk.
  destruct (lookup_path (fs (world st)) (canon (world st) p)) as [[d|t]|]; [done| |done].
  eauto.
Qed.

(** [mkdir] where something is: nothing changes, and the exception is the
    oracle's or [FileExistsError]. *)
Lemma sys_mkdir_occupied p st :
  plain_path p = true →
  kind_at (fs (world st)) (canon (world st) p) ≠ Missing →
  ∃ st' ex,
    sys_mkdir p st = (st', Raise ex) ∧
    fs (world st') = fs (world st) ∧ cwd (world st') = cwd (world st) ∧
    log st' = log st ∧
    (faults (world st) = [] → ex = OSError EEXIST p).
Proof.
  intros Hp Hk. unfold sys_mkdir, bind.
  destruct (inject st) as [st1 [[]|ex]] eqn:Hi;
    pose proof (inject_inv _ _ _ Hi) as (Hf & Hc & Hl & Hn).
  - unfold get_world, ret, raise.
    rewrite (namei_ext _ (world st)) by done.
    rewrite namei_plain_ok; [|done|].
    2:{ apply kind_at_parent; [by apply canon_not_nil|done]. }
    rewrite Hf. unfold kind_at in Hk.
    destruct (lookup_path (fs (world st)) (canon (world st) p)) as [n|]; [|done].
    exists st1, (OSError EEXIST p). split_and!; done.
  - exists st1, ex. split_and!; [done..|].
    intros Hnil. by destruct (Hn Hnil).
Qed.

(** ** [shutil.copy] on a pair of the manifest *)

Lemma samefile_distinct w a b :
  abs_file_path a = true → abs_file_path b = true →
  components a ≠ components b → samefile w a b = false.
Proof.
  intros Ha Hb Hne. unfold samefile.
  destruct (os_stat w a); [done|]. destruct (os_stat w b); [done|].
  destruct (namei w a) as [|ca] eqn:Hna; [done|].
  destruct (namei w b) as [|cb] eqn:Hnb; [done|].
  apply namei_abs_file in Hna, Hnb; [|done..]. subst.
  by apply bool_decide_eq_false_2.
Qed.

Lemma target_cases w e :
  abs_file_path (dst_path e) = true →
  (is_dir (fs w) (components (dst_path e)) = true ∧
   target w e = components (dst_inside e)) ∨
  (is_dir (fs w) (components (dst_path e)) = false ∧
   target w e = components (dst_path e)).
Proof.
  intros (Ha & _ & Hp)%abs_file_path_inv. unfold target.
  rewrite os_path_isdir_plain, canon_abs by done.
  destruct (is_dir (fs w) (components (dst_path e))); [by left|by right].
Qed.

Lemma target_path_components w e : components (target_path w e) = target w e.
Proof. unfold target_path, target. by destruct (os_path_isdir w (dst_path e)). Qed.

Lemma target_path_abs w e :
  abs_file_path (dst_path e) = true → abs_file_path (dst_inside e) = true →
  abs_file_path (target_path w e) = true.
Proof. unfold target_path. by destruct (os_path_isdir w (dst_path e)). Qed.

Lemma shutil_copy_eq e st :
  shutil_copy (src_path e) (dst_path e) st
  = (copyfile (src_path e) (target_path (world st) e) ;;
     copymode (src_path e) (target_path (world st) e)) st.
Proof. reflexivity. Qed.

(** When [shutil.copy] returns, the source is a regular file and its bytes
    are in the file at the target. *)
Lemma shutil_copy_Ret e st st' :
  abs_file_path (src_path e) = true → abs_file_path (dst_path e) = true →
  abs_file_path (dst_inside e) = true →
  shutil_copy (src_path e) (dst_path e) st = (st', Ret tt) →
  ∃ data,
    kind_at (fs (world st)) (components (src_path e)) = IsFile data ∧
    kind_at (fs (world st')) (target (world st) e) = IsFile data.
Proof.
  intros Hs Hd Hi H. rewrite shutil_copy_eq in H.
  pose proof (target_path_abs (world st) e Hd Hi) as Ht.
  rewrite <- target_path_components.
  set (dst := target_path (world st) e) in *.
  apply abs_file_path_inv in Hs as (Hsa & _ & Hsp).
  apply abs_file_path_inv in Ht as (Hta & _ & Htp).
  apply bind_Ret in H as ([] & st1 & Hcf & Hcm).
  unfold copymode, sys_chmod in Hcm. apply inject_inv in Hcm as (Hfs & _).
  rewrite Hfs. clear Hfs st'.
  unfold copyfile in Hcf. unfold bind at 1 in Hcf. unfold get_world in Hcf.
  destruct (samefile (world st) (src_path e) dst); [done|].
  apply bind_Ret in Hcf as (data & st2 & Hrd & Hwr).
  apply sys_open_read_Ret in Hrd as [Hk Hfs]; [|done].
  rewrite canon_abs in Hk by done.
  exists data. split; [done|].
  apply try_except_Ret in Hwr as [Hwr|(ex & st3 & _ & Hh)].
  - apply open_write_write_Ret in Hwr; [|done]. by rewrite canon_abs in Hwr.
  - exfalso. destruct (is_IsADirectoryError ex); [|done].
    unfold bind, get_world in Hh.
    by destruct (negb (os_path_exists (world st3) dst)).
Qed.

(** With nothing for the oracle to raise, a source that is a regular file,
    and a target that is not the source and is no directory in a directory,
    [shutil.copy] goes through and changes the target only. *)
Lemma shutil_copy_ok e st data :
  faults (world st) = [] →
  abs_file_path (src_path e) = true → abs_file_path (dst_path e) = true →
  abs_file_path (dst_inside e) = true →
  kind_at (fs (world st)) (components (src_path e)) = IsFile data →
  components (src_path e) ≠ target (world st) e →
  kind_at (fs (world st)) (removelast (target (world st) e)) = IsDir →
  kind_at (fs (world st)) (target (world st) e) ≠ IsDir →
  shutil_copy (src_path e) (dst_path e) st
  = (written st (target (world st) e) data, Ret tt).
Proof.
  intros Hf Hs Hd Hi Hk Hne Hpar Hkt. rewrite shutil_copy_eq.
  pose proof (target_path_abs (world st) e Hd Hi) as Ht.
  rewrite <- target_path_components in *.
  set (dst := target_path (world st) e) in *.
  assert (copyfile (src_path e) dst st = (written st (components dst) data, Ret tt)) as Hcf.
  { unfold copyfile. unfold bind at 1. unfold get_world.
    rewrite samefile_distinct by done.
    apply abs_file_path_inv in Hs as (Hsa & Hse & Hsp).
    apply abs_file_path_inv in Ht as (Hta & Hte & Htp).
    rewrite (bind_eq_Ret _ _ _ st data).
    2:{ apply sys_open_read_ok; [done..|]. by rewrite canon_abs. }
    unfold try_except.
    rewrite open_write_write_ok; rewrite ?canon_abs; done. }
  rewrite (bind_eq_Ret _ _ _ _ _ Hcf).
  unfold copymode, sys_chmod. by rewrite inject_nil.
Qed.

(** ** [os.makedirs] when the head of the path exists *)

Lemma makedirs_rec_head_exists depth name st :
  os_path_exists (world st) (makedirs_head name) = true →
  makedirs_rec depth name st = sys_mkdir name st.
Proof.
  intros H. rewrite makedirs_rec_unfold. unfold makedirs_head in H.
  destruct (Py.os_path_split name) as [head tail].
  destruct (if bool_decide (tail = EmptyString) then Py.os_path_split head
            else (head, tail)) as [head' tail']. simpl in H.
  unfold bind, get_world. rewrite H. by rewrite andb_false_r.
Qed.

(** Something that is not a directory at the path of the destination
    directory: [os.makedirs] goes straight to [mkdir], which refuses. *)
Lemma os_makedirs_dst_dir_occupied st :
  kind_at (fs (world st)) (components dst_dir) ≠ Missing →
  ∃ st' ex,
    os_makedirs dst_dir st = (st', Raise ex) ∧
    fs (world st') = fs (world st) ∧ cwd (world st') = cwd (world st) ∧
    log st' = log st ∧
    (faults (world st) = [] → ex = OSError EEXIST dst_dir).
Proof.
  intros Hk. unfold os_makedirs. rewrite makedirs_rec_head_exists.
  - apply sys_mkdir_occupied; [apply dst_dir_plain|]. by rewrite canon_dst_dir.
  - rewrite os_path_exists_plain by by vm_compute.
    rewrite canon_abs by by vm_compute.
    assert (components (makedirs_head dst_dir) = removelast (components dst_dir)) as ->
      by by vm_compute.
    rewrite kind_at_parent; [done| |done]. by vm_compute.
Qed.

(** ** What a manifest has to be like *)

Lemma writes_cons e l :
  writes (e :: l) = components (dst_path e) :: components (dst_inside e) :: writes l.
Proof. reflexivity. Qed.

Lemma writes_app l1 l2 : writes (l1 ++ l2) = writes l1 ++ writes l2.
Proof. unfold writes. apply flat_map_app. Qed.

Lemma manifest_ok_inv l :
  manifest_ok l = true →
  NoDup (writes l) ∧
  (∀ e, e ∈ l → components (src_path e) ∉ writes l) ∧
  (∀ e, e ∈ l → last (components (src_path e)) ≠ Some log_file) ∧
  (∀ c, c ∈ writes l → last c ≠ Some log_file).
Proof.
  unfold manifest_ok.
  intros [[[_ Hnd%bool_decide_eq_true]%andb_prop Hsrc]%andb_prop Hlast]%andb_prop.
  rewrite forallb_forall in Hsrc. rewrite forallb_forall in Hlast.
  split_and!; [done|..].
  - intros e He%list_elem_of_In. by apply Hsrc, bool_decide_eq_true in He.
  - intros e He. apply (bool_decide_eq_true _), Hlast, in_or_app. right.
    apply in_map_iff. exists e. split; [done|]. by apply list_elem_of_In.
  - intros c Hc. apply (bool_decide_eq_true _), Hlast, in_or_app. left.
    by apply list_elem_of_In.
Qed.


Lemma exists_dst_dir_kind w :
  os_path_exists w dst_dir = true ↔ kind_at (fs w) (components dst_dir) = IsDir.
Proof. rewrite exists_dst_dir. apply is_dir_kind. Qed.

(** A regular file at the path of the destination directory: the first
    statement of the [try] block raises and leaves everything as it was. *)
Lemma ensure_dst_dir_occupied st d :
  kind_at (fs (world st)) (components dst_dir) = IsFile d →
  os_path_exists (world st) dst_dir = false ∧
  ∃ st' ex,
    ensure_dst_dir st = (st', Raise ex) ∧
    fs (world st') = fs (world st) ∧ cwd (world st') = cwd (world st) ∧
    log st' = log st ∧
    (faults (world st) = [] → ex = OSError EEXIST dst_dir).
Proof.
  intros Hk.
  assert (os_path_exists (world st) dst_dir = false) as Hex.
  { apply not_true_is_false. rewrite exists_dst_dir_kind. by rewrite Hk. }
  split; [done|].
  destruct (os_makedirs_dst_dir_occupied st) as (st' & ex & Hmk & Hrest);
    [by rewrite Hk|].
  exists st', ex. split; [|done].
  rewrite ensure_dst_dir_absent by done. by apply bind_eq_Raise.
Qed.

(** ** The listing and the log file, when nothing is in the way *)

Lemma list_destination_ok st :
  faults (world st) = [] →
  kind_at (fs (world st)) (components dst_dir) = IsDir →
  ∃ names,
    list_destination st
    = (mkState (world st)
               (log st ++ ["Destination contents:"; Py.str_list names]), Ret tt).
Proof.
  intros Hf Hk.
  destruct (os_listdir_ok dst_dir (mkState (world st) (log st ++ ["Destination contents:"])))
    as [names Hls]; [exact Hf|apply dst_dir_plain|by rewrite canon_dst_dir|].
  exists names. unfold list_destination.
  unfold bind at 1. unfold log_append at 1.
  rewrite (bind_eq_Ret _ _ _ _ _ Hls).
  unfold log_append. simpl. by rewrite <- app_assoc.
Qed.

Lemma write_log_ok st :
  faults (world st) = [] →
  kind_at (fs (world st)) (cwd (world st)) = IsDir →
  kind_at (fs (world st)) (cwd (world st) ++ [log_file]) ≠ IsDir →
  ∃ st', write_log st = (st', Ret tt).
Proof.
  intros Hf Hpar Hk. unfold write_log. unfold bind at 1. simpl.
  eexists. apply open_write_write_ok; [exact Hf|by vm_compute|by vm_compute| |].
  - change (canon (world st) log_file) with (cwd (world st) ++ [log_file]).
    by rewrite removelast_last.
  - exact Hk.
Qed.

(** ** Splitting paths *)

Lemma split_sep_not_nil s : Py.split_sep s ≠ [].
Proof.
  destruct s as [|a s]; [done|]. simpl.
  destruct (bool_decide (a = Py.sep)); [done|].
  by destruct (Py.split_sep s).
Qed.

Lemma split_sep_empty s : Py.split_sep s = [EmptyString] → s = EmptyString.
Proof.
  destruct s as [|a s]; [done|]. simpl.
  destruct (bool_decide (a = Py.sep)).
  - intros [= H]. by apply split_sep_not_nil in H.
  - by destruct (Py.split_sep s).
Qed.

(** [rpartition] cuts after the last slash: the pieces of the head are
    those of the path, with nothing after its last slash. *)
Lemma rpartition_split_sep p h t :
  Py.rpartition p = (h, t) →
  (h = EmptyString ∧ p = t ∧ Py.split_sep p = [t]) ∨
  (h ≠ EmptyString ∧
   ∃ xs, Py.split_sep h = xs ++ [EmptyString] ∧ Py.split_sep p = xs ++ [t]).
Proof.
  revert h t. induction p as [|a p IH]; intros h t H; simpl in H.
  { injection H as <- <-. by left. }
  destruct (Py.rpartition p) as [h' t'].
  destruct (IH h' t' eq_refl) as [(-> & -> & Hs)|(Hh & xs & Hsh & Hsp)].
  - rewrite bool_decide_eq_true_2 in H by done.
    destruct (bool_decide (a = Py.sep)) eqn:Ha; injection H as <- <-.
    + right. split; [done|]. exists [EmptyString]. simpl. by rewrite Ha, Hs.
    + left. split_and!; [done..|]. simpl. by rewrite Ha, Hs.
  - rewrite bool_decide_eq_false_2 in H by done. injection H as <- <-.
    right. split; [done|]. simpl.
    destruct (bool_decide (a = Py.sep)).
    + exists (EmptyString :: xs). by rewrite Hsh, Hsp.
    + destruct xs as [|x xs].
      { apply split_sep_empty in Hsh. done. }
      exists (String a x :: xs). by rewrite Hsh, Hsp.
Qed.

Lemma components_app_piece xs t :
  filter (λ s : string, s ≠ EmptyString) (xs ++ [t])
  = filter (λ s : string, s ≠ EmptyString) xs
    ++ (if bool_decide (t = EmptyString) then [] else [t]).
Proof.
  rewrite filter_app. f_equal.
  destruct (bool_decide (t = EmptyString)) eqn:Ht.
  - apply bool_decide_eq_true in Ht as ->. by rewrite filter_cons_False by naive_solver.
  - apply bool_decide_eq_false in Ht. by rewrite filter_cons_True.
Qed.

Lemma rpartition_components p h t :
  Py.rpartition p = (h, t) →
  components p = components h ++ (if bool_decide (t = EmptyString) then [] else [t]).
Proof.
  intros [(-> & -> & Hs)|(Hh & xs & Hsh & Hsp)]%rpartition_split_sep;
    unfold components.
  - rewrite Hs. pose proof (components_app_piece [] t) as Ht.
    simpl in Ht. rewrite Ht. reflexivity.
  - rewrite Hsh, Hsp, !components_app_piece. simpl. by rewrite app_nil_r.
Qed.

(** Slashes at the end of a path add no component. *)
Lemma rstrip_split_sep s :
  ∃ k, Py.split_sep s = Py.split_sep (Py.rstrip s) ++ replicate k EmptyString.
Proof.
  induction s as [|a s [k IH]]; [by exists 0|]. simpl.
  destruct (bool_decide (Py.rstrip s = EmptyString) && bool_decide (a = Py.sep)) eqn:Hc.
  - apply andb_true_iff in Hc as [Hr Ha]. apply bool_decide_eq_true in Hr.
    rewrite Ha. exists (S k). rewrite IH, Hr. done.
  - exists k. simpl. destruct (bool_decide (a = Py.sep)).
    + by rewrite IH.
    + rewrite IH. destruct (Py.split_sep (Py.rstrip s)) as [|x r] eqn:Hs; [|done].
      by apply split_sep_not_nil in Hs.
Qed.

Lemma rstrip_components s : components (Py.rstrip s) = components s.
Proof.
  destruct (rstrip_split_sep s) as [k Hk]. unfold components.
  rewrite Hk, filter_app.
  assert (filter (λ s : string, s ≠ EmptyString) (replicate k EmptyString) = []) as ->.
  { clear Hk. induction k as [|k IH]; [done|].
    change (replicate (S k) EmptyString) with (EmptyString :: replicate k EmptyString).
    rewrite filter_cons_False; [exact IH|]. intros H. by apply H. }
  by rewrite app_nil_r.
Qed.

(** [os.path.split]: the components of the head and the tail make up those
    of the path. *)
Lemma os_path_split_components p h t :
  Py.os_path_split p = (h, t) →
  components p = components h ++ (if bool_decide (t = EmptyString) then [] else [t]).
Proof.
  unfold Py.os_path_split. destruct (Py.rpartition p) as [h0 t0] eqn:Hp.
  intros [= <- <-]. rewrite (rpartition_components p h0 t0 Hp). f_equal.
  destruct (bool_decide (Py.rstrip h0 = EmptyString)); [done|].
  by rewrite rstrip_components.
Qed.

Lemma rpartition_startswith p h t :
  Py.startswith Py.sep p = true → Py.rpartition p = (h, t) →
  Py.startswith Py.sep h = true.
Proof.
  destruct p as [|a p]; [done|]. simpl. intros Ha.
  destruct (Py.rpartition p) as [h' t'].
  destruct (bool_decide (h' = EmptyString)); [rewrite Ha|]; by intros [= <- <-].
Qed.

Lemma rstrip_startswith s :
  Py.startswith Py.sep s = true →
  Py.rstrip s = EmptyString ∨ Py.startswith Py.sep (Py.rstrip s) = true.
Proof.
  destruct s as [|a s]; [done|]. simpl. intros Ha.
  destruct (bool_decide (Py.rstrip s = EmptyString) && bool_decide (a = Py.sep));
    [by left|by right].
Qed.

Lemma os_path_split_startswith p h t :
  Py.startswith Py.sep p = true → Py.os_path_split p = (h, t) →
  Py.startswith Py.sep h = true.
Proof.
  unfold Py.os_path_split. intros Hp. destruct (Py.rpartition p) as [h0 t0] eqn:Hr.
  pose proof (rpartition_startswith p h0 t0 Hp Hr) as Hh.
  intros [= <- <-].
  destruct (bool_decide (Py.rstrip h0 = EmptyString)) eqn:Hs; [done|].
  apply bool_decide_eq_false in Hs.
  by destruct (rstrip_startswith h0 Hh).
Qed.

Lemma rpartition_length p h t :
  Py.rpartition p = (h, t) → String.length h + String.length t = String.length p.
Proof.
  revert h t. induction p as [|a p IH]; intros h t H; simpl in H.
  { by injection H as <- <-. }
  destruct (Py.rpartition p) as [h' t']. specialize (IH h' t' eq_refl).
  destruct (bool_decide (h' = EmptyString)) eqn:Hh.
  - apply bool_decide_eq_true in Hh as ->. simpl in IH.
    destruct (bool_decide (a = Py.sep)); injection H as <- <-; simpl; lia.
  - injection H as <- <-. simpl. lia.
Qed.

Lemma rstrip_length s : String.length (Py.rstrip s) ≤ String.length s.
Proof.
  induction s as [|a s IH]; [done|]. simpl.
  destruct (bool_decide (Py.rstrip s = EmptyString) && bool_decide (a = Py.sep));
    simpl; lia.
Qed.

Lemma os_path_split_length p h t :
  Py.os_path_split p = (h, t) →
  String.length h + String.length t ≤ String.length p.
Proof.
  unfold Py.os_path_split. destruct (Py.rpartition p) as [h0 t0] eqn:Hr.
  apply rpartition_length in Hr. intros [= <- <-].
  pose proof (rstrip_length h0).
  destruct (bool_decide (Py.rstrip h0 = EmptyString)); lia.
Qed.

(** ** Where [os.makedirs] creates directories *)

Global Instance makes_preorder X : PreOrder (makes X).
Proof.
  split.
  - intros t. split; [reflexivity|done].
  - intros t1 t2 t3 [G1 H1] [G2 H2]. split; [by etrans|].
    intros q Hq. by rewrite H2, H1.
Qed.

Lemma makes_mono (X Y : list string → Prop) t t' :
  (∀ q, X q → Y q) → makes X t t' → makes Y t t'.
Proof. intros HXY [G H]. split; [done|]. intros q Hq. apply H. naive_solver. Qed.

Lemma makes_mkdir (X : list string → Prop) t c :
  X c → kind_at t c = Missing → makes X t (set_path t c (Dir ∅)).
Proof.
  intros HX Hc. split; [by apply grows_mkdir|]. intros q Hq.
  destruct (is_dir t (removelast c)) eqn:Hpar.
  - apply is_dir_kind in Hpar.
    rewrite kind_at_set_path; [|by intros ->|done|by rewrite Hc|done].
    rewrite decide_False; [done|]. by intros ->.
  - apply is_dir_kind_false in Hpar. by rewrite set_path_no_parent.
Qed.

Lemma respects_sys_mkdir_at (X : list string → Prop) p :
  (∀ w c, namei w p = inr c → X c) →
  respects eq (makes X) (sys_mkdir p).
Proof.
  intros HX st st' o H. unfold sys_mkdir in H. munfold H.
  inject_cases st st1 Hf Hc Hl Hn.
  - destruct (namei (world st1) p) as [e|c] eqn:Hnm;
      [by simplify_eq; rewrite Hf; split_and!; try tauto|].
    destruct (lookup_path (fs (world st1)) c) as [n|] eqn:Hlk;
      simplify_eq; simpl; rewrite <- ?Hf; split_and!; try done; try tauto.
    apply makes_mkdir; [by eapply HX|]. unfold kind_at. by rewrite Hlk.
  - simplify_eq. rewrite Hf. split_and!; try done; tauto.
Qed.

Lemma namei_abs_plain w p c :
  Py.startswith Py.sep p = true → forallb plain (components p) = true →
  namei w p = inr c → c = components p.
Proof.
  intros Hs Hp. unfold namei. rewrite Hs.
  destruct (bool_decide (p = EmptyString)); [done|].
  destruct (components p) as [|x segs] eqn:Hc.
  - simpl. by intros [= <-].
  - intros H. by apply walk_plain_inv in H as [-> _].
Qed.

(** The head and tail [os.makedirs] works with. *)
Lemma makedirs_split name head tail :
  (let '(h, t) := Py.os_path_split name in
   if bool_decide (t = EmptyString) then Py.os_path_split h else (h, t)) = (head, tail) →
  components name
  = components head ++ (if bool_decide (tail = EmptyString) then [] else [tail]) ∧
  (Py.startswith Py.sep name = true → Py.startswith Py.sep head = true) ∧
  String.length head + String.length tail ≤ String.length name.
Proof.
  destruct (Py.os_path_split name) as [h t] eqn:H1.
  pose proof (os_path_split_components _ _ _ H1) as Hc1.
  pose proof (os_path_split_length _ _ _ H1) as Hl1.
  destruct (bool_decide (t = EmptyString)) eqn:Ht.
  - intros H2.
    pose proof (os_path_split_components _ _ _ H2) as Hc2.
    pose proof (os_path_split_length _ _ _ H2) as Hl2.
    split_and!.
    + rewrite Hc1, app_nil_r. exact Hc2.
    + intros Hs. eapply os_path_split_startswith; [|exact H2].
      eapply os_path_split_startswith; [exact Hs|exact H1].
    + lia.
  - intros [= <- <-]. rewrite Ht. split_and!; [done| |done].
    intros Hs. eapply os_path_split_startswith; [exact Hs|exact H1].
Qed.

(** [os.makedirs] of an absolute path of ordinary names creates
    directories along that path and nowhere else. *)
Lemma respects_makedirs_rec_at depth name :
  Py.startswith Py.sep name = true → forallb plain (components name) = true →
  respects eq (makes (λ q, q `prefix_of` components name)) (makedirs_rec depth name).
Proof.
  revert name. induction depth as [|depth IH]; intros name Hs Hp;
    rewrite makedirs_rec_unfold;
    pose proof (makedirs_split name) as Hsplit;
    destruct (Py.os_path_split name) as [head tail];
    destruct (if bool_decide (tail = EmptyString) then Py.os_path_split head
              else (head, tail)) as [head' tail'];
    destruct (Hsplit head' tail' eq_refl) as (Hc & Hs' & _);
    assert (respects eq (makes (λ q, q `prefix_of` components name)) (sys_mkdir name))
      as Hmk
      by (apply respects_sys_mkdir_at; intros w c Hn;
          by rewrite (namei_abs_plain w name c Hs Hp Hn));
    (apply respects_bind; try apply _; [apply respects_get_world; apply _|]);
    intros w; (apply respects_if; try apply _; [|exact Hmk]).
  - apply respects_raise; apply _.
  - apply respects_bind; try apply _.
    + apply respects_try_except; try apply _.
      * eapply respects_mono; [done| |apply (IH head')].
        -- intros t t'. apply makes_mono. intros q Hq. rewrite Hc.
           by apply prefix_app_r.
        -- by apply Hs'.
        -- rewrite Hc, forallb_app in Hp. by apply andb_true_iff in Hp as [Hp _].
      * intros e. apply respects_if; try apply _;
          [apply respects_ret|apply respects_raise]; apply _.
    + intros _. apply respects_if; try apply _;
        [apply respects_ret; apply _|exact Hmk].
Qed.

Lemma respects_ensure_dst_dir_at :
  respects prefix (makes (λ q, q `prefix_of` components dst_dir)) ensure_dst_dir.
Proof.
  unfold ensure_dst_dir.
  apply respects_bind; try apply _; [apply respects_get_world; apply _|].
  intros w. apply respects_if; try apply _; [|apply respects_ret; apply _].
  apply respects_bind; try apply _.
  - apply respects_eq_prefix. unfold os_makedirs.
    apply respects_makedirs_rec_at; by vm_compute.
  - intros _. apply respects_log_append; apply _.
Qed.

(** ** The bound on the recursion of [os.makedirs] *)

(** The recursion goes to a strictly shorter path each time, so a bound of
    the length of the path is never reached: any larger bound gives the
    same result. *)
Lemma makedirs_rec_at depth name st :
  makedirs_rec depth name st =
    let '(head, tail) :=
      (let '(h, t) := Py.os_path_split name in
       if bool_decide (t = EmptyString) then Py.os_path_split h else (h, t)) in
    if negb (bool_decide (head = EmptyString)) && negb (bool_decide (tail = EmptyString))
       && negb (os_path_exists (world st) head)
    then
      match depth with
      | 0 => raise (Exception "maximum recursion depth exceeded") st
      | S depth' =>
          (try_except (makedirs_rec depth' head)
                      (λ e, if is_FileExistsError e then ret tt else raise e) ;;
           if bool_decide (tail = ".") then ret tt else sys_mkdir name) st
      end
    else sys_mkdir name st.
Proof.
  rewrite makedirs_rec_unfold.
  destruct (Py.os_path_split name) as [h t].
  destruct (if bool_decide (t = EmptyString) then Py.os_path_split h else (h, t))
    as [head tail].
  unfold bind at 1. unfold get_world.
  destruct (negb (bool_decide (head = EmptyString)) && negb (bool_decide (tail = EmptyString))
            && negb (os_path_exists (world st) head)); [|reflexivity].
  by destruct depth.
Qed.






Lemma makedirs_tail_plain name :
  forallb plain (components name) = true → makedirs_tail name ≠ ".".
Proof.
  intros Hp. pose proof (makedirs_split name) as Hsplit. unfold makedirs_tail.
  destruct (Py.os_path_split name) as [h t].
  destruct (if bool_decide (t = EmptyString) then Py.os_path_split h else (h, t))
    as [head tail].
  destruct (Hsplit head tail eq_refl) as (Hc & _ & _). simpl.
  intros ->. rewrite Hc, forallb_app in Hp. apply andb_true_iff in Hp as [_ Hp].
  by vm_compute in Hp.
Qed.

(** X11. [os.makedirs] of an absolute path made of ordinary names,
    whether it returns or raises, leaves the current directory and the log
    alone, changes nothing that exists, and lets directories appear along
    the path only; when it returns, the path and everything above it are
    directories. *)
Theorem X11_makedirs_creates_along_the_path name st st' o :
  Py.startswith Py.sep name = true → plain_path name = true →
  os_makedirs name st = (st', o) →
  cwd (world st') = cwd (world st) ∧ log st' = log st ∧
  (∀ q, kind_at (fs (world st)) q ≠ Missing →
        kind_at (fs (world st')) q = kind_at (fs (world st)) q) ∧
  (∀ q, ¬ q `prefix_of` components name →
        kind_at (fs (world st')) q = kind_at (fs (world st)) q) ∧
  (o = Ret tt →
   ∀ q, q `prefix_of` components name → is_dir (fs (world st')) q = true).
Proof.
  intros Hs Hp H.
  assert (forallb plain (components name) = true) as Hp'.
  { unfold plain_path in Hp. by apply andb_true_iff in Hp as [_ Hp]. }
  pose proof (respects_makedirs_rec_at _ name Hs Hp' _ _ _ H) as (Hc & _ & Hl & Hg & Hm).
  split_and!; [exact Hc|by rewrite Hl|exact Hg|exact Hm|].
  intros -> q [r Hq].
  apply (makedirs_rec_Ret _ name) in H as (st1 & H & Hc1);
    [|by apply makedirs_tail_plain].
  apply sys_mkdir_Ret in H as [_ H]; [|exact Hp].
  rewrite canon_abs in H by exact Hs. apply is_dir_kind.
  destruct r as [|x r].
  - rewrite app_nil_r in Hq. by rewrite <- Hq.
  - apply (kind_at_below _ q (x :: r)); [done|]. by rewrite <- Hq, H.
Qed.

Lemma X11_witness_destination_directory :
  (Py.startswith Py.sep dst_dir = true ∧ plain_path dst_dir = true) ∧
  is_dir (fs (world (fst (os_makedirs dst_dir (mkState world_fresh [])))))
         (components dst_dir) = true.
Proof.
  assert (Py.startswith Py.sep dst_dir = true) as H1 by (vm_compute; reflexivity).
  assert (plain_path dst_dir = true) as H2 by (vm_compute; reflexivity).
  assert (os_makedirs dst_dir (mkState world_fresh [])
          = (fst (os_makedirs dst_dir (mkState world_fresh [])), Ret tt)) as H3
    by (vm_compute; reflexivity).
  split; [exact (conj H1 H2)|].
  destruct (X11_makedirs_creates_along_the_path dst_dir _ _ _ H1 H2 H3)
    as (_ & _ & _ & _ & Hd).
  exact (Hd eq_refl _ (reflexivity _)).
Defined.

(** ** A write that fails *)

Lemma inject_cons st o rest :
  faults (world st) = o :: rest →
  inject st = (mkState (mkWorld (fs (world st)) (cwd (world st)) rest) (log st),
               match o with Some (e, _) => Raise e | None => Ret tt end).
Proof. unfold inject. by intros ->. Qed.

(** The oracle lets [open] for reading and [open] for writing through and
    makes the write fail after [n] bytes: the file is left with these. *)
Lemma copy_entry_write_fails e st data ex n :
  abs_file_path (src_path e) = true → abs_file_path (dst_path e) = true →
  abs_file_path (dst_inside e) = true →
  components (src_path e) ≠ target (world st) e →
  faults (world st) = [None; None; Some (ex, n)] →
  kind_at (fs (world st)) (components (src_path e)) = IsFile data →
  kind_at (fs (world st)) (removelast (target (world st) e)) = IsDir →
  kind_at (fs (world st)) (target (world st) e) ≠ IsDir →
  copy_entry e st
  = (mkState (mkWorld (set_path (set_path (fs (world st)) (target (world st) e) (File []))
                                (target (world st) e) (File (take n data)))
                      (cwd (world st)) [])
             (log st), Raise ex).
Proof.
  intros Hs Hd Hi Hne Hf Hk Hpar Hkt.
  assert (os_path_exists (world st) (src_path e) = true) as Hex.
  { pose proof Hs as (Hsa & Hse & Hsp)%abs_file_path_inv.
    by rewrite os_path_exists_plain, canon_abs, Hk, Hse. }
  rewrite (copy_entry_exists e st Hex), shutil_copy_eq.
  pose proof (target_path_abs (world st) e Hd Hi) as Ht.
  rewrite <- target_path_components in *.
  set (dst := target_path (world st) e) in *.
  pose proof Hs as (Hsa & Hse & Hsp)%abs_file_path_inv.
  pose proof Ht as (Hta & Hte & Htp)%abs_file_path_inv.
  assert (components dst ≠ []) as Hnil.
  { rewrite <- (canon_abs (world st) dst Hta). by apply canon_not_nil. }
  set (t1 := set_path (fs (world st)) (components dst) (File [])).
  set (t2 := set_path t1 (components dst) (File (take n data))).
  set (sta := mkState (mkWorld (fs (world st)) (cwd (world st)) [None; Some (ex, n)]) (log st)).
  set (stc := mkState (mkWorld t1 (cwd (world st)) [Some (ex, n)]) (log st)).
  set (std := mkState (mkWorld t2 (cwd (world st)) []) (log st)).
  assert (kind_at t1 (components dst) = IsFile []) as Hk1
    by by apply kind_at_set_file_same.
  assert (kind_at t1 (removelast (components dst)) = IsDir) as Hpar1.
  { apply is_dir_kind. unfold t1. rewrite is_dir_set_file by done. by apply is_dir_kind. }
  assert (kind_at t2 (components dst) = IsFile (take n data)) as Hk2.
  { apply kind_at_set_file_same; [done..|]. by rewrite Hk1. }
  assert (sys_open_read (src_path e) st = (sta, Ret data)) as Hrd.
  { unfold sys_open_read, bind. rewrite (inject_cons st _ _ Hf).
    unfold get_world, ret, raise. cbn [world fs cwd].
    rewrite namei_plain_ok; [|done|]; rewrite canon_abs by done.
    2:{ cbn [world fs]. apply kind_at_parent; [|by rewrite Hk].
        rewrite <- (canon_abs (world st) _ Hsa). by apply canon_not_nil. }
    cbn [world fs]. by rewrite (kind_at_lookup_file _ _ _ Hk), Hse. }
  assert (sys_open_write dst sta = (stc, Ret (components dst))) as Hop.
  { unfold sys_open_write, bind. rewrite (inject_cons sta _ _ eq_refl).
    unfold get_world, ret, raise, put_fs. cbn [world fs cwd log].
    rewrite namei_plain_ok; [|done|]; rewrite canon_abs by done; [|done].
    cbn [world fs]. rewrite Hte.
    change (fs (world sta)) with (fs (world st)).
    unfold kind_at in Hkt.
    by destruct (lookup_path (fs (world st)) (components dst)) as [[d|t]|]. }
  assert (sys_write (components dst) data stc = (std, Raise ex)) as Hwr.
  { rewrite sys_write_eq. change (fs (world stc)) with t1.
    rewrite (kind_at_lookup_file _ _ _ Hk1).
    unfold bind, put_fs, write_gets, inject, stc, std, t2.
    cbn [world fs cwd faults log]. reflexivity. }
  assert (copyfile (src_path e) dst st = (std, Raise ex)) as Hcf.
  { unfold copyfile. unfold bind at 1. unfold get_world.
    rewrite samefile_distinct; [|exact Hs|exact Ht|exact Hne].
    rewrite (bind_eq_Ret _ _ _ _ _ Hrd). unfold try_except.
    rewrite (bind_eq_Ret _ _ _ _ _ Hop), Hwr.
    destruct (is_IsADirectoryError ex); [|reflexivity].
    unfold bind, get_world.
    assert (os_path_exists (world std) dst = true) as ->; [|reflexivity].
    rewrite os_path_exists_plain, canon_abs by done.
    change (fs (world std)) with t2. by rewrite Hk2, Hte. }
  by rewrite (bind_eq_Raise _ _ _ _ _ Hcf).
Qed.

(** ** [os.makedirs] going through *)

Lemma rstrip_endswith s : Py.endswith Py.sep (Py.rstrip s) = false.
Proof.
  induction s as [|a s IH]; [done|]. simpl.
  destruct (bool_decide (Py.rstrip s = EmptyString)) eqn:Hr; simpl.
  - apply bool_decide_eq_true in Hr. rewrite Hr.
    destruct (bool_decide (a = Py.sep)) eqn:Ha; [done|]. simpl. exact Ha.
  - destruct (Py.rstrip s) as [|b r]; [done|]. exact IH.
Qed.

Lemma rpartition_tail s :
  s ≠ EmptyString → Py.endswith Py.sep s = false → snd (Py.rpartition s) ≠ EmptyString.
Proof.
  induction s as [|a s IH]; [done|]. intros _ He. simpl.
  destruct s as [|b s].
  - simpl in *. by rewrite He.
  - specialize (IH ltac:(done) He).
    destruct (Py.rpartition (String b s)) as [h t]. simpl in IH.
    destruct (bool_decide (h = EmptyString)); [|done].
    by destruct (bool_decide (a = Py.sep)).
Qed.

Lemma components_empty_string : components EmptyString = [].
Proof. reflexivity. Qed.

(** A path with a component has a tail for [os.makedirs] to create. *)
Lemma makedirs_split_tail name head tail :
  (let '(h, t) := Py.os_path_split name in
   if bool_decide (t = EmptyString) then Py.os_path_split h else (h, t)) = (head, tail) →
  components name ≠ [] → tail ≠ EmptyString.
Proof.
  unfold Py.os_path_split at 1.
  destruct (Py.rpartition name) as [h0 t0] eqn:Hr0.
  pose proof (rpartition_components _ _ _ Hr0) as Hc0.
  destruct (bool_decide (t0 = EmptyString)) eqn:Ht0.
  2:{ intros [= <- <-] _. by apply bool_decide_eq_false in Ht0. }
  rewrite app_nil_r in Hc0.
  destruct (bool_decide (Py.rstrip h0 = EmptyString)) eqn:Hs0.
  - apply bool_decide_eq_true in Hs0. intros _ Hne. exfalso. apply Hne.
    by rewrite Hc0, <- rstrip_components, Hs0.
  - apply bool_decide_eq_false in Hs0. unfold Py.os_path_split.
    pose proof (rpartition_tail (Py.rstrip h0) Hs0 (rstrip_endswith h0)) as Ht.
    destruct (Py.rpartition (Py.rstrip h0)) as [h1 t1]. by intros [= <- <-] _.
Qed.

Lemma os_path_exists_abs w p :
  Py.startswith Py.sep p = true → forallb plain (components p) = true →
  (∀ d, kind_at (fs w) (components p) ≠ IsFile d) →
  os_path_exists w p = is_dir (fs w) (components p).
Proof.
  intros Hs Hp Hnf. destruct (components p) as [|x segs] eqn:Hc.
  - unfold os_path_exists, os_stat, namei. rewrite Hs, Hc.
    destruct (bool_decide (p = EmptyString)) eqn:He.
    { apply bool_decide_eq_true in He. by subst. }
    reflexivity.
  - assert (plain_path p = true) as Hpp.
    { unfold plain_path. rewrite Hc, Hp. by rewrite bool_decide_eq_false_2. }
    rewrite (os_path_exists_plain w p Hpp), (canon_abs w p Hs), Hc.
    unfold is_dir, kind_at in *.
    destruct (lookup_path (fs w) (x :: segs)) as [[d|t]|]; simpl in *;
      [by destruct (Hnf d)|done..].
Qed.

Lemma sys_mkdir_ok p st :
  faults (world st) = [] → Py.startswith Py.sep p = true → plain_path p = true →
  kind_at (fs (world st)) (removelast (components p)) = IsDir →
  kind_at (fs (world st)) (components p) = Missing →
  sys_mkdir p st
  = (mkState (mkWorld (set_path (fs (world st)) (components p) (Dir ∅))
                      (cwd (world st)) (faults (world st))) (log st), Ret tt).
Proof.
  intros Hf Hs Hp Hpar Hk. unfold sys_mkdir, bind. rewrite (inject_nil st Hf).
  unfold get_world, ret, raise, put_fs.
  rewrite (namei_plain_ok (world st) p Hp);
    [rewrite canon_abs by done|by rewrite canon_abs].
  unfold kind_at in Hk.
  by destruct (lookup_path (fs (world st)) (components p)) as [[d|t]|].
Qed.

(** With nothing for the oracle to raise, nothing at the path and no
    regular file on the way, [os.makedirs] creates the directory and the
    missing ones above it. *)
Lemma makedirs_rec_ok depth name st :
  String.length name ≤ depth →
  Py.startswith Py.sep name = true → plain_path name = true →
  faults (world st) = [] →
  kind_at (fs (world st)) (components name) = Missing →
  (∀ q d, q `prefix_of` components name → kind_at (fs (world st)) q ≠ IsFile d) →
  ∃ st', makedirs_rec depth name st = (st', Ret tt) ∧ faults (world st') = [] ∧
         kind_at (fs (world st')) (components name) = IsDir.
Proof.
  revert name st. induction depth as [|depth IH];
    intros name st Hlen Hs Hp Hf Hk Hpre;
    pose proof Hp as [Hne Hpl]%andb_true_iff;
    apply negb_true_iff, bool_decide_eq_false in Hne;
    rewrite makedirs_rec_at;
    pose proof (makedirs_split name) as Hsplit;
    pose proof (makedirs_split_tail name) as Htail;
    destruct (let '(h, t) := Py.os_path_split name in
              if bool_decide (t = EmptyString) then Py.os_path_split h else (h, t))
      as [head tail];
    destruct (Hsplit head tail eq_refl) as (Hc & Hs' & Hl);
    specialize (Htail head tail eq_refl Hne); specialize (Hs' Hs);
    rewrite (bool_decide_eq_false_2 (tail = EmptyString)) in Hc by done;
    assert (0 < String.length tail) as Ht' by (destruct tail; [done|simpl; lia]);
    assert (forallb plain (components head) = true) as Hph
      by (rewrite Hc, forallb_app in Hpl; by apply andb_true_iff in Hpl as [? _]);
    assert (plain tail = true) as Hpt
      by (rewrite Hc, forallb_app in Hpl; apply andb_true_iff in Hpl as [_ Hpl];
          simpl in Hpl; by apply andb_true_iff in Hpl as [? _]);
    assert (removelast (components name) = components head) as Hrl
      by (by rewrite Hc, removelast_last);
    assert (os_path_exists (world st) head = is_dir (fs (world st)) (components head))
      as Hex
      by (apply os_path_exists_abs; [done..|]; intros d; apply Hpre; rewrite Hc;
          by apply prefix_app_r);
    assert (∀ st1, faults (world st1) = [] →
              kind_at (fs (world st1)) (components head) = IsDir →
              kind_at (fs (world st1)) (components name) = Missing →
              ∃ st', sys_mkdir name st1 = (st', Ret tt) ∧ faults (world st') = [] ∧
                     kind_at (fs (world st')) (components name) = IsDir) as Hmk
      by (intros st1 Hf1 Hd1 Hk1; eexists; split;
          [apply sys_mkdir_ok; [done..|by rewrite Hrl|done]|];
          split; [done|]; cbn [world fs];
          rewrite kind_at_set_path;
          [by rewrite decide_True|done|by rewrite Hrl|by rewrite Hk1|done]);
    rewrite Hex;
    rewrite (bool_decide_eq_false_2 (tail = EmptyString)) by done;
    rewrite (bool_decide_eq_false_2 (head = EmptyString))
      by (intros ->; discriminate Hs');
    destruct (is_dir (fs (world st)) (components head)) eqn:Hd; cbn [negb andb];
    try (apply Hmk; [done|by apply is_dir_kind|done]).
  - destruct name; simpl in *; [done|lia].
  - assert (components head ≠ []) as Hnh by (intros Hn; by rewrite Hn in Hd).
    assert (kind_at (fs (world st)) (components head) = Missing) as Hkh.
    { apply is_dir_kind_false in Hd.
      destruct (kind_at (fs (world st)) (components head)) as [|d|] eqn:Hkk;
        [done| |done].
      exfalso. apply (Hpre (components head) d); [|done].
      rewrite Hc. by apply prefix_app_r. }
    destruct (IH head st) as (st1 & Hrec & Hf1 & Hd1).
    + lia.
    + done.
    + unfold plain_path. rewrite Hph. by rewrite bool_decide_eq_false_2.
    + done.
    + done.
    + intros q d Hq. apply Hpre. rewrite Hc. by apply prefix_app_r.
    + pose proof (respects_makedirs_rec_at _ head Hs' Hph _ _ _ Hrec)
        as (_ & _ & _ & _ & Hm).
      unfold bind at 1, try_except. rewrite Hrec.
      rewrite bool_decide_eq_false_2
        by (intros ->; by vm_compute in Hpt).
      apply Hmk; [done..|].
      rewrite Hm; [done|]. rewrite Hc. intros [r Hr].
      apply (f_equal length) in Hr. rewrite !length_app in Hr. simpl in Hr. lia.
Qed.

(** X14. The destination directory does get created, parents included.
    When the oracle has nothing to raise, nothing is at the path of the
    destination directory and no regular file stands on the way to it, the
    first statement of the [try] block raises nothing: afterwards the
    destination directory and every directory above it are there, the log
    is the one line [Created directory <dst_dir>], and nothing off that
    path has changed. *)
Theorem X14_destination_directory_gets_created w :
  faults w = [] →
  kind_at (fs w) (components dst_dir) = Missing →
  (∀ q d, q `prefix_of` components dst_dir → kind_at (fs w) q ≠ IsFile d) →
  ∃ st0,
    ensure_dst_dir (mkState w []) = (st0, Ret tt) ∧
    log st0 = [created_line] ∧
    (∀ q, q `prefix_of` components dst_dir → is_dir (fs (world st0)) q = true) ∧
    (∀ q, ¬ q `prefix_of` components dst_dir →
          kind_at (fs (world st0)) q = kind_at (fs w) q).
Proof.
  intros Hf Hk Hpre.
  assert (os_path_exists w dst_dir = false) as Hex.
  { rewrite exists_dst_dir. apply is_dir_kind_false. by rewrite Hk. }
  destruct (makedirs_rec_ok (String.length dst_dir) dst_dir (mkState w []))
    as (st1 & Hmk & Hf1 & Hd1); [done|by vm_compute|apply dst_dir_plain|done..|].
  pose proof (respects_makedirs_rec_at _ dst_dir ltac:(by vm_compute)
                ltac:(by vm_compute) _ _ _ Hmk) as (_ & _ & Hl & _ & Hm).
  exists (mkState (world st1) (log st1 ++ [created_line])).
  split_and!.
  - rewrite (ensure_dst_dir_absent (mkState w []) Hex).
    unfold os_makedirs. by rewrite (bind_eq_Ret _ _ _ _ _ Hmk).
  - cbn [log]. by rewrite <- Hl.
  - intros q [r Hq]. cbn [world]. apply is_dir_kind. destruct r as [|x r].
    + rewrite app_nil_r in Hq. by rewrite <- Hq.
    + apply (kind_at_below _ q (x :: r)); [done|]. by rewrite <- Hq, Hd1.
  - exact Hm.
Qed.

Lemma X14_witness_fresh_destination :
  (faults world_fresh = [] ∧
   kind_at (fs world_fresh) (components dst_dir) = Missing) ∧
  ∃ st0,
    ensure_dst_dir (mkState world_fresh []) = (st0, Ret tt) ∧
    log st0 = [created_line].
Proof.
  assert (∀ q d, q `prefix_of` components dst_dir →
                 kind_at (fs world_fresh) q ≠ IsFile d) as H3.
  { intros q d [r Hq]. revert q r Hq. vm_compute components.
    intros q r Hq.
    repeat (destruct q as [|? q];
            [vm_compute; discriminate|
             injection Hq as <- Hq]).
    destruct q; [vm_compute; discriminate|discriminate Hq]. }
  assert (faults world_fresh = []) as H1 by reflexivity.
  assert (kind_at (fs world_fresh) (components dst_dir) = Missing) as H2
    by (vm_compute; reflexivity).
  split; [exact (conj H1 H2)|].
  destruct (X14_destination_directory_gets_created world_fresh H1 H2 H3)
    as (st0 & He & Hl & _).
  exists st0. exact (conj He Hl).
Defined.

(** From here on the library functions are used through their lemmas. *)
Opaque os_path_exists os_path_isdir os_stat namei samefile
       sys_mkdir sys_open_read sys_open_write sys_write sys_chmod os_listdir
       makedirs_rec os_makedirs copyfile shutil_copy.

(** ** The lines of the log *)

Lemma is_entry_line_copied e : is_entry_line (copied_line e) = true.
Proof. reflexivity. Qed.

Lemma is_entry_line_not_found e : is_entry_line (not_found_line e) = true.
Proof. reflexivity. Qed.

Lemma is_entry_line_entry e line : entry_line e line → is_entry_line line = true.
Proof. intros [-> | ->]; reflexivity. Qed.

Lemma is_entry_line_created : is_entry_line created_line = false.
Proof. reflexivity. Qed.

Lemma is_entry_line_error e : is_entry_line (error_line e) = false.
Proof. reflexivity. Qed.

Lemma is_entry_line_listing names : is_entry_line (Py.str_list names) = false.
Proof. reflexivity. Qed.

Lemma copied_not_not_found e e' : copied_line e ≠ not_found_line e'.
Proof. discriminate. Qed.


(** ** The last statements of the [try] block *)

Lemma list_destination_inv st st' o :
  list_destination st = (st', o) →
  match o with
  | Ret _ =>
      fs (world st') = fs (world st) ∧
      ∃ names,
        log st' = log st ++ ["Destination contents:"; Py.str_list names] ∧
        NoDup names ∧
        ∀ n, n ∈ names ↔
             kind_at (fs (world st)) (components dst_dir ++ [n]) ≠ Missing
  | Raise _ => log st' = log st ++ ["Destination contents:"]
  end.
Proof.
  unfold list_destination. unfold bind at 1. unfold log_append at 1.
  set (st0 := mkState (world st) (log st ++ ["Destination contents:"])).
  intros H. unfold bind in H.
  destruct (os_listdir dst_dir st0) as [st1 [names|ex]] eqn:Hls.
  - apply os_listdir_Ret in Hls as (Hf & Hl & Hnd & Hin); [|apply dst_dir_plain].
    rewrite canon_dst_dir in Hin.
    unfold log_append in H. injection H as <- <-. subst st0. simpl in *.
    split; [done|].
    exists names. rewrite Hl, <- app_assoc. done.
  - apply respects_os_listdir with (X := λ _, False) in Hls as (_ & _ & Hl & Hfr).
    injection H as <- <-. by subst st0.
Qed.

(** ** The loop, again *)

Lemma for_files_cons e l st :
  for_files (e :: l) st = (copy_entry e ;; for_files l) st.
Proof. reflexivity. Qed.

(** A loop that raises does so at one pair, after the pairs before it. *)
Lemma for_files_Raise_inv l st st' ex :
  for_files l st = (st', Raise ex) →
  ∃ pre x post st1,
    l = pre ++ x :: post ∧ for_files pre st = (st1, Ret tt) ∧
    copy_entry x st1 = (st', Raise ex).
Proof.
  revert st. induction l as [|e l IH]; intros st H; [done|].
  rewrite for_files_cons in H. apply bind_Raise in H as [He|([] & st1 & He & H)].
  - by exists [], e, l, st.
  - apply IH in H as (pre & x & post & st2 & -> & Hpre & Hx).
    exists (e :: pre), x, post, st2. split_and!; [done| |done].
    rewrite for_files_cons. by rewrite (bind_eq_Ret _ _ _ _ _ He).
Qed.

(** ** The [try] block *)

Lemma files_ok : manifest_ok files = true.
Proof. by vm_compute. Qed.

Lemma files_paths e :
  e ∈ files →
  abs_file_path (dst_path e) = true ∧ abs_file_path (dst_inside e) = true.
Proof.
  intros He. by destruct (manifest_ok_paths files e files_ok He) as (_ & ? & ?).
Qed.

Opaque ensure_dst_dir copy_entry for_files list_destination.

(** How far the [try] block gets. *)
Lemma try_block_inv st st' o :
  try_block st = (st', o) →
  (∃ ex, o = Raise ex ∧ ensure_dst_dir st = (st', Raise ex)) ∨
  ∃ st0, ensure_dst_dir st = (st0, Ret tt) ∧
    ((∃ ex, o = Raise ex ∧ for_files files st0 = (st', Raise ex)) ∨
     ∃ st1, for_files files st0 = (st1, Ret tt) ∧ list_destination st1 = (st', o)).
Proof.
  unfold try_block. intros H. unfold bind in H.
  destruct (ensure_dst_dir st) as [st0 [[]|ex]]; [|left; exists ex; by simplify_eq].
  right. exists st0. split; [done|].
  destruct (for_files files st0) as [st1 [[]|ex]]; [|left; exists ex; by simplify_eq].
  right. by exists st1.
Qed.

(** The log the [try] block leaves: at most the line of the directory, one
    line for each pair gone through, and the listing or what there is of
    it. *)
Lemma try_block_log w st o :
  try_block (mkState w []) = (st, o) →
  ∃ hd k lines tl,
    log st = hd ++ lines ++ tl ∧
    (hd = [] ∨ hd = [created_line]) ∧
    Forall2 entry_line (take k files) lines ∧
    match o with
    | Ret _ => k = length files ∧
               ∃ names, tl = ["Destination contents:"; Py.str_list names]
    | Raise _ => tl = [] ∨ (k = length files ∧ tl = ["Destination contents:"])
    end.
Proof.
  intros H.
  apply try_block_inv in H as [(ex & -> & He)|(st0 & He & H)].
  { apply ensure_dst_dir_inv in He as [_ Hl]. simpl in Hl.
    exists [], 0, [], []. rewrite Hl. split_and!; [done|by left|constructor|by left]. }
  assert (log st0 = [] ∨ log st0 = [created_line]) as Hhd.
  { apply ensure_dst_dir_inv in He as [_ Hl]. simpl in Hl.
    destruct (os_path_exists w dst_dir); [left; by subst|by right]. }
  destruct H as [(ex & -> & Hf)|(st1 & Hf & Hls)].
  - apply for_files_log in Hf as (k & lines & Hl & Hall & Hk); [|apply files_paths].
    exists (log st0), k, lines, []. rewrite app_nil_r. split_and!; [done..|by left].
  - apply for_files_log in Hf as (k & lines & Hl & Hall & ->); [|apply files_paths].
    apply list_destination_inv in Hls. destruct o as [[]|ex].
    + destruct Hls as (_ & names & Hl' & _).
      exists (log st0), (length files), lines, ["Destination contents:"; Py.str_list names].
      rewrite Hl', Hl, <- app_assoc. split_and!; [done..|]. by exists names.
    + exists (log st0), (length files), lines, ["Destination contents:"].
      rewrite Hls, Hl, <- app_assoc. split_and!; [done..|]. by right.
Qed.

(** ** The whole script *)

Lemma try_except_handler (m : M unit) st :
  try_except m handler st = (logged (m st), Ret tt).
Proof. unfold try_except, logged, handler. by destruct (m st) as [st' [[]|e]]. Qed.

Lemma run_eq w : run w = write_log (logged (try_block (mkState w []))).
Proof.
  unfold run, script. unfold bind.
  change (λ e, log_append (error_line e)) with handler.
  by rewrite try_except_handler.
Qed.

Lemma script_from_eq l st :
  script_from l st = write_log (logged ((for_files l ;; list_destination) st)).
Proof. unfold script_from. unfold bind at 1. by rewrite try_except_handler. Qed.

Lemma log_file_plain : plain_path log_file = true.
Proof. by vm_compute. Qed.

Lemma canon_log_file w : canon w log_file = cwd w ++ [log_file].
Proof. reflexivity. Qed.

(** When writing the log has raised nothing the file holds the lines,
    joined by newlines, and nothing else. *)
Lemma write_log_Ret st st' :
  write_log st = (st', Ret tt) →
  log st' = log st ∧
  read_file (fs (world st')) (cwd (world st) ++ [log_file])
  = Some (Py.encode (Py.join_lines (log st))).
Proof.
  intros H. pose proof H as (_ & _ & Hl & _)%write_log_inv. split; [done|].
  unfold write_log in H. unfold bind at 1 in H. simpl in H.
  apply open_write_write_Ret in H; [|apply log_file_plain].
  rewrite canon_log_file in H. by apply read_file_kind.
Qed.

Opaque write_log.

Lemma run_log w : log (run w).1 = log (logged (try_block (mkState w []))).
Proof.
  rewrite run_eq. destruct (write_log _) as [st' o] eqn:H.
  by apply write_log_inv in H as (_ & _ & Hl & _).
Qed.

(** From a point in the loop to the end of the script: the files of the
    remaining pairs and the log file are written, nothing else changes. *)
Lemma script_from_inv l st st' o :
  manifest_ok files = true → l ⊆ files →
  script_from l st = (st', o) →
  cwd (world st') = cwd (world st) ∧
  (faults (world st) = [] → faults (world st') = []) ∧
  log st `prefix_of` log st' ∧
  frame (λ q, q ∈ writes l ∨ q = cwd (world st) ++ [log_file])
        (fs (world st)) (fs (world st')).
Proof.
  intros Hok Hsub H. rewrite script_from_eq in H.
  destruct ((for_files l ;; list_destination) st) as [st1 o1] eqn:Hbody.
  assert (respects prefix (frame (λ q, q ∈ writes l)) (for_files l ;; list_destination))
    as Hr.
  { apply respects_bind; try apply _.
    - apply (respects_for_files files); [exact Hok|exact Hsub].
    - intros _. eapply respects_mono; [| |apply respects_list_destination].
      + intros x y Hxy. exact Hxy.
      + intros t t'. apply frame_mono. intros q []. }
  apply Hr in Hbody as (Hc & Hf & Hl & Hfr).
  apply write_log_inv in H as (Hc' & Hf' & Hl' & Hfr').
  assert (cwd (world (logged (st1, o1))) = cwd (world st)) as Hc1
    by by destruct o1.
  assert (fs (world (logged (st1, o1))) = fs (world st1)) as Hfs1
    by by destruct o1.
  assert (faults (world (logged (st1, o1))) = faults (world st1)) as Hfa1
    by by destruct o1.
  assert (log st1 `prefix_of` log (logged (st1, o1))) as Hl1.
  { destruct o1; simpl; [done|]. by apply prefix_app_r. }
  rewrite canon_log_file, Hc1, Hfs1 in Hfr'. rewrite Hfa1 in Hf'.
  split_and!.
  - congruence.
  - auto.
  - rewrite Hl'. by etrans.
  - etrans; [eapply frame_mono; [|exact Hfr]|eapply frame_mono; [|exact Hfr']];
      intros q Hq; [by left|by right].
Qed.

Lemma run_from_ensure w st0 :
  ensure_dst_dir (mkState w []) = (st0, Ret tt) → run w = script_from files st0.
Proof.
  intros He. rewrite run_eq, script_from_eq. unfold try_block.
  by rewrite (bind_eq_Ret _ _ _ _ _ He).
Qed.

Lemma script_from_skip pre post st st1 :
  for_files pre st = (st1, Ret tt) →
  script_from (pre ++ post) st = script_from post st1.
Proof.
  intros Hpre. rewrite !script_from_eq. do 2 f_equal.
  unfold bind. rewrite for_files_app. unfold bind. by rewrite Hpre.
Qed.

Lemma script_from_step e post st st1 :
  copy_entry e st = (st1, Ret tt) →
  script_from (e :: post) st = script_from post st1.
Proof.
  intros He. apply (script_from_skip [e] post).
  rewrite for_files_cons. by rewrite (bind_eq_Ret _ _ _ _ _ He).
Qed.


Lemma try_block_cwd st st' o :
  try_block st = (st', o) → cwd (world st') = cwd (world st).
Proof.
  intros H. apply try_block_inv in H as [(ex & -> & He)|(st0 & He & H)].
  { by apply respects_ensure_dst_dir in He as (Hc & _). }
  apply respects_ensure_dst_dir in He as (Hc & _). rewrite <- Hc.
  destruct H as [(ex & -> & Hf)|(st1 & Hf & Hls)].
  - by apply (respects_for_files files) in Hf as (Hc' & _); [|apply files_ok|].
  - apply (respects_for_files files) in Hf as (Hc' & _); [|apply files_ok|done].
    apply respects_list_destination in Hls as (Hc'' & _). congruence.
Qed.

Lemma logged_cwd w : cwd (world (logged (try_block (mkState w [])))) = cwd w.
Proof.
  destruct (try_block (mkState w [])) as [st o] eqn:H.
  apply try_block_cwd in H. by destruct o.
Qed.


(** * The specification, claim by claim *)





(** C3 as stated fails for a failure of the last step: with the first copy
    refused and a directory named [copy_log.txt] in the current directory,
    the [try] block raises, the handler adds its line, and then [open]
    raises outside the [try] statement: no log file is written and the run
    ends with status 1. *)
Lemma C3_counterexample_denied_copy_and_log_directory :
  try_block (mkState world_denied_log_is_dir [])
  = (try_end world_denied_log_is_dir, Raise (OSError EACCES (dst_path technomancer))) ∧
  ¬ is_Some (read_file (fs (after_run world_denied_log_is_dir))
                       (cwd world_denied_log_is_dir ++ [log_file])) ∧
  exit_status (run world_denied_log_is_dir).2 = 1.
Proof.
  vm_compute. split_and!; [reflexivity| |reflexivity].
  intros [x H]. discriminate H.
Qed.

(** C3, as the code has it.  When a step of the [try] block raises, the
    state in which it raised is the state in which the block ends: the
    pairs after a failing copy and the listing are not run.  The handler
    adds one line with the message of the exception to the lines gathered
    so far, and the script goes on to write the log file with exactly these
    lines.  The file holds them whenever that write raises nothing; and it
    raises nothing, the run ending with status 0, when no failure from
    outside the file system is left to come, the current directory is there
    and [copy_log.txt] in it is not a directory. *)
Theorem C3_failure_is_logged_and_log_written w st ex :
  try_block (mkState w []) = (st, Raise ex) →
  (ensure_dst_dir (mkState w []) = (st, Raise ex)
   ∨ (∃ st0 pre x post st1,
        ensure_dst_dir (mkState w []) = (st0, Ret tt) ∧ files = pre ++ x :: post ∧
        for_files pre st0 = (st1, Ret tt) ∧ copy_entry x st1 = (st, Raise ex))
   ∨ (∃ st0 st1,
        ensure_dst_dir (mkState w []) = (st0, Ret tt) ∧
        for_files files st0 = (st1, Ret tt) ∧
        list_destination st1 = (st, Raise ex))) ∧
  run w = write_log (mkState (world st) (log st ++ ["Error: " +:+ str_exn ex])) ∧
  log (run w).1 = log st ++ ["Error: " +:+ str_exn ex] ∧
  (∀ st', run w = (st', Ret tt) →
     ∃ bytes,
       read_file (fs (world st')) (cwd w ++ ["copy_log.txt"]) = Some bytes ∧
       string_of_list_byte bytes
       = Py.join_lines (log st ++ ["Error: " +:+ str_exn ex])) ∧
  (faults (world st) = [] →
   kind_at (fs (world st)) (cwd w) = IsDir →
   kind_at (fs (world st)) (cwd w ++ ["copy_log.txt"]) ≠ IsDir →
   ∃ st' bytes,
     run w = (st', Ret tt) ∧ exit_status (run w).2 = 0 ∧
     read_file (fs (world st')) (cwd w ++ ["copy_log.txt"]) = Some bytes ∧
     string_of_list_byte bytes
     = Py.join_lines (log st ++ ["Error: " +:+ str_exn ex])).
Proof.
  intros H. change ("Error: " +:+ str_exn ex) with (error_line ex).
  change "copy_log.txt" with log_file.
  assert (run w = write_log (mkState (world st) (log st ++ [error_line ex]))) as Hrun
    by (by rewrite run_eq, H).
  assert (∀ st', run w = (st', Ret tt) →
            ∃ bytes,
              read_file (fs (world st')) (cwd w ++ [log_file]) = Some bytes ∧
              string_of_list_byte bytes
              = Py.join_lines (log st ++ [error_line ex])) as Hrd.
  { intros st' Hr. rewrite run_eq in Hr.
    apply write_log_Ret in Hr as [_ Hrd]. rewrite logged_cwd in Hrd.
    rewrite H in Hrd. eexists. split; [exact Hrd|].
    apply string_of_list_byte_of_string. }
  split_and!.
  - apply try_block_inv in H as [(ex' & [= <-] & He)|(st0 & He & H)]; [by left|].
    right. destruct H as [(ex' & [= <-] & Hf)|(st1 & Hf & Hls)].
    + left. apply for_files_Raise_inv in Hf as (pre & x & post & st1 & ? & ? & ?).
      by exists st0, pre, x, post, st1.
    + right. by exists st0, st1.
  - exact Hrun.
  - by rewrite run_log, H.
  - exact Hrd.
  - intros Hf Hcwd Hlog. apply try_block_cwd in H as Hc. simpl in Hc.
    destruct (write_log_ok (mkState (world st) (log st ++ [error_line ex])))
      as [st' Hw]; simpl; [done|by rewrite Hc|by rewrite Hc|].
    rewrite <- Hrun in Hw. destruct (Hrd st' Hw) as (bytes & Hb & Hs).
    exists st', bytes. split_and!; [done|by rewrite Hw|done..].
Qed.

Lemma C3_witness_permission_denied :
  try_block (mkState world_denied [])
  = (try_end world_denied, Raise (OSError EACCES (dst_path technomancer))) ∧
  ∃ st' bytes,
    run world_denied = (st', Ret tt) ∧
    exit_status (run world_denied).2 = 0 ∧
    read_file (fs (world st')) ["tmp"; "copy_log.txt"] = Some bytes ∧
    string_of_list_byte bytes
    = "Error: [Errno 13] Permission denied: "
      +:+ "'/Users/agustinmontoya/Projectos/MVPs/juego-cartas-educativo/"
      +:+ "mindspark-duel/public/assets/decks/technomancer-box.png'".
Proof.
  assert (try_block (mkState world_denied [])
          = (try_end world_denied, Raise (OSError EACCES (dst_path technomancer)))) as H
    by (vm_compute; reflexivity).
  assert (faults (world (try_end world_denied)) = []) as Hf
    by (vm_compute; reflexivity).
  assert (kind_at (fs (world (try_end world_denied))) (cwd world_denied) = IsDir) as Hc
    by (vm_compute; reflexivity).
  assert (kind_at (fs (world (try_end world_denied))) (cwd world_denied ++ ["copy_log.txt"])
          ≠ IsDir) as Hl
    by (vm_compute; intros Hk; discriminate Hk).
  assert (Py.join_lines (log (try_end world_denied)
                         ++ ["Error: " +:+ str_exn (OSError EACCES (dst_path technomancer))])
          = "Error: [Errno 13] Permission denied: "
            +:+ "'/Users/agustinmontoya/Projectos/MVPs/juego-cartas-educativo/"
            +:+ "mindspark-duel/public/assets/decks/technomancer-box.png'") as Hj
    by (vm_compute; reflexivity).
  split; [exact H|].
  destruct (C3_failure_is_logged_and_log_written _ _ _ H) as (_ & _ & _ & _ & Hw).
  destruct (Hw Hf Hc Hl) as (st' & bytes & Hrun & Hex & Hrd & Hs).
  exists st', bytes. split_and!; [exact Hrun|exact Hex|exact Hrd|].
  rewrite <- Hj. exact Hs.
Defined.

(** [repr] of a name made of printable ASCII characters other than the
    quote and the backslash is the name between single quotes. *)
Lemma repr_body_simple q s :
  string_forallb (λ c, bool_decide (32 ≤ nat_of_ascii c) && bool_decide (nat_of_ascii c < 127)
                       && negb (bool_decide (c = Py.squote))
                       && negb (bool_decide (c = Py.backslash))) s = true →
  q = Py.squote →
  Py.repr_body q s = s ∧ Py.contains Py.squote s = false.
Proof.
  intros Hs ->. induction s as [|c s IH]; [done|].
  cbn [string_forallb] in Hs.
  apply andb_true_iff in Hs as [Hc Hs]. destruct (IH Hs) as [IH1 IH2].
  apply andb_true_iff in Hc as [Hc Hb]. apply andb_true_iff in Hc as [Hc Hq].
  apply andb_true_iff in Hc as [Hlo Hhi].
  apply bool_decide_eq_true in Hlo, Hhi.
  apply negb_true_iff, bool_decide_eq_false in Hq, Hb.
  cbn [Py.repr_body Py.contains]. rewrite IH1, IH2.
  rewrite (bool_decide_eq_false_2 _ Hq). split; [|done].
  unfold Py.repr_char.
  rewrite (bool_decide_eq_false_2 _ Hb), (bool_decide_eq_false_2 _ Hq).
  rewrite !bool_decide_eq_false_2 by lia. done.
Qed.

Lemma repr_simple n : simple_name n = true → Py.repr n = "'" +:+ n +:+ "'".
Proof.
  intros H. destruct (repr_body_simple Py.squote n H eq_refl) as [Hb Hc].
  unfold Py.repr. rewrite Hc. cbn [andb]. by rewrite Hb.
Qed.






(** C4 as stated fails: with a directory named [copy_log.txt] in the
    current directory, [open] raises [IsADirectoryError] outside the [try]
    statement; the run ends with a traceback and status 1 and there is no
    log file. *)
Lemma C4_counterexample_log_is_a_directory :
  ¬ (exit_status (run world_log_is_dir).2 = 0 ∧
     is_Some (read_file (fs (world (run world_log_is_dir).1))
                        (cwd world_log_is_dir ++ [log_file]))).
Proof. vm_compute. intros [H _]. discriminate H. Qed.

(** C4, as the code has it.  No exception raised inside the [try] block
    leaves it: the handler takes each one and the script goes on to write
    the log.  When opening and writing [copy_log.txt] raise nothing the run
    ends normally, with status 0 and the log in the file; an exception
    raised there is not caught and ends the run. *)
Theorem C4_errors_caught_up_to_the_log_write w :
  let st := logged (try_block (mkState w [])) in
  try_except try_block handler (mkState w []) = (st, Ret tt) ∧
  run w = write_log st ∧
  (∀ st', write_log st = (st', Ret tt) →
     exit_status (run w).2 = 0 ∧
     read_file (fs (world (run w).1)) (cwd w ++ [log_file])
     = Some (Py.encode (Py.join_lines (log st)))) ∧
  (∀ st' ex, write_log st = (st', Raise ex) →
     (run w).2 = Raise ex ∧ exit_status (run w).2 = 1).
Proof.
  intros st. subst st. split_and!.
  - apply try_except_handler.
  - apply run_eq.
  - intros st' Hw. rewrite run_eq, Hw. simpl. split; [done|].
    apply write_log_Ret in Hw as [_ Hrd]. by rewrite logged_cwd in Hrd.
  - intros st' ex Hw. by rewrite run_eq, Hw.
Qed.

(** ** A pair of the manifest and the pairs after it *)

Lemma files_paths_eq e :
  e ∈ files →
  src_path e = src_dir +:+ fst e ∧ dst_path e = dst_dir +:+ snd e.
Proof.
  unfold files. intros He.
  repeat (apply elem_of_cons in He as [-> | He]); [by vm_compute..|].
  by apply elem_of_nil in He.
Qed.

Lemma elem_of_middle {A} (pre : list A) x post : x ∈ pre ++ x :: post.
Proof. apply elem_of_app. right. apply list_elem_of_here. Qed.

Lemma files_split_paths pre e post :
  files = pre ++ e :: post →
  abs_file_path (src_path e) = true ∧ abs_file_path (dst_path e) = true ∧
  abs_file_path (dst_inside e) = true.
Proof.
  intros H. apply (manifest_ok_paths files); [apply files_ok|].
  rewrite H. apply elem_of_middle.
Qed.

(** What the pairs after [e] write is not what [e] reads or writes, and
    the log file is neither. *)
Lemma files_split_apart pre e post c :
  files = pre ++ e :: post →
  c = components (src_path e) ∨ c = components (dst_path e)
  ∨ c = components (dst_inside e) →
  (c ∉ writes post) ∧ ∀ d, c ≠ d ++ [log_file].
Proof.
  intros Hfiles Hc.
  destruct (manifest_ok_inv files files_ok) as (Hnd & Hsrc & Hls & Hlw).
  assert (e ∈ files) as He by (rewrite Hfiles; apply elem_of_middle).
  assert (writes files = writes pre ++ components (dst_path e)
                         :: components (dst_inside e) :: writes post) as Hw.
  { by rewrite Hfiles, writes_app, writes_cons. }
  rewrite Hw in Hnd. apply NoDup_app in Hnd as (_ & _ & Hnd).
  apply NoDup_cons in Hnd as [Hn1 Hnd]. apply NoDup_cons in Hnd as [Hn2 _].
  destruct Hc as [-> | [-> | ->]].
  - split.
    + intros Hin. apply (Hsrc e He). rewrite Hw.
      apply elem_of_app. right. by do 2 apply list_elem_of_further.
    + intros d Hd. apply (Hls e He). rewrite Hd. apply last_snoc.
  - split.
    + intros Hin. apply Hn1. by apply list_elem_of_further.
    + intros d Hd. apply (Hlw (components (dst_path e))).
      { rewrite Hw. apply elem_of_app. right. apply list_elem_of_here. }
      rewrite Hd. apply last_snoc.
  - split; [done|].
    intros d Hd. apply (Hlw (components (dst_inside e))).
    { rewrite Hw. apply elem_of_app. right.
      apply list_elem_of_further, list_elem_of_here. }
    rewrite Hd. apply last_snoc.
Qed.

(** From a pair of the manifest to the end of the run, what that pair
    reads and writes is left alone, and the log only grows. *)
Lemma rest_of_run pre e post st st' o c :
  files = pre ++ e :: post →
  script_from post st = (st', o) →
  c = components (src_path e) ∨ c = components (dst_path e)
  ∨ c = components (dst_inside e) →
  kind_at (fs (world st')) c = kind_at (fs (world st)) c ∧
  log st `prefix_of` log st'.
Proof.
  intros Hfiles H Hc.
  apply script_from_inv in H as (_ & _ & Hl & [_ Hfr]); [|apply files_ok|].
  2:{ rewrite Hfiles. intros x Hx. apply elem_of_app. right.
      by apply list_elem_of_further. }
  split; [|done]. apply Hfr.
  destruct (files_split_apart pre e post c Hfiles Hc) as [Hw Hlog].
  intros [Hin|Heq]; [done|]. by apply Hlog in Heq.
Qed.

Lemma run_from_entry w st0 pre e post st1 :
  ensure_dst_dir (mkState w []) = (st0, Ret tt) →
  files = pre ++ e :: post →
  for_files pre st0 = (st1, Ret tt) →
  run w = script_from (e :: post) st1.
Proof.
  intros He Hfiles Hpre. rewrite (run_from_ensure w st0 He), Hfiles.
  by apply script_from_skip.
Qed.

(** C2 as stated fails for a pair the loop does not reach: with a
    directory where the first source should be, the first copy raises, the
    handler takes the exception and the run ends normally; the third source
    is missing and no line of the log names it. *)
Lemma C2_counterexample_missing_source_not_reached :
  os_path_exists world_src_is_dir (src_path arcane) = false ∧
  kind_at (fs world_src_is_dir) (components (src_path arcane)) = Missing ∧
  (not_found_line arcane ∉ log (fst (run world_src_is_dir))) ∧
  exit_status (run world_src_is_dir).2 = 0.
Proof.
  split_and!; [vm_compute; reflexivity..| |vm_compute; reflexivity].
  apply (bool_decide_eq_false_1
           (not_found_line arcane ∈ log (fst (run world_src_is_dir)))).
  vm_compute. reflexivity.
Qed.

(** C2, as the code has it.  A pair that the loop reaches, the directory
    step and the pairs before it having raised nothing, and whose source
    [os.path.exists] does not find gets one line, [Source file not found: ]
    and the full source path, in the log; the file system is not touched
    for it and nothing is raised; the run goes on with the pairs after it;
    and at the end of the run the destination path of the pair shows what
    it showed when the pair was reached. *)
Theorem C2_missing_source_is_logged_and_skipped w st0 pre e post st1 :
  ensure_dst_dir (mkState w []) = (st0, Ret tt) →
  files = pre ++ e :: post →
  for_files pre st0 = (st1, Ret tt) →
  os_path_exists (world st1) (src_path e) = false →
  let st2 := mkState (world st1) (log st1 ++ [not_found_line e]) in
  copy_entry e st1 = (st2, Ret tt) ∧
  not_found_line e = "Source file not found: " +:+ src_dir +:+ fst e ∧
  run w = script_from post st2 ∧
  not_found_line e ∈ log (run w).1 ∧
  kind_at (fs (world (run w).1)) (components (dst_path e))
  = kind_at (fs (world st1)) (components (dst_path e)).
Proof.
  intros He Hfiles Hpre Hex st2.
  pose proof (copy_entry_missing e st1 Hex) as Hstep. fold st2 in Hstep.
  assert (run w = script_from post st2) as Hrun.
  { rewrite (run_from_entry w st0 pre e post st1) by done.
    by apply script_from_step. }
  split_and!; [done| |done|..].
  - unfold not_found_line.
    assert (e ∈ files) as Hin by (rewrite Hfiles; apply elem_of_middle).
    by destruct (files_paths_eq e Hin) as [-> _].
  - rewrite Hrun. destruct (script_from post st2) as [st' o] eqn:H.
    apply (rest_of_run pre e post _ _ _ (components (dst_path e))) in H as [_ Hl];
      [|done|by right; left].
    simpl. eapply elem_of_prefix; [|exact Hl]. subst st2. simpl.
    apply elem_of_app. right. apply list_elem_of_here.
  - rewrite Hrun. destruct (script_from post st2) as [st' o] eqn:H.
    by apply (rest_of_run pre e post _ _ _ (components (dst_path e))) in H as [Hk _];
      [|done|by right; left].
Qed.

Lemma C2_witness_third_source_missing :
  (ensure_dst_dir (mkState world_fresh []) = (after_ensure world_fresh, Ret tt) ∧
   files = [technomancer; nature] ++ arcane :: [] ∧
   for_files [technomancer; nature] (after_ensure world_fresh)
   = (after_entries 2 world_fresh, Ret tt) ∧
   os_path_exists (world (after_entries 2 world_fresh)) (src_path arcane) = false) ∧
  not_found_line arcane ∈ log (run world_fresh).1 ∧
  kind_at (fs (world (run world_fresh).1)) (components (dst_path arcane)) = Missing.
Proof.
  assert (ensure_dst_dir (mkState world_fresh []) = (after_ensure world_fresh, Ret tt))
    as H1 by (vm_compute; reflexivity).
  assert (files = [technomancer; nature] ++ arcane :: []) as H2 by reflexivity.
  assert (for_files [technomancer; nature] (after_ensure world_fresh)
          = (after_entries 2 world_fresh, Ret tt)) as H3 by (vm_compute; reflexivity).
  assert (os_path_exists (world (after_entries 2 world_fresh)) (src_path arcane) = false)
    as H4 by (vm_compute; reflexivity).
  split; [exact (conj H1 (conj H2 (conj H3 H4)))|].
  destruct (C2_missing_source_is_logged_and_skipped _ _ _ _ _ _ H1 H2 H3 H4)
    as (_ & _ & _ & Hin & Hk).
  split; [exact Hin|]. rewrite Hk. vm_compute. reflexivity.
Defined.

(** C1 as stated fails: with a directory at the destination path of the
    first pair, the source exists, nothing is raised, the log records the
    copy to the destination path, and yet that path still shows the
    directory: [shutil.copy] has put the file inside it, under the base name
    of the source. *)
Lemma C1_counterexample_destination_is_a_directory :
  os_path_exists world_dst_taken (src_path technomancer) = true ∧
  snd (try_block (mkState world_dst_taken [])) = Ret tt ∧
  copied_line technomancer ∈ log (run world_dst_taken).1 ∧
  read_file (fs (world (run world_dst_taken).1)) (components (src_path technomancer))
  = Some (Py.encode "PNG 1") ∧
  read_file (fs (world (run world_dst_taken).1)) (components (dst_path technomancer))
  = None ∧
  read_file (fs (world (run world_dst_taken).1))
            (components (dst_path technomancer)
             ++ ["technomancer_epic_box_1764234646053.png"])
  = Some (Py.encode "PNG 1").
Proof. vm_compute. split_and!; try reflexivity. apply list_elem_of_here. Qed.

(** C1, as the code has it.  For a pair whose source [os.path.exists]
    finds when the pair is reached and whose copy raises nothing: the
    source is a regular file, and its bytes are in the file at the target
    once the pair is done and still at the end of the run, where the source
    holds them too.  The target is the destination path, directory joined
    with name, unless a directory is there already; whatever file was there
    is overwritten.  The log gets the one line recording the copy. *)
Theorem C1_existing_source_is_copied w st0 pre e post st1 st2 :
  ensure_dst_dir (mkState w []) = (st0, Ret tt) →
  files = pre ++ e :: post →
  for_files pre st0 = (st1, Ret tt) →
  os_path_exists (world st1) (src_path e) = true →
  copy_entry e st1 = (st2, Ret tt) →
  ∃ data,
    read_file (fs (world st1)) (components (src_path e)) = Some data ∧
    read_file (fs (world st2)) (target (world st1) e) = Some data ∧
    read_file (fs (world (run w).1)) (target (world st1) e) = Some data ∧
    read_file (fs (world (run w).1)) (components (src_path e)) = Some data ∧
    (is_dir (fs (world st1)) (components (dst_path e)) = false →
     target (world st1) e = components (dst_path e)) ∧
    dst_path e = dst_dir +:+ snd e ∧
    log st2 = log st1 ++ ["Copied " +:+ src_path e +:+ " to " +:+ dst_path e] ∧
    copied_line e ∈ log (run w).1.
Proof.
  intros He Hfiles Hpre Hex Hstep.
  destruct (files_split_paths pre e post Hfiles) as (Hs & Hd & Hi).
  assert (e ∈ files) as Hin by (rewrite Hfiles; apply elem_of_middle).
  pose proof Hstep as Hcp. rewrite copy_entry_exists in Hcp by done.
  destruct (shutil_copy (src_path e) (dst_path e) st1) as [st1' [[]|ex]] eqn:Hsh;
    [|done].
  injection Hcp as Hst2.
  pose proof Hsh as (_ & _ & Hlog & Hfr)%(respects_shutil_copy e Hd Hi).
  apply shutil_copy_Ret in Hsh as (data & Hsrc & Htgt); [|done..].
  assert (fs (world st2) = fs (world st1') ∧ log st2 = log st1 ++ [copied_line e])
    as [Hfs2 Hlog2].
  { subst st2. simpl. by rewrite Hlog. }
  assert (target (world st1) e = components (dst_path e)
          ∨ target (world st1) e = components (dst_inside e)) as Htc.
  { destruct (target_cases (world st1) e Hd) as [[_ ->]|[_ ->]]; auto. }
  assert (kind_at (fs (world st2)) (components (src_path e)) = IsFile data) as Hsrc2.
  { rewrite Hfs2. destruct Hfr as [_ Hfr]. rewrite Hfr; [done|].
    destruct (manifest_ok_inv files files_ok) as (_ & Hnw & _).
    intros Ht. apply (Hnw e Hin). by apply (targets_writes e). }
  assert (run w = script_from post st2) as Hrun.
  { rewrite (run_from_entry w st0 pre e post st1) by done.
    by apply script_from_step. }
  destruct (script_from post st2) as [st' o] eqn:Hrest.
  rewrite Hrun. simpl.
  exists data. split_and!.
  - by apply read_file_kind.
  - apply read_file_kind. by rewrite Hfs2.
  - apply read_file_kind.
    apply (rest_of_run pre e post _ _ _ (target (world st1) e)) in Hrest as [-> _];
      [by rewrite Hfs2|done|tauto].
  - apply read_file_kind.
    by apply (rest_of_run pre e post _ _ _ (components (src_path e))) in Hrest
      as [-> _]; [|done|left].
  - intros Hnd. destruct (target_cases (world st1) e Hd) as [[Hd' _]|[_ ->]]; [|done].
    congruence.
  - by destruct (files_paths_eq e Hin) as [_ ->].
  - exact Hlog2.
  - apply (rest_of_run pre e post _ _ _ (components (src_path e))) in Hrest
      as [_ Hpl]; [|done|by left].
    eapply elem_of_prefix; [|exact Hpl]. rewrite Hlog2.
    apply elem_of_app. right. apply list_elem_of_here.
Qed.

Lemma C1_witness_first_pair_copied :
  (ensure_dst_dir (mkState world_fresh []) = (after_ensure world_fresh, Ret tt) ∧
   files = [] ++ technomancer :: [nature; arcane] ∧
   for_files [] (after_ensure world_fresh) = (after_ensure world_fresh, Ret tt) ∧
   os_path_exists (world (after_ensure world_fresh)) (src_path technomancer) = true ∧
   copy_entry technomancer (after_ensure world_fresh)
   = (after_entries 1 world_fresh, Ret tt)) ∧
  read_file (fs (world (run world_fresh).1)) (components (dst_path technomancer))
  = Some (Py.encode "PNG 1").
Proof.
  assert (ensure_dst_dir (mkState world_fresh []) = (after_ensure world_fresh, Ret tt))
    as H1 by (vm_compute; reflexivity).
  assert (files = [] ++ technomancer :: [nature; arcane]) as H2 by reflexivity.
  assert (for_files [] (after_ensure world_fresh) = (after_ensure world_fresh, Ret tt))
    as H3 by (vm_compute; reflexivity).
  assert (os_path_exists (world (after_ensure world_fresh)) (src_path technomancer)
          = true) as H4 by (vm_compute; reflexivity).
  assert (copy_entry technomancer (after_ensure world_fresh)
          = (after_entries 1 world_fresh, Ret tt)) as H5 by (vm_compute; reflexivity).
  split; [exact (conj H1 (conj H2 (conj H3 (conj H4 H5))))|].
  destruct (C1_existing_source_is_copied _ _ _ _ _ _ _ H1 H2 H3 H4 H5)
    as (data & Hs & _ & Hrun & _ & Ht & _).
  rewrite <- Ht, Hrun, <- Hs by (vm_compute; reflexivity).
  vm_compute. reflexivity.
Defined.

(** ** The line of the directory *)

Lemma created_line_not_entry line e : entry_line e line → line ≠ created_line.
Proof.
  intros Hl%is_entry_line_entry ->. by rewrite is_entry_line_created in Hl.
Qed.

Lemma filter_created_entry_lines l lines :
  Forall2 entry_line l lines →
  filter (λ line, line = created_line) lines = [].
Proof.
  induction 1 as [|e line l lines He _ IH]; [done|].
  rewrite filter_cons_False; [done|]. by eapply created_line_not_entry.
Qed.

(** The log from a point in the loop on: lines of pairs, then the
    listing or the line of the exception. *)
Lemma script_from_log l st st' o :
  l ⊆ files →
  script_from l st = (st', o) →
  ∃ k lines tl,
    log st' = log st ++ lines ++ tl ∧
    Forall2 entry_line (take k l) lines ∧
    Forall (λ line, line ≠ created_line) tl.
Proof.
  intros Hsub H. rewrite script_from_eq in H.
  apply write_log_inv in H as (_ & _ & -> & _).
  destruct ((for_files l ;; list_destination) st) as [st1 o1] eqn:Hbody.
  assert (∀ e, e ∈ l → abs_file_path (dst_path e) = true
                       ∧ abs_file_path (dst_inside e) = true) as Hp.
  { intros e He. apply files_paths. by apply Hsub. }
  assert (∀ ex, error_line ex ≠ created_line) as Herr by (intros ex; discriminate).
  destruct o1 as [[]|ex].
  - apply bind_Ret in Hbody as ([] & st2 & Hf & Hls).
    apply for_files_log in Hf as (k & lines & Hl & Hall & _); [|done].
    apply list_destination_inv in Hls as (_ & names & Hl' & _).
    exists k, lines, ["Destination contents:"; Py.str_list names].
    simpl. rewrite Hl', Hl, <- app_assoc. split_and!; [done..|].
    repeat constructor; discriminate.
  - apply bind_Raise in Hbody as [Hf|([] & st2 & Hf & Hls)].
    + apply for_files_log in Hf as (k & lines & Hl & Hall & _); [|done].
      exists k, lines, [error_line ex]. simpl. rewrite Hl, <- app_assoc.
      split_and!; [done..|]. repeat constructor. apply Herr.
    + apply for_files_log in Hf as (k & lines & Hl & Hall & _); [|done].
      apply list_destination_inv in Hls.
      exists k, lines, ["Destination contents:"; error_line ex].
      simpl. rewrite Hls, Hl, <- !app_assoc. split_and!; [done..|].
      repeat constructor; [discriminate|apply Herr].
Qed.

Lemma filter_created_from l st st' o :
  l ⊆ files →
  script_from l st = (st', o) →
  filter (λ line, line = created_line) (log st')
  = filter (λ line, line = created_line) (log st).
Proof.
  intros Hsub H.
  apply script_from_log in H as (k & lines & tl & -> & Hall & Htl); [|done].
  rewrite !filter_app, (filter_created_entry_lines _ _ Hall).
  assert (filter (λ line, line = created_line) tl = []) as ->.
  { induction Htl as [|x tl Hx _ IH]; [done|]. by rewrite filter_cons_False. }
  by rewrite !app_nil_r.
Qed.

Lemma error_line_not_created ex : error_line ex ≠ created_line.
Proof. unfold error_line, created_line. intros H. discriminate H. Qed.

(** C5 as stated fails when something other than a directory is in the
    way: with a regular file where the destination directory should be, the
    directory does not exist before the run, [os.makedirs] raises, and the
    directory does not exist after the run either; the log has no line of a
    creation. *)
Lemma C5_counterexample_file_at_destination :
  is_dir (fs world_dst_is_file) (components dst_dir) = false ∧
  os_path_exists world_dst_is_file dst_dir = false ∧
  is_dir (fs (after_run world_dst_is_file)) (components dst_dir) = false ∧
  created_line ∉ log (fst (run world_dst_is_file)).
Proof.
  split_and!; [vm_compute; reflexivity..|].
  apply (bool_decide_eq_false_1 (created_line ∈ log (fst (run world_dst_is_file)))).
  vm_compute. reflexivity.
Qed.

(** C5, as the code has it.  When [os.path.exists] does not find the
    destination directory, [os.makedirs] is called; when it raises nothing,
    the directory and every directory above it exist at the end of the run
    and the log has the line of the creation exactly once; when it raises,
    the log has no such line.  When [os.path.exists] finds the directory,
    the first statement of the [try] block does nothing, the directory is
    there at the end of the run and the log has no line of a creation. *)
Theorem C5_destination_directory_created_once w :
  created_line = "Created directory " +:+ dst_dir ∧
  (os_path_exists w dst_dir = false →
   (∀ st0, ensure_dst_dir (mkState w []) = (st0, Ret tt) →
      os_makedirs dst_dir (mkState w []) = (mkState (world st0) [], Ret tt) ∧
      is_dir (fs (world (run w).1)) (components dst_dir) = true ∧
      (∀ c, c `prefix_of` components dst_dir →
            is_dir (fs (world (run w).1)) c = true) ∧
      length (filter (λ line, line = created_line) (log (run w).1)) = 1) ∧
   (∀ st0 ex, ensure_dst_dir (mkState w []) = (st0, Raise ex) →
      os_makedirs dst_dir (mkState w []) = (st0, Raise ex) ∧
      length (filter (λ line, line = created_line) (log (run w).1)) = 0)) ∧
  (os_path_exists w dst_dir = true →
     ensure_dst_dir (mkState w []) = (mkState w [], Ret tt) ∧
     is_dir (fs (world (run w).1)) (components dst_dir) = true ∧
     length (filter (λ line, line = created_line) (log (run w).1)) = 0).
Proof.
  split; [reflexivity|].
  assert (∀ st0, ensure_dst_dir (mkState w []) = (st0, Ret tt) →
     is_dir (fs (world (run w).1)) (components dst_dir) = true ∧
     filter (λ line, line = created_line) (log (run w).1)
     = filter (λ line, line = created_line) (log st0)) as Hrun.
  { intros st0 He. rewrite (run_from_ensure w st0 He).
    destruct (script_from files st0) as [st' o] eqn:H. simpl. split.
    - pose proof H as (_ & _ & _ & [Hd _])%script_from_inv;
        [|apply files_ok|done].
      rewrite Hd. by apply ensure_dst_dir_inv in He as [He _].
    - by apply filter_created_from in H. }
  split.
  - intros Hex. split.
    + intros st0 He. destruct (Hrun st0 He) as [Hd Hf].
      pose proof He as Hmk. rewrite ensure_dst_dir_absent in Hmk by done.
      apply ensure_dst_dir_inv in He as [_ Hl]. simpl in Hl. rewrite Hex in Hl.
      split_and!.
      * unfold bind in Hmk.
        destruct (os_makedirs dst_dir (mkState w [])) as [st1 [[]|ex]] eqn:Hm;
          [|discriminate Hmk].
        apply respects_os_makedirs in Hm as Hr. destruct Hr as (_ & _ & Hl1 & _).
        simpl in Hl1. unfold log_append in Hmk. injection Hmk as <-. simpl.
        destruct st1 as [w1 l1]. simpl in *. by subst l1.
      * done.
      * intros c [c' Hc]. apply is_dir_kind.
        destruct c' as [|s c'].
        -- rewrite app_nil_r in Hc. rewrite <- Hc. by apply is_dir_kind.
        -- apply (kind_at_below _ c (s :: c')); [done|].
           rewrite <- Hc. apply is_dir_kind in Hd. by rewrite Hd.
      * rewrite Hf, Hl. cbn [log app].
        rewrite filter_cons_True by reflexivity. reflexivity.
    + intros st0 ex He. split.
      * rewrite ensure_dst_dir_absent in He by done. unfold bind in He.
        destruct (os_makedirs dst_dir (mkState w [])) as [st1 [[]|ex']];
          [discriminate He|]. by injection He as -> ->.
      * rewrite run_log. unfold try_block. rewrite (bind_eq_Raise _ _ _ _ _ He).
        cbn [logged log].
        apply ensure_dst_dir_inv in He as [_ Hl]. simpl in Hl. rewrite Hl.
        cbn [app]. rewrite filter_cons_False; [done|].
        apply error_line_not_created.
  - intros Hex.
    pose proof (ensure_dst_dir_exists (mkState w []) Hex) as He.
    destruct (Hrun _ He) as [Hd Hf]. split_and!; [done..|].
    by rewrite Hf.
Qed.

Lemma C5_witness_directory_created :
  (os_path_exists world_fresh dst_dir = false ∧
   ensure_dst_dir (mkState world_fresh []) = (after_ensure world_fresh, Ret tt)) ∧
  is_dir (fs world_fresh) (components dst_dir) = false ∧
  is_dir (fs (world (run world_fresh).1)) (components dst_dir) = true ∧
  length (filter (λ line, line = created_line) (log (run world_fresh).1)) = 1.
Proof.
  assert (os_path_exists world_fresh dst_dir = false) as H1 by (vm_compute; reflexivity).
  assert (ensure_dst_dir (mkState world_fresh []) = (after_ensure world_fresh, Ret tt))
    as H2 by (vm_compute; reflexivity).
  split; [exact (conj H1 H2)|]. split; [vm_compute; reflexivity|].
  destruct (C5_destination_directory_created_once world_fresh) as (_ & Hc & _).
  destruct (proj1 (Hc H1) _ H2) as (_ & Hd & _ & Hn). exact (conj Hd Hn).
Defined.

(** ** Something other than a directory at the destination directory *)

Lemma run_from_ensure_Raise w st ex :
  ensure_dst_dir (mkState w []) = (st, Raise ex) →
  try_block (mkState w []) = (st, Raise ex) ∧
  run w = write_log (mkState (world st) (log st ++ [error_line ex])).
Proof.
  intros He.
  assert (try_block (mkState w []) = (st, Raise ex)) as Ht.
  { unfold try_block. by apply bind_eq_Raise. }
  split; [done|]. rewrite run_eq, Ht. reflexivity.
Qed.

Lemma log_file_not_dst_dir c : c ++ [log_file] ≠ components dst_dir.
Proof.
  intros H. apply (f_equal (@last string)) in H. rewrite last_snoc in H.
  vm_compute in H. discriminate H.
Qed.

(** C10 as stated fails: the destination directory is written with a
    trailing slash, and with a regular file at that path [os.path.exists]
    answers [False].  The creation is attempted, [os.makedirs] raises
    [FileExistsError], the log has the line of that error alone and no pair
    of the manifest is reached. *)
Lemma C10_counterexample_regular_file_at_destination :
  kind_at (fs world_dst_is_file) (components dst_dir) = IsFile [] ∧
  os_path_exists world_dst_is_file dst_dir = false ∧
  snd (ensure_dst_dir (mkState world_dst_is_file []))
  = Raise (OSError EEXIST dst_dir) ∧
  log (run world_dst_is_file).1
  = ["Error: [Errno 17] File exists: '/Users/agustinmontoya/Projectos/MVPs/juego-cartas-educativo/mindspark-duel/public/assets/decks/'"] ∧
  filter (λ line, is_entry_line line) (log (run world_dst_is_file).1) = [].
Proof. vm_compute. split_and!; reflexivity. Qed.

(** C10, as the code has it.  [os.path.exists] finds the destination
    directory only when a directory is there, the path being written with a
    trailing slash; then the creation is skipped: nothing changes and
    nothing is logged.  With a regular file there, [os.path.exists] answers
    [False], [os.makedirs] is called and raises, leaving the file system as
    it was; the log of the run is the line of that error alone, no pair of
    the manifest is reached and the file is still there at the end.  When
    nothing fails for a reason outside the file system, the error is
    [FileExistsError] for the destination directory. *)
Theorem C10_creation_skipped_only_for_a_directory w :
  (os_path_exists w dst_dir = true → kind_at (fs w) (components dst_dir) = IsDir) ∧
  (os_path_exists w dst_dir = true →
     ensure_dst_dir (mkState w []) = (mkState w [], Ret tt)) ∧
  (∀ d, kind_at (fs w) (components dst_dir) = IsFile d →
     os_path_exists w dst_dir = false ∧
     ∃ st ex,
       ensure_dst_dir (mkState w []) = (st, Raise ex) ∧
       os_makedirs dst_dir (mkState w []) = (st, Raise ex) ∧
       try_block (mkState w []) = (st, Raise ex) ∧
       fs (world st) = fs w ∧
       log (run w).1 = ["Error: " +:+ str_exn ex] ∧
       filter (λ line, is_entry_line line = true) (log (run w).1) = [] ∧
       kind_at (fs (world (run w).1)) (components dst_dir) = IsFile d ∧
       (faults w = [] → ex = OSError EEXIST dst_dir)).
Proof.
  split_and!.
  - apply exists_dst_dir_kind.
  - intros Hex. exact (ensure_dst_dir_exists (mkState w []) Hex).
  - intros d Hk. change ("Error: " +:+ str_exn ?e) with (error_line e).
    destruct (ensure_dst_dir_occupied (mkState w []) d Hk)
      as (Hex & st & ex & He & Hfs & Hcwd & Hlog & Hx).
    split; [exact Hex|]. exists st, ex.
    destruct (run_from_ensure_Raise w st ex He) as [Ht Hrun].
    assert (log (run w).1 = [error_line ex]) as Hl.
    { rewrite run_log, Ht. simpl. rewrite Hlog. reflexivity. }
    split_and!; [exact He| |exact Ht|exact Hfs|exact Hl| | |exact Hx].
    + rewrite ensure_dst_dir_absent in He by exact Hex. unfold bind in He.
      destruct (os_makedirs dst_dir (mkState w [])) as [st1 [[]|ex']];
        [discriminate He|]. by injection He as -> ->.
    + rewrite Hl. rewrite filter_cons_False; [done|].
      by rewrite is_entry_line_error.
    + rewrite Hrun.
      destruct (write_log _) as [st' o] eqn:Hw. simpl.
      apply write_log_inv in Hw as (_ & _ & _ & [_ Hfr]).
      rewrite Hfr.
      * simpl. rewrite Hfs. exact Hk.
      * rewrite canon_log_file. apply log_file_not_dst_dir.
Qed.

Lemma C10_witness_regular_file_at_destination :
  kind_at (fs world_dst_is_file) (components dst_dir) = IsFile [] ∧
  os_path_exists world_dst_is_file dst_dir = false ∧
  ∃ st, os_makedirs dst_dir (mkState world_dst_is_file [])
        = (st, Raise (OSError EEXIST dst_dir)).
Proof.
  assert (kind_at (fs world_dst_is_file) (components dst_dir) = IsFile []) as H
    by (vm_compute; reflexivity).
  split; [exact H|].
  destruct (C10_creation_skipped_only_for_a_directory world_dst_is_file)
    as (_ & _ & Hc).
  destruct (Hc _ H) as (Hex & st & ex & _ & Hm & _ & _ & _ & _ & _ & Hx).
  split; [exact Hex|]. exists st. rewrite <- (Hx eq_refl). exact Hm.
Defined.

(** ** A second run *)


Lemma target_is_dir w e :
  abs_file_path (dst_path e) = true →
  target w e = if is_dir (fs w) (components (dst_path e))
               then components (dst_inside e) else components (dst_path e).
Proof.
  intros Hd. by destruct (target_cases w e Hd) as [[-> ->]|[-> ->]].
Qed.

Lemma exists_abs_file w p :
  abs_file_path p = true →
  os_path_exists w p = true ↔ kind_at (fs w) (components p) ≠ Missing.
Proof.
  intros (Hs & He & Hp)%abs_file_path_inv.
  rewrite os_path_exists_plain, canon_abs, He by done.
  destruct (kind_at (fs w) (components p)); simpl; split; (done || congruence).
Qed.

Lemma components_abs_not_nil p : abs_file_path p = true → components p ≠ [].
Proof.
  intros (Hs & _ & Hp)%abs_file_path_inv.
  rewrite <- (canon_abs (mkWorld ∅ [] []) p Hs). by apply canon_not_nil.
Qed.

Lemma for_files_split pre e post st st' :
  for_files (pre ++ e :: post) st = (st', Ret tt) →
  ∃ sta stb,
    for_files pre st = (sta, Ret tt) ∧ copy_entry e sta = (stb, Ret tt) ∧
    for_files post stb = (st', Ret tt).
Proof.
  rewrite for_files_app. intros ([] & sta & Hpre & H)%bind_Ret.
  rewrite for_files_cons in H. apply bind_Ret in H as ([] & stb & He & Hpost).
  by exists sta, stb.
Qed.

(** A pair does not write its own source. *)
Lemma files_src_apart e :
  e ∈ files →
  components (src_path e) ≠ components (dst_path e) ∧
  components (src_path e) ≠ components (dst_inside e).
Proof.
  intros He.
  destruct (manifest_ok_inv files files_ok) as (_ & Hsrc & _ & _).
  split; intros Heq; apply (Hsrc e He), (targets_writes e); [done| |done|].
  - left. exact Heq.
  - right. exact Heq.
Qed.



Lemma for_files_nil st : for_files [] st = (st, Ret tt).
Proof. reflexivity. Qed.








(** * Beyond the specification *)

(** ** Where a run writes *)

(** A run in two moves: the first statement makes directories along the
    destination directory, the rest writes files of the manifest and the
    log file. *)
Lemma run_frames w :
  ∃ t0,
    makes (λ q, q `prefix_of` components dst_dir) (fs w) t0 ∧
    frame (λ q, q ∈ writes files ∨ q = cwd w ++ [log_file]) t0 (fs (after_run w)) ∧
    (os_path_exists w dst_dir = true → t0 = fs w).
Proof.
  destruct (ensure_dst_dir (mkState w [])) as [st0 o0] eqn:He.
  exists (fs (world st0)).
  pose proof (respects_ensure_dst_dir_at _ _ _ He) as (Hc & _ & _ & Hm).
  split; [exact Hm|]. split.
  - unfold after_run. destruct o0 as [[]|ex].
    + rewrite (run_from_ensure w st0 He).
      destruct (script_from files st0) as [st' o] eqn:H.
      apply script_from_inv in H as (_ & _ & _ & Hfr); [|apply files_ok|done].
      change (fst (st', o)) with st'. rewrite Hc in Hfr. exact Hfr.
    + destruct (run_from_ensure_Raise w st0 ex He) as [_ ->].
      destruct (write_log _) as [st' o] eqn:H.
      apply write_log_inv in H as (_ & _ & _ & Hfr).
      change (fst (st', o)) with st'. cbn [world] in Hfr.
      rewrite canon_log_file, Hc in Hfr.
      eapply frame_mono; [|exact Hfr]. intros q <-. by right.
  - intros Hex. by rewrite (ensure_dst_dir_exists (mkState w []) Hex) in He; simplify_eq.
Qed.

(** X1. Whatever happens during a run, a path is left as it was unless it
    is the destination path of a pair of the manifest, the path inside it
    that [shutil.copy] uses when the destination is a directory, the log
    file, or a path along the destination directory where nothing was. *)
Theorem X1_run_footprint w q :
  q ∉ writes files → q ≠ cwd w ++ [log_file] →
  kind_at (fs w) q ≠ Missing ∨ ¬ q `prefix_of` components dst_dir →
  kind_at (fs (after_run w)) q = kind_at (fs w) q.
Proof.
  intros Hw Hl Hq.
  destruct (run_frames w) as (t0 & [Hg Hm] & [_ Hfr] & _).
  rewrite Hfr; [|intros [H|H]; [exact (Hw H)|exact (Hl H)]].
  destruct Hq as [Hq|Hq]; [exact (Hg q Hq)|exact (Hm q Hq)].
Qed.

Lemma X1_witness_first_source :
  kind_at (fs (after_run world_fresh)) (components (src_path technomancer))
  = kind_at (fs world_fresh) (components (src_path technomancer)).
Proof.
  apply X1_run_footprint.
  - vm_compute. intros H. repeat (apply elem_of_cons in H as [H|H]; [discriminate H|]).
    by apply elem_of_nil in H.
  - vm_compute. discriminate.
  - left. vm_compute. discriminate.
Defined.

(** X2. A run removes no directory and turns none into a file; a
    directory that is there afterwards was there before or lies along the
    destination directory; and when [os.path.exists] finds the destination
    directory the directories are the same before and after. *)
Theorem X2_run_keeps_directories w q :
  (is_dir (fs w) q = true → is_dir (fs (after_run w)) q = true) ∧
  (is_dir (fs (after_run w)) q = true →
   is_dir (fs w) q = true ∨ q `prefix_of` components dst_dir) ∧
  (os_path_exists w dst_dir = true →
   is_dir (fs (after_run w)) q = is_dir (fs w) q).
Proof.
  destruct (run_frames w) as (t0 & [Hg Hm] & [Hd _] & Hex).
  split_and!.
  - intros H%is_dir_kind. rewrite Hd. apply is_dir_kind.
    rewrite Hg; [done|]. by rewrite H.
  - rewrite Hd. intros H.
    destruct (decide (q `prefix_of` components dst_dir)) as [|Hq]; [by right|].
    left. by rewrite <- (is_dir_kind_eq _ _ _ _ (Hm q Hq)).
  - intros H. by rewrite Hd, (Hex H).
Qed.

(** ** What the lines of the log tell *)

(** A line that the loop added was added by one pair, gone through
    without an exception. *)
Lemma for_files_line l st st' o line :
  (∀ e, e ∈ l → abs_file_path (dst_path e) = true ∧ abs_file_path (dst_inside e) = true) →
  for_files l st = (st', o) → line ∈ log st' →
  line ∈ log st ∨
  ∃ pre e post st1 st2,
    l = pre ++ e :: post ∧ for_files pre st = (st1, Ret tt) ∧
    copy_entry e st1 = (st2, Ret tt) ∧ log st2 = log st1 ++ [line].
Proof.
  revert st. induction l as [|e l IH]; intros st Hp H Hin.
  { rewrite for_files_nil in H. injection H as <- <-. by left. }
  rewrite for_files_cons in H.
  destruct (copy_entry e st) as [sta [[]|ex]] eqn:He.
  - rewrite (bind_eq_Ret _ _ _ _ _ He) in H.
    destruct (Hp e) as [Hd Hi]; [apply list_elem_of_here|].
    pose proof (copy_entry_log e st sta _ Hd Hi He) as (line' & _ & Hl).
    destruct (IH sta) as [Hin'|(pre & x & post & st1 & st2 & -> & Hpre & Hx & Hl')];
      [intros x Hx; by apply Hp, list_elem_of_further|exact H|exact Hin| |].
    + rewrite Hl in Hin'. apply elem_of_app in Hin' as [Hin'|Hin']; [by left|].
      apply list_elem_of_singleton in Hin' as ->.
      right. exists [], e, l, st, sta. by rewrite for_files_nil.
    + right. exists (e :: pre), x, post, st1, st2. split_and!; [done| |done..].
      rewrite for_files_cons. by rewrite (bind_eq_Ret _ _ _ _ _ He).
  - rewrite (bind_eq_Raise _ _ _ _ _ He) in H. injection H as <- <-.
    destruct (Hp e) as [Hd Hi]; [apply list_elem_of_here|].
    pose proof (copy_entry_log e st sta _ Hd Hi He) as Hl. simpl in Hl.
    left. by rewrite <- Hl.
Qed.

(** Lines of pairs come from the loop alone. *)
Lemma run_entry_line w line :
  is_entry_line line = true → line ∈ log (run w).1 →
  ∃ st0 pre e post st1 st2,
    ensure_dst_dir (mkState w []) = (st0, Ret tt) ∧
    files = pre ++ e :: post ∧ for_files pre st0 = (st1, Ret tt) ∧
    copy_entry e st1 = (st2, Ret tt) ∧ log st2 = log st1 ++ [line].
Proof.
  intros Hline Hin. rewrite run_log in Hin.
  assert (∀ l, Forall (λ x, is_entry_line x = false) l → line ∉ l) as Hno.
  { intros l Hl Hx. rewrite Forall_forall in Hl. apply Hl in Hx. congruence. }
  assert (∀ st0 st1 o, ensure_dst_dir (mkState w []) = (st0, Ret tt) →
            for_files files st0 = (st1, o) → line ∈ log st1 →
            ∃ st0 pre e post st1 st2,
              ensure_dst_dir (mkState w []) = (st0, Ret tt) ∧
              files = pre ++ e :: post ∧ for_files pre st0 = (st1, Ret tt) ∧
              copy_entry e st1 = (st2, Ret tt) ∧ log st2 = log st1 ++ [line]) as Hloop.
  { intros st0 st1 o He Hf Hl.
    apply (for_files_line files st0 st1 o line files_paths Hf) in Hl
      as [Hl|(pre & e & post & sta & stb & Hfiles & Hpre & Hx & Hlog)].
    - exfalso. apply ensure_dst_dir_inv in He as [_ He]. simpl in He.
      destruct (os_path_exists w dst_dir).
      + subst st0. by apply elem_of_nil in Hl.
      + rewrite He in Hl. apply list_elem_of_singleton in Hl as ->.
        by rewrite is_entry_line_created in Hline.
    - by exists st0, pre, e, post, sta, stb. }
  destruct (try_block (mkState w [])) as [st o] eqn:Ht.
  apply try_block_inv in Ht as [(ex & -> & He)|(st0 & He & H)].
  - exfalso. simpl in Hin. apply ensure_dst_dir_inv in He as [_ Hl]. simpl in Hl.
    rewrite Hl in Hin. apply list_elem_of_singleton in Hin as ->.
    by rewrite is_entry_line_error in Hline.
  - destruct H as [(ex & -> & Hf)|(st1 & Hf & Hls)].
    + simpl in Hin. apply elem_of_app in Hin as [Hin|Hin]; [by eapply Hloop|].
      exfalso. apply list_elem_of_singleton in Hin as ->.
      by rewrite is_entry_line_error in Hline.
    + apply (Hloop st0 st1 _ He Hf).
      destruct o as [[]|ex]; apply list_destination_inv in Hls.
      * destruct Hls as (_ & names & Hl & _). simpl in Hin. rewrite Hl in Hin.
        apply elem_of_app in Hin as [Hin|Hin]; [done|]. exfalso.
        apply (Hno ["Destination contents:"; Py.str_list names]); [|done].
        repeat constructor; apply is_entry_line_listing.
      * simpl in Hin. rewrite Hls, <- app_assoc in Hin.
        apply elem_of_app in Hin as [Hin|Hin]; [done|]. exfalso.
        apply (Hno ["Destination contents:"; error_line ex]); [|done].
        repeat constructor; apply is_entry_line_error.
Qed.

(** Two pairs of the manifest do not share a line. *)
Lemma files_lines_apart e e' :
  e ∈ files → e' ∈ files →
  copied_line e = copied_line e' ∨ not_found_line e = not_found_line e' → e = e'.
Proof.
  unfold files. intros He He'.
  repeat (apply elem_of_cons in He as [->|He]);
    try (by apply elem_of_nil in He);
    repeat (apply elem_of_cons in He' as [->|He']);
    try (by apply elem_of_nil in He');
    try reflexivity;
    (intros [H|H]; vm_compute in H; discriminate H).
Qed.

(** A pair gone through with its source found: where the bytes are at the
    end of the run. *)
Lemma entry_copied_end w st0 pre e post st1 st2 :
  ensure_dst_dir (mkState w []) = (st0, Ret tt) →
  files = pre ++ e :: post →
  for_files pre st0 = (st1, Ret tt) →
  copy_entry e st1 = (st2, Ret tt) →
  os_path_exists (world st1) (src_path e) = true →
  ∃ data,
    kind_at (fs (world st1)) (components (src_path e)) = IsFile data ∧
    kind_at (fs (world st2)) (target (world st1) e) = IsFile data ∧
    kind_at (fs (after_run w)) (components (src_path e)) = IsFile data ∧
    kind_at (fs (after_run w)) (target (world st1) e) = IsFile data ∧
    is_dir (fs (after_run w)) (components (dst_path e))
    = is_dir (fs (world st1)) (components (dst_path e)).
Proof.
  intros Hen Hfiles Hpre Hce Hex.
  assert (e ∈ files) as He by (rewrite Hfiles; apply elem_of_middle).
  destruct (files_split_paths pre e post Hfiles) as (Hs & Hd & Hi).
  destruct (files_src_apart e He) as [Hsd Hsi].
  assert (run w = script_from post st2) as Hrun.
  { rewrite (run_from_entry w st0 pre e post st1 Hen Hfiles Hpre).
    by apply script_from_step. }
  unfold after_run. rewrite Hrun.
  destruct (script_from post st2) as [stz o] eqn:Hz.
  change (fst (stz, o)) with stz.
  destruct (rest_of_run pre e post st2 stz o _ Hfiles Hz (or_introl eq_refl))
    as [Hksrc _].
  destruct (rest_of_run pre e post st2 stz o _ Hfiles Hz (or_intror (or_introl eq_refl)))
    as [Hkdst _].
  destruct (rest_of_run pre e post st2 stz o _ Hfiles Hz (or_intror (or_intror eq_refl)))
    as [Hkin _].
  pose proof (respects_copy_entry e Hd Hi _ _ _ Hce) as (_ & _ & _ & Hdir & Hfr).
  rewrite copy_entry_exists in Hce by exact Hex.
  destruct (shutil_copy (src_path e) (dst_path e) st1) as [stc [[]|ex]] eqn:Hsc;
    [|discriminate Hce].
  apply shutil_copy_Ret in Hsc as (data & Hsrc & Htgt); [|exact Hs|exact Hd|exact Hi].
  injection Hce as <-. cbn [world] in *.
  exists data. split_and!; [exact Hsrc|exact Htgt| | |].
  - rewrite Hksrc, Hfr; [exact Hsrc|].
    intros [Hq|Hq]; [exact (Hsd Hq)|exact (Hsi Hq)].
  - destruct (target_cases (world st1) e Hd) as [[_ Ht]|[_ Ht]]; rewrite Ht in *.
    + by rewrite Hkin.
    + by rewrite Hkdst.
  - by rewrite (is_dir_kind_eq _ _ _ _ Hkdst), Hdir.
Qed.

(** X3. The log does not claim a copy that was not made.  When the final
    log has the line [Copied <source> to <destination>] of a pair, then,
    however the run went on afterwards, at the end of the run the source is
    a regular file and its bytes are in the file at the destination path,
    or, when that path is a directory, in the file of the source's name
    inside it. *)
Theorem X3_copied_line_is_true w e :
  e ∈ files → copied_line e ∈ log (run w).1 →
  ∃ data,
    read_file (fs (after_run w)) (components (src_path e)) = Some data ∧
    (read_file (fs (after_run w)) (components (dst_path e)) = Some data ∨
     is_dir (fs (after_run w)) (components (dst_path e)) = true ∧
     read_file (fs (after_run w)) (components (dst_inside e)) = Some data).
Proof.
  intros He Hin.
  apply run_entry_line in Hin
    as (st0 & pre & e' & post & st1 & st2 & Hen & Hfiles & Hpre & Hce & Hlog);
    [|apply is_entry_line_copied].
  assert (e' ∈ files) as He' by (rewrite Hfiles; apply elem_of_middle).
  destruct (files_split_paths pre e' post Hfiles) as (Hs & Hd & Hi).
  destruct (os_path_exists (world st1) (src_path e')) eqn:Hex.
  2:{ rewrite (copy_entry_missing e' st1 Hex) in Hce. injection Hce as <-.
      simpl in Hlog. apply (f_equal last) in Hlog. rewrite !last_snoc in Hlog.
      apply (inj Some) in Hlog. symmetry in Hlog.
      by apply copied_not_not_found in Hlog. }
  assert (e' = e) as ->.
  { apply files_lines_apart; [done..|]. left.
    pose proof (copy_entry_log e' st1 st2 _ Hd Hi Hce) as (line & [Hl|Hl] & Hlog').
    - rewrite Hlog' in Hlog. apply (f_equal last) in Hlog.
      rewrite !last_snoc in Hlog. apply (inj Some) in Hlog. by rewrite <- Hl.
    - rewrite Hlog' in Hlog. apply (f_equal last) in Hlog.
      rewrite !last_snoc in Hlog. apply (inj Some) in Hlog.
      rewrite Hl in Hlog. symmetry in Hlog. by apply copied_not_not_found in Hlog. }
  destruct (entry_copied_end w st0 pre e post st1 st2 Hen Hfiles Hpre Hce Hex)
    as (data & _ & _ & Hsrc & Htgt & Hdir').
  exists data. split; [by apply read_file_kind|].
  destruct (target_cases (world st1) e Hd) as [[Hdir Ht]|[_ Ht]]; rewrite Ht in Htgt.
  - right. split; [by rewrite Hdir'|by apply read_file_kind].
  - left. by apply read_file_kind.
Qed.

Lemma X3_witness_first_pair :
  (technomancer ∈ files ∧ copied_line technomancer ∈ log (run world_fresh).1) ∧
  ∃ data,
    read_file (fs (after_run world_fresh)) (components (src_path technomancer))
    = Some data ∧
    (read_file (fs (after_run world_fresh)) (components (dst_path technomancer))
     = Some data ∨
     is_dir (fs (after_run world_fresh)) (components (dst_path technomancer)) = true ∧
     read_file (fs (after_run world_fresh)) (components (dst_inside technomancer))
     = Some data).
Proof.
  assert (technomancer ∈ files) as H1 by apply list_elem_of_here.
  assert (copied_line technomancer ∈ log (run world_fresh).1) as H2
    by (vm_compute; apply list_elem_of_further, list_elem_of_here).
  split; [exact (conj H1 H2)|].
  exact (X3_copied_line_is_true world_fresh technomancer H1 H2).
Defined.

(** X4. Nor does the log report a source as missing that
    [os.path.exists] found.  When the final log has the line
    [Source file not found: <source>] of a pair, the loop has reached the
    pair, [os.path.exists] has answered [False] for its source there, the
    pair has left the file system as it was, and at the end of the run the
    source path shows what it showed then. *)
Theorem X4_not_found_line_is_true w e :
  e ∈ files → not_found_line e ∈ log (run w).1 →
  ∃ st0 pre post st1,
    ensure_dst_dir (mkState w []) = (st0, Ret tt) ∧
    files = pre ++ e :: post ∧
    for_files pre st0 = (st1, Ret tt) ∧
    os_path_exists (world st1) (src_path e) = false ∧
    copy_entry e st1 = (mkState (world st1) (log st1 ++ [not_found_line e]), Ret tt) ∧
    kind_at (fs (after_run w)) (components (src_path e))
    = kind_at (fs (world st1)) (components (src_path e)).
Proof.
  intros He Hin.
  apply run_entry_line in Hin
    as (st0 & pre & e' & post & st1 & st2 & Hen & Hfiles & Hpre & Hce & Hlog);
    [|apply is_entry_line_not_found].
  assert (e' ∈ files) as He' by (rewrite Hfiles; apply elem_of_middle).
  destruct (files_split_paths pre e' post Hfiles) as (Hs & Hd & Hi).
  destruct (os_path_exists (world st1) (src_path e')) eqn:Hex.
  { exfalso. rewrite (copy_entry_exists e' st1 Hex) in Hce.
    destruct (shutil_copy (src_path e') (dst_path e') st1) as [stc [[]|ex]];
      [|discriminate Hce].
    injection Hce as <-. simpl in Hlog.
    apply (f_equal last) in Hlog. rewrite !last_snoc in Hlog.
    apply (inj Some) in Hlog. by apply copied_not_not_found in Hlog. }
  assert (e' = e) as ->.
  { apply files_lines_apart; [done..|]. right.
    rewrite (copy_entry_missing e' st1 Hex) in Hce. injection Hce as <-.
    simpl in Hlog. apply (f_equal last) in Hlog. rewrite !last_snoc in Hlog.
    by apply (inj Some) in Hlog. }
  exists st0, pre, post, st1.
  split_and!; [exact Hen|exact Hfiles|exact Hpre|exact Hex|
               exact (copy_entry_missing e st1 Hex)|].
  unfold after_run.
  rewrite (run_from_entry w st0 pre e post st1 Hen Hfiles Hpre).
  rewrite (script_from_step e post st1 st2 Hce).
  destruct (script_from post st2) as [stz o] eqn:Hz.
  change (fst (stz, o)) with stz.
  destruct (rest_of_run pre e post st2 stz o _ Hfiles Hz (or_introl eq_refl))
    as [-> _].
  rewrite (copy_entry_missing e st1 Hex) in Hce. by injection Hce as <-.
Qed.

Lemma X4_witness_third_pair :
  (arcane ∈ files ∧ not_found_line arcane ∈ log (run world_fresh).1) ∧
  ∃ st0 pre post st1,
    ensure_dst_dir (mkState world_fresh []) = (st0, Ret tt) ∧
    files = pre ++ arcane :: post ∧
    for_files pre st0 = (st1, Ret tt) ∧
    os_path_exists (world st1) (src_path arcane) = false ∧
    copy_entry arcane st1
    = (mkState (world st1) (log st1 ++ [not_found_line arcane]), Ret tt) ∧
    kind_at (fs (after_run world_fresh)) (components (src_path arcane))
    = kind_at (fs (world st1)) (components (src_path arcane)).
Proof.
  assert (arcane ∈ files) as H1
    by apply list_elem_of_further, list_elem_of_further, list_elem_of_here.
  assert (not_found_line arcane ∈ log (run world_fresh).1) as H2
    by (vm_compute;
        apply list_elem_of_further, list_elem_of_further, list_elem_of_further,
              list_elem_of_here).
  split; [exact (conj H1 H2)|].
  exact (X4_not_found_line_is_true world_fresh arcane H1 H2).
Defined.

(** ** The end of the log *)

Lemma try_block_last w st o :
  try_block (mkState w []) = (st, o) →
  match o with
  | Ret _ => ∃ names, last (log (run w).1) = Some (Py.str_list names)
  | Raise ex => last (log (run w).1) = Some (error_line ex)
  end.
Proof.
  intros Ht. rewrite run_log, Ht. destruct o as [[]|ex]; simpl.
  - apply try_block_log in Ht as (hd & k & lines & tl & -> & _ & _ & _ & names & ->).
    exists names. rewrite !app_assoc.
    change ["Destination contents:"; Py.str_list names]
      with (["Destination contents:"] ++ [Py.str_list names]).
    rewrite app_assoc. apply last_snoc.
  - apply last_snoc.
Qed.

(** X5. The last line of the log tells how the run went: it begins with
    [Error: ] when, and only when, something was raised inside the [try]
    block, and it is the listing, which begins with a bracket, when, and
    only when, nothing was.  The log is never empty. *)
Theorem X5_last_line_tells_the_outcome w :
  ∃ line,
    last (log (run w).1) = Some line ∧
    (has_prefix "Error: " line = true
     ↔ ∃ st ex, try_block (mkState w []) = (st, Raise ex)) ∧
    (has_prefix "[" line = true
     ↔ ∃ st, try_block (mkState w []) = (st, Ret tt)).
Proof.
  destruct (try_block (mkState w [])) as [st o] eqn:Ht.
  pose proof (try_block_last w st o Ht) as Hlast.
  destruct o as [[]|ex].
  - destruct Hlast as [names Hlast]. exists (Py.str_list names).
    split; [exact Hlast|]. split; split.
    + intros H. discriminate H.
    + intros (st' & ex & H). discriminate H.
    + intros _. by exists st.
    + reflexivity.
  - exists (error_line ex). split; [exact Hlast|]. split; split.
    + intros _. by exists st, ex.
    + reflexivity.
    + intros H. discriminate H.
    + intros (st' & H). discriminate H.
Qed.

(** ** The listing *)

Lemma files_dst_components e :
  e ∈ files → components (dst_path e) = components dst_dir ++ [snd e].
Proof.
  unfold files. intros He.
  repeat (apply elem_of_cons in He as [-> | He]); [by vm_compute..|].
  by apply elem_of_nil in He.
Qed.

Lemma string_app_assoc a b c : (a +:+ b) +:+ c = a +:+ b +:+ c.
Proof.
  induction a as [|x a IH]; [done|].
  change (String x ((a +:+ b) +:+ c) = String x (a +:+ b +:+ c)). by rewrite IH.
Qed.

Lemma string_app_nil_r a : a +:+ EmptyString = a.
Proof.
  induction a as [|x a IH]; [done|].
  change (String x (a +:+ EmptyString) = String x a). by rewrite IH.
Qed.

(** [repr] of every name of the list stands in [str] of the list. *)
Lemma str_list_infix n names :
  n ∈ names → ∃ pre post, Py.str_list names = pre +:+ Py.repr n +:+ post.
Proof.
  intros Hn.
  assert (∃ pre post, String.concat ", " (map Py.repr names) = pre +:+ Py.repr n +:+ post)
    as (pre & post & Heq).
  { induction names as [|x l IH]; [by apply elem_of_nil in Hn|].
    apply elem_of_cons in Hn as [->|Hn].
    - destruct l as [|y l].
      + exists EmptyString, EmptyString. simpl. by rewrite string_app_nil_r.
      + exists EmptyString, (", " +:+ String.concat ", " (map Py.repr (y :: l))).
        reflexivity.
    - destruct (IH Hn) as (pre & post & Heq).
      destruct l as [|y l]; [by apply elem_of_nil in Hn|].
      exists (Py.repr x +:+ ", " +:+ pre), post.
      change (String.concat ", " (map Py.repr (x :: y :: l)))
        with (Py.repr x +:+ ", " +:+ String.concat ", " (map Py.repr (y :: l))).
      rewrite Heq. rewrite !string_app_assoc. reflexivity. }
  exists ("[" +:+ pre), (post +:+ "]"). unfold Py.str_list. rewrite Heq.
  rewrite !string_app_assoc. reflexivity.
Qed.

Lemma files_dst_simple e : e ∈ files → simple_name (snd e) = true.
Proof.
  unfold files. intros He.
  repeat (apply elem_of_cons in He as [-> | He]); [by vm_compute..|].
  by apply elem_of_nil in He.
Qed.

(** X6. When the [try] block has raised nothing, the listing in the last
    line of the log names, between single quotes, the destination of every
    pair that the log says was copied, and something is at the destination
    path of the pair when the block ends. *)
Theorem X6_listing_names_the_copies w st e :
  try_block (mkState w []) = (st, Ret tt) → e ∈ files →
  copied_line e ∈ log (run w).1 →
  ∃ line pre post,
    last (log (run w).1) = Some line ∧
    line = pre +:+ "'" +:+ snd e +:+ "'" +:+ post ∧
    kind_at (fs (world st)) (components (dst_path e)) ≠ Missing.
Proof.
  intros Ht He Hin.
  apply run_entry_line in Hin
    as (st0' & pre & e' & post & sta' & stb' & Hen' & Hfiles & Hpre' & Hce' & Hlog);
    [|apply is_entry_line_copied].
  assert (e' ∈ files) as He' by (rewrite Hfiles; apply elem_of_middle).
  destruct (files_split_paths pre e' post Hfiles) as (Hs & Hd & Hi).
  destruct (os_path_exists (world sta') (src_path e')) eqn:Hex.
  2:{ rewrite (copy_entry_missing e' sta' Hex) in Hce'. injection Hce' as <-.
      simpl in Hlog. apply (f_equal last) in Hlog. rewrite !last_snoc in Hlog.
      apply (inj Some) in Hlog. symmetry in Hlog.
      by apply copied_not_not_found in Hlog. }
  assert (e' = e) as ->.
  { apply files_lines_apart; [done..|]. left.
    pose proof (copy_entry_log e' sta' stb' _ Hd Hi Hce') as (line & [Hl|Hl] & Hlog').
    - rewrite Hlog' in Hlog. apply (f_equal last) in Hlog.
      rewrite !last_snoc in Hlog. apply (inj Some) in Hlog. by rewrite <- Hl.
    - rewrite Hlog' in Hlog. apply (f_equal last) in Hlog.
      rewrite !last_snoc in Hlog. apply (inj Some) in Hlog.
      rewrite Hl in Hlog. symmetry in Hlog. by apply copied_not_not_found in Hlog. }
  clear Hlog.
  rewrite run_log, Ht. simpl.
  apply try_block_inv in Ht
    as [(ex & Hx & _)|(st0 & Hen & [(ex & Hx & _)|(st1 & Hf & Hls)])];
    [discriminate Hx..|].
  rewrite Hen in Hen'. injection Hen' as <-.
  apply list_destination_inv in Hls as (Hfs & names & Hl & _ & Hnames).
  assert (kind_at (fs (world st1)) (components (dst_path e)) ≠ Missing) as Hk.
  { rewrite Hfiles in Hf.
    apply for_files_split in Hf as (sta & stb & Hpre & Hce & Hpost).
    rewrite Hpre in Hpre'. injection Hpre' as <-.
    destruct (files_split_apart pre e post _ Hfiles (or_intror (or_introl eq_refl)))
      as [Hdw _].
    pose proof (respects_copy_entry e Hd Hi _ _ _ Hce) as (_ & _ & _ & Hdir & _).
    rewrite copy_entry_exists in Hce by exact Hex.
    destruct (shutil_copy (src_path e) (dst_path e) sta) as [stc [[]|ex]] eqn:Hsc;
      [|discriminate Hce].
    apply shutil_copy_Ret in Hsc as (data & _ & Htgt); [|exact Hs|exact Hd|exact Hi].
    injection Hce as <-. cbn [world] in *.
    apply (respects_for_files files) in Hpost as (_ & _ & _ & [_ Hfr]);
      [|apply files_ok|].
    2:{ rewrite Hfiles. intros x Hx. apply elem_of_app. right.
        by apply list_elem_of_further. }
    cbn [world] in Hfr. rewrite (Hfr _ Hdw).
    destruct (target_cases (world sta) e Hd) as [[Hisd Ht]|[_ Ht]].
    - rewrite <- Hdir in Hisd. apply is_dir_kind in Hisd. by rewrite Hisd.
    - rewrite Ht in Htgt. by rewrite Htgt. }
  assert (snd e ∈ names) as Hn.
  { apply Hnames. by rewrite <- (files_dst_components e He). }
  destruct (str_list_infix _ _ Hn) as (p & q & Hline).
  exists (Py.str_list names), p, q. split_and!.
  - rewrite Hl.
    change ["Destination contents:"; Py.str_list names]
      with (["Destination contents:"] ++ [Py.str_list names]).
    rewrite app_assoc. apply last_snoc.
  - rewrite Hline, (repr_simple _ (files_dst_simple e He)).
    rewrite !string_app_assoc. reflexivity.
  - by rewrite Hfs.
Qed.

Lemma X6_witness_first_pair :
  (try_block (mkState world_fresh []) = (try_end world_fresh, Ret tt) ∧
   technomancer ∈ files ∧
   copied_line technomancer ∈ log (run world_fresh).1) ∧
  ∃ line pre post,
    last (log (run world_fresh).1) = Some line ∧
    line = pre +:+ "'technomancer-box.png'" +:+ post ∧
    kind_at (fs (world (try_end world_fresh))) (components (dst_path technomancer))
    ≠ Missing.
Proof.
  assert (try_block (mkState world_fresh []) = (try_end world_fresh, Ret tt)) as H1
    by (vm_compute; reflexivity).
  assert (technomancer ∈ files) as H2 by apply list_elem_of_here.
  assert (copied_line technomancer ∈ log (run world_fresh).1) as H3
    by (vm_compute; apply list_elem_of_further, list_elem_of_here).
  split; [exact (conj H1 (conj H2 H3))|].
  exact (X6_listing_names_the_copies world_fresh _ technomancer H1 H2 H3).
Defined.

(** ** Lines stay lines *)

Lemma contains_app c a b :
  Py.contains c (a +:+ b) = Py.contains c a || Py.contains c b.
Proof.
  induction a as [|x a IH]; [done|]. simpl. by rewrite IH, orb_assoc.
Qed.

Lemma hexdigit_not_newline n : bool_decide (Py.hexdigit n = ascii_of_nat 10) = false.
Proof.
  unfold Py.hexdigit.
  do 16 (destruct n as [|n]; [reflexivity|]). by destruct n.
Qed.

(** [repr] escapes the newline. *)
Lemma repr_char_no_newline q c :
  q ≠ ascii_of_nat 10 → Py.contains (ascii_of_nat 10) (Py.repr_char q c) = false.
Proof.
  intros Hq. unfold Py.repr_char.
  destruct (bool_decide (c = Py.backslash)); [reflexivity|].
  destruct (bool_decide (c = q)).
  { simpl. rewrite bool_decide_eq_false_2 by done. reflexivity. }
  destruct (bool_decide (nat_of_ascii c = 10)) eqn:H10; [reflexivity|].
  destruct (bool_decide (nat_of_ascii c = 13)); [reflexivity|].
  destruct (bool_decide (nat_of_ascii c = 9)); [reflexivity|].
  destruct (bool_decide (nat_of_ascii c < 32) || bool_decide (nat_of_ascii c = 127)).
  { cbn [Py.contains]. rewrite !hexdigit_not_newline. reflexivity. }
  cbn [Py.contains]. rewrite orb_false_r.
  apply bool_decide_eq_false. intros ->.
  apply bool_decide_eq_false in H10. by apply H10.
Qed.

Lemma repr_body_no_newline q s :
  q ≠ ascii_of_nat 10 → Py.contains (ascii_of_nat 10) (Py.repr_body q s) = false.
Proof.
  intros Hq. induction s as [|c s IH]; [done|]. simpl.
  by rewrite contains_app, repr_char_no_newline, IH.
Qed.

Lemma repr_no_newline s : Py.contains (ascii_of_nat 10) (Py.repr s) = false.
Proof.
  unfold Py.repr.
  set (q := if Py.contains Py.squote s && negb (Py.contains Py.dquote s)
            then Py.dquote else Py.squote).
  assert (q ≠ ascii_of_nat 10) as Hq
    by (unfold q; destruct (_ && _); discriminate).
  pose proof (repr_body_no_newline q s Hq) as Hb.
  change (String q (Py.repr_body q s) +:+ String q EmptyString)
    with (String q (Py.repr_body q s +:+ String q EmptyString)).
  cbn [Py.contains]. rewrite contains_app, Hb. cbn [Py.contains].
  rewrite bool_decide_eq_false_2 by done. reflexivity.
Qed.

Lemma str_list_no_newline names :
  Py.contains (ascii_of_nat 10) (Py.str_list names) = false.
Proof.
  unfold Py.str_list.
  change ("[" +:+ String.concat ", " (map Py.repr names) +:+ "]")
    with (String "[" (String.concat ", " (map Py.repr names) +:+ "]")).
  cbn [Py.contains]. rewrite contains_app. simpl.
  rewrite orb_false_r.
  induction names as [|x names IH]; [reflexivity|].
  destruct names as [|y names].
  - simpl. apply repr_no_newline.
  - change (String.concat ", " (map Py.repr (x :: y :: names)))
      with (Py.repr x +:+ ", " +:+ String.concat ", " (map Py.repr (y :: names))).
    rewrite !contains_app, repr_no_newline, IH. reflexivity.
Qed.

Lemma files_lines_no_newline e line :
  e ∈ files → entry_line e line → Py.contains (ascii_of_nat 10) line = false.
Proof.
  unfold files. intros He Hl.
  repeat (apply elem_of_cons in He as [-> | He]);
    try (by apply elem_of_nil in He);
    (destruct Hl as [-> | ->]; vm_compute; reflexivity).
Qed.

(** X7. No file name can break the log into more lines than it has
    entries: [str] of the listing escapes every newline of a name, so when
    the [try] block has raised nothing no line of the log holds a newline
    character, whatever the files in the destination directory are
    called. *)
Theorem X7_log_lines_hold_no_newline w st :
  try_block (mkState w []) = (st, Ret tt) →
  Forall (λ line, Py.contains (ascii_of_nat 10) line = false) (log (run w).1).
Proof.
  intros Ht. rewrite run_log, Ht. simpl.
  apply try_block_log in Ht as (hd & k & lines & tl & -> & Hhd & Hall & -> & names & ->).
  rewrite take_ge in Hall by done.
  apply Forall_app. split; [|apply Forall_app; split].
  - destruct Hhd as [-> | ->]; [constructor|].
    repeat constructor.
  - assert (∀ l, l ⊆ files → Forall2 entry_line l lines →
              Forall (λ line, Py.contains (ascii_of_nat 10) line = false) lines) as H.
    { clear. intros l Hsub Hall. induction Hall as [|e line l lines He _ IH];
        constructor.
      - apply (files_lines_no_newline e); [apply Hsub, list_elem_of_here|done].
      - apply IH. intros x Hx. by apply Hsub, list_elem_of_further. }
    by apply (H files).
  - constructor; [reflexivity|].
    constructor; [apply str_list_no_newline|constructor].
Qed.

Lemma X7_witness_fresh_destination :
  try_block (mkState world_fresh []) = (try_end world_fresh, Ret tt) ∧
  Forall (λ line, Py.contains (ascii_of_nat 10) line = false)
         (log (run world_fresh).1).
Proof.
  assert (try_block (mkState world_fresh []) = (try_end world_fresh, Ret tt)) as H1
    by (vm_compute; reflexivity).
  split; [exact H1|].
  exact (X7_log_lines_hold_no_newline world_fresh _ H1).
Defined.

(** ** The paths of a pair *)

Lemma rpartition_no_sep b :
  Py.contains Py.sep b = false → Py.rpartition b = (EmptyString, b).
Proof.
  induction b as [|x b IH]; [done|]. simpl.
  intros [Hx Hb]%orb_false_iff. rewrite (IH Hb). simpl. by rewrite Hx.
Qed.

Lemma rpartition_app a b :
  Py.endswith Py.sep a = true → Py.contains Py.sep b = false →
  Py.rpartition (a +:+ b) = (a, b).
Proof.
  intros Ha Hb. induction a as [|x a IH]; [done|].
  destruct a as [|y a].
  - simpl in Ha. change (String x EmptyString +:+ b) with (String x b).
    cbn [Py.rpartition]. rewrite (rpartition_no_sep b Hb). simpl. by rewrite Ha.
  - specialize (IH Ha).
    change (String x (String y a) +:+ b) with (String x (String y a +:+ b)).
    cbn [Py.rpartition]. rewrite IH. reflexivity.
Qed.

Lemma endswith_app c a b :
  b ≠ EmptyString → Py.endswith c (a +:+ b) = Py.endswith c b.
Proof.
  intros Hb. induction a as [|x a IH]; [done|].
  change (String x a +:+ b) with (String x (a +:+ b)). cbn [Py.endswith].
  destruct (a +:+ b) eqn:Hab; [|exact IH].
  destruct a; [|done]. simpl in Hab. done.
Qed.

Lemma startswith_no_sep b : Py.contains Py.sep b = false → Py.startswith Py.sep b = false.
Proof. destruct b as [|x b]; [done|]. simpl. by intros [Hx _]%orb_false_iff. Qed.

(** X8. The paths the loop builds for a pair of names.  A name that does
    not begin with a slash is appended to the directory; a destination name
    that begins with a slash is used as it is, the destination directory
    being dropped by [os.path.join]; and for names without slashes the file
    that [shutil.copy] writes when the destination path is a directory is
    the destination path, a slash, and the source name. *)
Theorem X8_paths_of_a_pair e :
  (Py.startswith Py.sep (fst e) = false → src_path e = src_dir +:+ fst e) ∧
  (Py.startswith Py.sep (snd e) = false → dst_path e = dst_dir +:+ snd e) ∧
  (Py.startswith Py.sep (snd e) = true → dst_path e = snd e) ∧
  (Py.contains Py.sep (fst e) = false →
   Py.os_path_basename (src_path e) = fst e) ∧
  (Py.contains Py.sep (fst e) = false → snd e ≠ EmptyString →
   Py.startswith Py.sep (snd e) = false → Py.endswith Py.sep (snd e) = false →
   dst_inside e = dst_path e +:+ "/" +:+ fst e).
Proof.
  assert (∀ b, Py.startswith Py.sep b = false → Py.os_path_join src_dir b = src_dir +:+ b)
    as Hsrc by (intros b Hb; unfold Py.os_path_join; by rewrite Hb).
  assert (∀ b, Py.startswith Py.sep b = false → Py.os_path_join dst_dir b = dst_dir +:+ b)
    as Hdst by (intros b Hb; unfold Py.os_path_join; by rewrite Hb).
  assert (Py.contains Py.sep (fst e) = false →
          Py.os_path_basename (src_path e) = fst e) as Hbase.
  { intros Hf. unfold src_path. rewrite Hsrc by by apply startswith_no_sep.
    unfold Py.os_path_basename. by rewrite rpartition_app. }
  split_and!.
  - apply Hsrc.
  - apply Hdst.
  - intros Hs. unfold dst_path, Py.os_path_join. by rewrite Hs.
  - exact Hbase.
  - intros Hf Hne Hs He. unfold dst_inside. rewrite (Hbase Hf).
    assert (dst_path e = dst_dir +:+ snd e) as Hdp by apply Hdst, Hs.
    assert (Py.endswith Py.sep (dst_path e) = false) as Hend
      by (by rewrite Hdp, endswith_app).
    assert (dst_path e ≠ EmptyString) as Hnil
      by (rewrite Hdp; unfold dst_dir; discriminate).
    unfold Py.os_path_join. rewrite (startswith_no_sep _ Hf), Hend.
    by rewrite bool_decide_eq_false_2.
Qed.

(** ** [os.path.exists] and the slash at the end *)

(** X9. For a path made of ordinary names: [os.path.exists] finds it
    only when something is there, and, when the path is written with a
    slash at the end, only when a directory is there: with a regular file
    at such a path the answer is [False], as it is when nothing is there. *)
Theorem X9_exists_and_the_trailing_slash w p :
  plain_path p = true →
  (os_path_exists w p = true → kind_at (fs w) (canon w p) ≠ Missing) ∧
  (Py.endswith Py.sep p = true → os_path_exists w p = true →
   kind_at (fs w) (canon w p) = IsDir) ∧
  (Py.endswith Py.sep p = true → ∀ d, kind_at (fs w) (canon w p) = IsFile d →
   os_path_exists w p = false) ∧
  (kind_at (fs w) (canon w p) = Missing → os_path_exists w p = false).
Proof.
  intros Hp. rewrite (os_path_exists_plain w p Hp).
  destruct (kind_at (fs w) (canon w p)) as [|d|]; split_and!;
    try (intros; discriminate); try (intros; reflexivity).
  - intros ->. discriminate.
  - intros -> d' _. reflexivity.
Qed.

Lemma X9_witness_regular_file :
  (plain_path dst_dir = true ∧ Py.endswith Py.sep dst_dir = true ∧
   kind_at (fs world_dst_is_file) (canon world_dst_is_file dst_dir) = IsFile []) ∧
  os_path_exists world_dst_is_file dst_dir = false.
Proof.
  assert (plain_path dst_dir = true) as H1 by (vm_compute; reflexivity).
  assert (Py.endswith Py.sep dst_dir = true) as H2 by (vm_compute; reflexivity).
  assert (kind_at (fs world_dst_is_file) (canon world_dst_is_file dst_dir) = IsFile [])
    as H3 by (vm_compute; reflexivity).
  split; [exact (conj H1 (conj H2 H3))|].
  destruct (X9_exists_and_the_trailing_slash world_dst_is_file dst_dir H1)
    as (_ & _ & H & _).
  exact (H H2 _ H3).
Defined.

(** ** A run that goes through *)

Lemma files_inside_components e :
  e ∈ files → components (dst_inside e) = components (dst_path e) ++ [fst e].
Proof.
  unfold files. intros He.
  repeat (apply elem_of_cons in He as [-> | He]); [by vm_compute..|].
  by apply elem_of_nil in He.
Qed.

Lemma target_in_writes w e l : e ∈ l → e ∈ files → target w e ∈ writes l.
Proof.
  intros Hl He. destruct (manifest_ok_paths files e files_ok He) as (_ & Hd & _).
  apply (targets_writes e); [done|].
  destruct (target_cases w e Hd) as [[_ ->]|[_ ->]]; [by right|by left].
Qed.

Lemma exists_kind_eq w w' p :
  abs_file_path p = true →
  kind_at (fs w') (components p) = kind_at (fs w) (components p) →
  os_path_exists w' p = os_path_exists w p.
Proof.
  intros (Hs & He & Hp)%abs_file_path_inv Hk.
  by rewrite !os_path_exists_plain, !canon_abs, Hk by done.
Qed.

(** The loop over pairs none of which can fail. *)
Lemma for_files_clean l st :
  l ⊆ files → NoDup (writes l) → faults (world st) = [] →
  (∀ e, e ∈ l → kind_at (fs (world st)) (components (src_path e)) ≠ IsDir) →
  (∀ e, e ∈ l → kind_at (fs (world st)) (removelast (target (world st) e)) = IsDir) →
  (∀ e, e ∈ l → kind_at (fs (world st)) (target (world st) e) ≠ IsDir) →
  ∃ st', for_files l st = (st', Ret tt) ∧ faults (world st') = [] ∧
    log st' = log st ++ map (λ e, if os_path_exists (world st) (src_path e)
                                  then copied_line e else not_found_line e) l.
Proof.
  revert st. induction l as [|e l IH]; intros st Hsub Hnd Hf Hsrc Hpar Htgt.
  { exists st. rewrite for_files_nil. by rewrite app_nil_r. }
  assert (e ∈ files) as He by apply Hsub, list_elem_of_here.
  assert (l ⊆ files) as Hsub' by (intros x Hx; by apply Hsub, list_elem_of_further).
  destruct (manifest_ok_paths files e files_ok He) as (Hs & Hd & Hi).
  rewrite writes_cons in Hnd. apply NoDup_cons in Hnd as [Hn1 Hnd].
  apply NoDup_cons in Hnd as [Hn2 Hnd].
  rewrite for_files_cons. cbn [map].
  destruct (kind_at (fs (world st)) (components (src_path e))) as [|data|] eqn:Hk.
  - (* nothing at the source *)
    assert (os_path_exists (world st) (src_path e) = false) as Hex.
    { apply not_true_iff_false. rewrite (exists_abs_file _ _ Hs), Hk.
      intros H. by apply H. }
    rewrite (bind_eq_Ret _ _ _ _ _ (copy_entry_missing e st Hex)), Hex.
    destruct (IH (mkState (world st) (log st ++ [not_found_line e])))
      as (st' & Hl & Hf' & Hlog); [done|done|done|..].
    + intros x Hx. by apply Hsrc, list_elem_of_further.
    + intros x Hx. by apply Hpar, list_elem_of_further.
    + intros x Hx. by apply Htgt, list_elem_of_further.
    + exists st'. split_and!; [done..|]. rewrite Hlog. cbn [log].
      by rewrite <- app_assoc.
  - (* a regular file at the source *)
    assert (os_path_exists (world st) (src_path e) = true) as Hex.
    { apply (exists_abs_file _ _ Hs). by rewrite Hk. }
    set (c := target (world st) e).
    assert (c ≠ []) as Hne.
    { unfold c. destruct (target_cases (world st) e Hd) as [[_ ->]|[_ ->]];
        by apply components_abs_not_nil. }
    assert (kind_at (fs (world st)) (removelast c) = IsDir) as Hpc
      by apply Hpar, list_elem_of_here.
    assert (kind_at (fs (world st)) c ≠ IsDir) as Hkc
      by apply Htgt, list_elem_of_here.
    assert (components (src_path e) ≠ c) as Hsc.
    { unfold c. destruct (files_src_apart e He) as [H1 H2].
      by destruct (target_cases (world st) e Hd) as [[_ ->]|[_ ->]]. }
    assert (c ∉ writes l) as Hcw.
    { unfold c. destruct (target_cases (world st) e Hd) as [[_ ->]|[_ ->]];
        [exact Hn2|].
      intros H. apply Hn1. by apply list_elem_of_further. }
    assert (copy_entry e st
            = (mkState (world (written st c data)) (log st ++ [copied_line e]), Ret tt))
      as Hce.
    { rewrite (copy_entry_exists e st Hex).
      by rewrite (shutil_copy_ok e st data Hf Hs Hd Hi Hk Hsc Hpc Hkc). }
    rewrite (bind_eq_Ret _ _ _ _ _ Hce), Hex.
    set (st1 := mkState (world (written st c data)) (log st ++ [copied_line e])).
    assert (∀ q, q ≠ c → kind_at (fs (world st1)) q = kind_at (fs (world st)) q) as Hother.
    { intros q Hq. unfold st1. cbn [world].
      rewrite (kind_at_written st c data q Hne Hpc Hkc). by rewrite decide_False. }
    assert (∀ x, x ∈ l → target (world st1) x = target (world st) x) as Htx.
    { intros x Hx.
      destruct (manifest_ok_paths files x files_ok (Hsub' x Hx)) as (_ & Hdx & _).
      rewrite !(target_is_dir _ x Hdx).
      rewrite (is_dir_kind_eq (fs (world st1)) (fs (world st))
                 (components (dst_path x)) (components (dst_path x))); [done|].
      apply Hother. intros Heq. apply Hcw. rewrite <- Heq.
      apply (targets_writes x); [done|by left]. }
    destruct (IH st1) as (st' & Hl & Hf' & Hlog); [done|done|done|..].
    + intros x Hx. rewrite Hother; [by apply Hsrc, list_elem_of_further|].
      intros Heq.
      destruct (manifest_ok_inv files files_ok) as (_ & Hsw & _ & _).
      apply (Hsw x (Hsub' x Hx)). rewrite Heq. by apply target_in_writes.
    + intros x Hx. rewrite (Htx x Hx).
      rewrite Hother; [by apply Hpar, list_elem_of_further|].
      intros Heq. apply Hkc. rewrite <- Heq. by apply Hpar, list_elem_of_further.
    + intros x Hx. rewrite (Htx x Hx).
      rewrite Hother; [by apply Htgt, list_elem_of_further|].
      intros Heq. apply Hcw. rewrite <- Heq. by apply target_in_writes, Hsub'.
    + exists st'. split_and!; [done..|]. rewrite Hlog.
      change (log st1) with (log st ++ [copied_line e]).
      rewrite <- app_assoc. apply (f_equal (app (log st))). cbn [app].
      apply (f_equal (cons (copied_line e))).
      apply map_ext_in. intros x Hx%list_elem_of_In.
      rewrite (exists_kind_eq (world st) (world st1) (src_path x)); [done| |].
      * by destruct (manifest_ok_paths files x files_ok (Hsub' x Hx)).
      * apply Hother. intros Heq.
        destruct (manifest_ok_inv files files_ok) as (_ & Hsw & _ & _).
        apply (Hsw x (Hsub' x Hx)). rewrite Heq. by apply target_in_writes.
  - exfalso. by apply (Hsrc e); [apply list_elem_of_here|].
Qed.

(** X12. Enough for a run without error.  When the oracle has nothing to
    raise, the destination directory is there, no source is a directory and
    no file to be written is one, the [try] block raises nothing and the
    log is known beforehand: for each pair, in order, the copy line when
    its source is there and the not-found line when it is not, then the
    two lines of the listing.  When moreover the current directory is there
    and [copy_log.txt] is no directory, the run ends with status 0. *)
Theorem X12_run_without_error w :
  faults w = [] →
  is_dir (fs w) (components dst_dir) = true →
  (∀ e, e ∈ files → kind_at (fs w) (components (src_path e)) ≠ IsDir) →
  (∀ e, e ∈ files → kind_at (fs w) (target w e) ≠ IsDir) →
  ∃ st names,
    try_block (mkState w []) = (st, Ret tt) ∧
    log st = map (λ e, if os_path_exists w (src_path e)
                       then copied_line e else not_found_line e) files
             ++ ["Destination contents:"; Py.str_list names] ∧
    (kind_at (fs w) (cwd w) = IsDir →
     kind_at (fs w) (cwd w ++ [log_file]) ≠ IsDir →
     exit_status (snd (run w)) = 0).
Proof.
  intros Hf Hdir Hsrc Htgt.
  assert (ensure_dst_dir (mkState w []) = (mkState w [], Ret tt)) as Hen.
  { apply ensure_dst_dir_exists. by rewrite exists_dst_dir. }
  destruct (manifest_ok_inv files files_ok) as (Hnd & _ & _ & Hlw).
  destruct (for_files_clean files (mkState w [])) as (st1 & Hl & Hf1 & Hlog);
    [done|exact Hnd|exact Hf|exact Hsrc| |exact Htgt|].
  { intros e He. cbn [world].
    destruct (manifest_ok_paths files e files_ok He) as (_ & Hd & _).
    destruct (target_cases w e Hd) as [[Hisd ->]|[_ ->]].
    - rewrite (files_inside_components e He), removelast_last. by apply is_dir_kind.
    - rewrite (files_dst_components e He), removelast_last. by apply is_dir_kind. }
  pose proof (respects_for_files files files files_ok (reflexivity _) _ _ _ Hl)
    as (Hc1 & _ & _ & [Hd1 Hfr1]).
  cbn [world log] in *.
  destruct (list_destination_ok st1) as [names Hls]; [exact Hf1|..].
  { apply is_dir_kind. by rewrite Hd1. }
  eexists _, names.
  assert (try_block (mkState w []) = (mkState (world st1)
            (log st1 ++ ["Destination contents:"; Py.str_list names]), Ret tt)) as Ht.
  { unfold try_block.
    by rewrite (bind_eq_Ret _ _ _ _ _ Hen), (bind_eq_Ret _ _ _ _ _ Hl). }
  split; [exact Ht|]. split; [cbn [log]; by rewrite Hlog|].
  intros Hcwd Hnolog. rewrite run_eq, Ht. cbn [logged].
  destruct (write_log_ok (mkState (world st1)
              (log st1 ++ ["Destination contents:"; Py.str_list names]))) as [st' Hw].
  - exact Hf1.
  - cbn [world]. rewrite Hc1. apply is_dir_kind. rewrite Hd1. by apply is_dir_kind.
  - cbn [world]. rewrite Hc1, Hfr1; [exact Hnolog|].
    intros Hin. apply (Hlw _ Hin). apply last_snoc.
  - by rewrite Hw.
Qed.

Lemma X12_witness_ready_destination :
  (faults world_ready = [] ∧
   is_dir (fs world_ready) (components dst_dir) = true) ∧
  ∃ st names,
    try_block (mkState world_ready []) = (st, Ret tt) ∧
    log st = map (λ e, if os_path_exists world_ready (src_path e)
                       then copied_line e else not_found_line e) files
             ++ ["Destination contents:"; Py.str_list names].
Proof.
  assert (∀ e, e ∈ files →
            kind_at (fs world_ready) (components (src_path e)) ≠ IsDir) as H3.
  { unfold files. intros e He.
    repeat (apply elem_of_cons in He as [-> | He]);
      [vm_compute; discriminate..|].
    apply elem_of_nil in He. destruct He. }
  assert (∀ e, e ∈ files → kind_at (fs world_ready) (target world_ready e) ≠ IsDir)
    as H4.
  { unfold files. intros e He.
    repeat (apply elem_of_cons in He as [-> | He]);
      [vm_compute; discriminate..|].
    apply elem_of_nil in He. destruct He. }
  assert (faults world_ready = []) as H1 by reflexivity.
  assert (is_dir (fs world_ready) (components dst_dir) = true) as H2
    by (vm_compute; reflexivity).
  split; [exact (conj H1 H2)|].
  destruct (X12_run_without_error world_ready H1 H2 H3 H4) as (st & names & Ht & Hl & _).
  exists st, names. exact (conj Ht Hl).
Defined.

(** ** A copy that fails half way *)

(** X13. Overwriting is not undone.  When both files of a pair can be
    opened and the write then fails after some bytes, the oracle raising at
    the third system call of the copy, the exception leaves the loop body,
    nothing is logged for the pair, and the destination file holds the
    bytes that were written before the failure and no more: what it held
    before is gone.  Nothing else has changed. *)
Theorem X13_failed_write_keeps_the_bytes_written e st data ex n :
  e ∈ files →
  faults (world st) = [None; None; Some (ex, n)] →
  kind_at (fs (world st)) (components (src_path e)) = IsFile data →
  kind_at (fs (world st)) (removelast (target (world st) e)) = IsDir →
  kind_at (fs (world st)) (target (world st) e) ≠ IsDir →
  ∃ st',
    copy_entry e st = (st', Raise ex) ∧ log st' = log st ∧
    kind_at (fs (world st')) (target (world st) e) = IsFile (take n data) ∧
    ∀ q, q ≠ target (world st) e →
         kind_at (fs (world st')) q = kind_at (fs (world st)) q.
Proof.
  intros He Hf Hk Hpar Hkt.
  destruct (manifest_ok_paths files e files_ok He) as (Hs & Hd & Hi).
  assert (components (src_path e) ≠ target (world st) e) as Hne.
  { destruct (files_src_apart e He) as [H1 H2].
    by destruct (target_cases (world st) e Hd) as [[_ ->]|[_ ->]]. }
  assert (target (world st) e ≠ []) as Hnil.
  { destruct (target_cases (world st) e Hd) as [[_ ->]|[_ ->]];
      by apply components_abs_not_nil. }
  eexists. split; [exact (copy_entry_write_fails e st data ex n Hs Hd Hi Hne Hf Hk Hpar Hkt)|].
  cbn [world fs log].
  set (t1 := set_path (fs (world st)) (target (world st) e) (File [])).
  assert (kind_at t1 (target (world st) e) = IsFile []) as Hk1
    by by apply kind_at_set_file_same.
  assert (kind_at t1 (removelast (target (world st) e)) = IsDir) as Hpar1.
  { apply is_dir_kind. unfold t1. rewrite is_dir_set_file by done. by apply is_dir_kind. }
  split_and!; [reflexivity| |].
  - apply kind_at_set_file_same; [done..|]. by rewrite Hk1.
  - intros q Hq. rewrite kind_at_set_file_other; [|by rewrite Hk1|done].
    by apply kind_at_set_file_other.
Qed.

Lemma X13_witness_disk_full :
  (technomancer ∈ files ∧
   faults world_disk_full
   = [None; None;
      Some (OSError2 ENOSPC (src_path technomancer) (dst_path technomancer), 3)]) ∧
  str_exn (OSError2 ENOSPC (src_path technomancer) (dst_path technomancer))
  = "[Errno 28] No space left on device: '" +:+ src_path technomancer
    +:+ "' -> '" +:+ dst_path technomancer +:+ "'" ∧
  ∃ st',
    copy_entry technomancer (mkState world_disk_full [])
    = (st', Raise (OSError2 ENOSPC (src_path technomancer) (dst_path technomancer))) ∧
    kind_at (fs (world st')) (target world_disk_full technomancer)
    = IsFile (Py.encode "PNG").
Proof.
  assert (technomancer ∈ files) as H1 by apply list_elem_of_here.
  assert (faults (world (mkState world_disk_full []))
          = [None; None;
             Some (OSError2 ENOSPC (src_path technomancer) (dst_path technomancer), 3)])
    as H2 by reflexivity.
  assert (kind_at (fs (world (mkState world_disk_full [])))
                  (components (src_path technomancer)) = IsFile (Py.encode "PNG 1"))
    as H3 by (vm_compute; reflexivity).
  assert (kind_at (fs (world (mkState world_disk_full [])))
            (removelast (target (world (mkState world_disk_full [])) technomancer))
          = IsDir) as H4 by (vm_compute; reflexivity).
  assert (kind_at (fs (world (mkState world_disk_full [])))
            (target (world (mkState world_disk_full [])) technomancer) ≠ IsDir) as H5
    by (vm_compute; discriminate).
  split; [exact (conj H1 H2)|]. split; [vm_compute; reflexivity|].
  destruct (X13_failed_write_keeps_the_bytes_written technomancer _ _ _ _ H1 H2 H3 H4 H5)
    as (st' & Hce & _ & Hk & _).
  exists st'. exact (conj Hce Hk).
Defined.

(** ** Reading the log back from the file *)

Lemma no_newline_app_inj x y a b :
  Py.contains (ascii_of_nat 10) x = false → Py.contains (ascii_of_nat 10) y = false →
  x +:+ String (ascii_of_nat 10) a = y +:+ String (ascii_of_nat 10) b →
  x = y ∧ a = b.
Proof.
  revert y. induction x as [|c x IH]; intros [|c' y] Hx Hy H; simpl in *.
  - by injection H as ->.
  - injection H as <- _. by rewrite bool_decide_eq_true_2 in Hy.
  - injection H as -> _. by rewrite bool_decide_eq_true_2 in Hx.
  - injection H as -> H.
    apply orb_false_iff in Hx as [_ Hx]. apply orb_false_iff in Hy as [_ Hy].
    destruct (IH y Hx Hy H) as [-> ->]. done.
Qed.

Lemma no_newline_not_app x y a :
  Py.contains (ascii_of_nat 10) x = false → x ≠ y +:+ String (ascii_of_nat 10) a.
Proof.
  intros Hx ->. rewrite contains_app in Hx. simpl in Hx.
  by rewrite orb_true_r in Hx.
Qed.

Lemma join_lines_cons x y l :
  Py.join_lines (x :: y :: l)
  = x +:+ String (ascii_of_nat 10) (Py.join_lines (y :: l)).
Proof. reflexivity. Qed.

Lemma join_lines_inj l l' :
  l ≠ [] → l' ≠ [] →
  Forall (λ line, Py.contains (ascii_of_nat 10) line = false) l →
  Forall (λ line, Py.contains (ascii_of_nat 10) line = false) l' →
  Py.join_lines l = Py.join_lines l' → l = l'.
Proof.
  revert l'. induction l as [|x l IH]; intros l' Hl Hl' Hn Hn' H; [done|].
  destruct l' as [|y l']; [done|].
  apply Forall_cons in Hn as [Hx Hn]. apply Forall_cons in Hn' as [Hy Hn'].
  destruct l as [|z l], l' as [|z' l'].
  - by rewrite (H : x = y).
  - rewrite join_lines_cons in H. by apply no_newline_not_app in H.
  - rewrite join_lines_cons in H. symmetry in H. by apply no_newline_not_app in H.
  - rewrite !join_lines_cons in H.
    apply no_newline_app_inj in H as [-> H]; [|done..].
    by rewrite (IH (z' :: l')).
Qed.

(** X15. Nothing is lost in writing the log.  Two logs that are not
    empty, with no newline inside a line, and that put the same bytes in
    the file are the same log: the lines can be read back from
    [copy_log.txt]. *)
Theorem X15_log_file_determines_the_log l l' :
  l ≠ [] → l' ≠ [] →
  Forall (λ line, Py.contains (ascii_of_nat 10) line = false) l →
  Forall (λ line, Py.contains (ascii_of_nat 10) line = false) l' →
  Py.encode (Py.join_lines l) = Py.encode (Py.join_lines l') → l = l'.
Proof.
  intros Hl Hl' Hn Hn' H. apply join_lines_inj; [done..|].
  unfold Py.encode in H.
  by rewrite <- (string_of_list_byte_of_string (Py.join_lines l)), H,
             string_of_list_byte_of_string.
Qed.

Lemma X15_witness_two_lines :
  ["Destination contents:"; "[]"] = ["Destination contents:"; "[]"].
Proof.
  apply X15_log_file_determines_the_log.
  - discriminate.
  - discriminate.
  - repeat constructor.
  - repeat constructor.
  - reflexivity.
Defined.

(** ** The lines of the loop *)

(** X16. The lines of the loop are settled by which sources
    [os.path.exists] finds when the loop begins: when the loop has gone
    through its pairs without raising, it has added to the log, in the
    order of the manifest, the copy line of every pair whose source was
    found then and the not-found line of every other pair, and nothing
    else; no pair writes or removes the source of another. *)
Theorem X16_loop_lines_settled_at_the_start l st st' :
  l ⊆ files → for_files l st = (st', Ret tt) →
  log st' = log st ++ map (λ e, if os_path_exists (world st) (src_path e)
                                then copied_line e else not_found_line e) l.
Proof.
  revert st. induction l as [|e l IH]; intros st Hsub H.
  { rewrite for_files_nil in H. injection H as <-. by rewrite app_nil_r. }
  assert (e ∈ files) as He by apply Hsub, list_elem_of_here.
  assert (l ⊆ files) as Hsub' by (intros x Hx; by apply Hsub, list_elem_of_further).
  destruct (manifest_ok_paths files e files_ok He) as (Hs & Hd & Hi).
  rewrite for_files_cons in H. apply bind_Ret in H as ([] & sta & Hce & Hl).
  pose proof (respects_copy_entry e Hd Hi _ _ _ Hce) as (_ & _ & _ & _ & Hfr).
  rewrite (IH sta Hsub' Hl). cbn [map].
  assert (log sta = log st ++ [if os_path_exists (world st) (src_path e)
                               then copied_line e else not_found_line e]) as ->.
  { destruct (os_path_exists (world st) (src_path e)) eqn:Hex.
    - rewrite (copy_entry_exists e st Hex) in Hce.
      destruct (shutil_copy (src_path e) (dst_path e) st) as [stc [[]|ex]] eqn:Hsc;
        [|discriminate Hce].
      apply (respects_shutil_copy e Hd Hi) in Hsc as (_ & _ & Heq & _).
      injection Hce as <-. cbn [log]. by rewrite Heq.
    - rewrite (copy_entry_missing e st Hex) in Hce. by injection Hce as <-. }
  rewrite <- app_assoc. apply (f_equal (app (log st))). cbn [app].
  apply (f_equal (cons _)). apply map_ext_in. intros x Hx%list_elem_of_In.
  destruct (manifest_ok_paths files x files_ok (Hsub' x Hx)) as (Hsx & _ & _).
  rewrite (exists_kind_eq (world st) (world sta) (src_path x) Hsx); [done|].
  apply Hfr. intros Ht.
  destruct (manifest_ok_inv files files_ok) as (_ & Hsw & _ & _).
  apply (Hsw x (Hsub' x Hx)). by apply (targets_writes e).
Qed.

Lemma X16_witness_fresh_destination :
  (files ⊆ files ∧
   for_files files (after_ensure world_fresh) = (after_entries 3 world_fresh, Ret tt)) ∧
  log (after_entries 3 world_fresh)
  = [created_line; copied_line technomancer; copied_line nature; not_found_line arcane].
Proof.
  assert (files ⊆ files) as H1 by (intros x Hx; exact Hx).
  assert (for_files files (after_ensure world_fresh)
          = (after_entries 3 world_fresh, Ret tt)) as H2 by (vm_compute; reflexivity).
  split; [exact (conj H1 H2)|].
  rewrite (X16_loop_lines_settled_at_the_start files _ _ H1 H2).
  vm_compute. reflexivity.
Defined.
